(** * Versioned editing: branches, feature versions, conflicts and merges

    A shallow embedding of [geodraft/versioned_editing]: the models
    ([models.py]), the services ([services.py]), the permission manager
    ([permissions.py]) and the REST actions ([api_views.py]) that the
    properties below talk about.

    Conventions of the embedding.
    - A database table is the list of its rows in insertion order; a
      primary key is a [UUID]; a foreign key holds the key of the row it
      points to.
    - [uuid.uuid4()] is a fresh key (the successor of the largest key of
      the table).
    - [auto_now] / [auto_now_add] columns are not modelled; the instants
      that the code assigns itself ([timezone.now()]) are an argument
      [now] of the action.
    - [GEOSGeometry] and the JSON documents of [JSONField] belong to the
      hosting platform: they are the carrier types of the class
      [Spatial]. *)

From Stdlib Require Import ZArith NArith List Bool String Lia.
From Stdlib Require Import Sorted Permutation DecimalString.
Import ListNotations.

Set Implicit Arguments.

(* ================================================================== *)
(** ** The platform: geometries and JSON documents *)

Class Spatial : Type := {
  (** [django.contrib.gis.geos.GEOSGeometry] *)
  Geometry : Type;
  (** [GEOSGeometry.equals]: spatial equality of two geometries. *)
  equals : Geometry -> Geometry -> bool;
  (** A value of a [JSONField]; Python's [==] on such values is decidable
      equality of the documents. *)
  Properties : Type;
  Properties_eq_dec : forall p q : Properties, {p = q} + {p <> q};
  (** The literal [{}]. *)
  empty_properties : Properties
}.

Definition properties_eqb `{Spatial} (p q : Properties) : bool :=
  if Properties_eq_dec p q then true else false.

(* ================================================================== *)
(** ** Keys, enumerations and rows ([models.py]) *)

Definition UUID := N.
Definition UserId := N.
Definition GroupId := N.
Definition LayerId := N.
Definition Timestamp := Z.

Bind Scope N_scope with UUID UserId GroupId LayerId.
Bind Scope Z_scope with Timestamp.

(** [uuid.uuid4]: a key that no row of the table carries. *)
Definition uuid4 (used : list UUID) : UUID :=
  N.succ (fold_right N.max 0%N used).

(** [EditBranch.STATUS_CHOICES] *)
Inductive BranchStatus : Type :=
| Branch_active | Branch_merged | Branch_closed | Branch_deleted.

(** [FeatureVersion.OPERATION_CHOICES] *)
Inductive Operation : Type :=
| Op_CREATE | Op_UPDATE | Op_DELETE | Op_MERGE.

(** [MergeRequest.STATUS_CHOICES] *)
Inductive MergeRequestStatus : Type :=
| MR_pending | MR_approved | MR_rejected | MR_merged | MR_conflicts.

(** [MergeConflict.CONFLICT_TYPE_CHOICES] *)
Inductive ConflictType : Type :=
| GEOMETRY | PROPERTIES | BOTH | DELETE.

(** [AuditLog.ACTION_CHOICES] *)
Inductive AuditAction : Type :=
| CREATE_BRANCH | DELETE_BRANCH | CREATE_FEATURE | UPDATE_FEATURE
| DELETE_FEATURE | CREATE_MERGE_REQUEST | APPROVE_MERGE_REQUEST
| REJECT_MERGE_REQUEST | RESOLVE_CONFLICT.

(** [user.profile] and [user.profile.role] may be missing attributes
    ([hasattr]): each is an [option]. *)
Record Profile : Type := { profile_role : option string }.

Record User : Type := {
  user_id : UserId;
  is_superuser : bool;
  profile : option Profile
}.

Record UserRole : Type := {
  ur_id : UUID;
  ur_user : UserId;
  ur_group : GroupId;
  ur_role : string;
  can_approve_merges : bool;
  can_manage_branches : bool
}.

Record EditBranch : Type := {
  eb_id : UUID;
  eb_name : string;
  eb_layer : LayerId;
  eb_group : option GroupId;
  parent_branch : option UUID;
  eb_created_by : UserId;
  eb_status : BranchStatus;
  merged_at : option Timestamp
}.

Record MergeRequest : Type := {
  mr_id : UUID;
  source_branch : UUID;
  target_branch : UUID;
  mr_title : string;
  mr_status : MergeRequestStatus;
  mr_created_by : UserId;
  reviewed_by : option UserId;
  review_comment : option string;
  reviewed_at : option Timestamp
}.

Record AuditLog : Type := {
  al_id : UUID;
  al_user : option UserId;
  al_action : AuditAction;
  al_entity_type : string;
  al_entity_id : UUID;
  al_details : list (string * string)
}.

Section Rows.
Context `{Spatial}.

Record FeatureVersion : Type := {
  fv_id : UUID;
  fv_branch : UUID;
  feature_id : UUID;
  version : Z;
  geometry : Geometry;
  properties : Properties;
  operation : Operation;
  is_deleted : bool;
  fv_created_by : UserId;
  comment : option string
}.

Record MergeConflict : Type := {
  mc_id : UUID;
  mc_merge_request : UUID;
  mc_feature_id : UUID;
  conflict_type : ConflictType;
  mc_source_version : UUID;
  mc_target_version : option UUID;
  resolved : bool;
  resolution_strategy : option string;
  resolved_geometry : option Geometry;
  resolved_properties : option Properties;
  resolved_by : option UserId;
  resolved_at : option Timestamp
}.

(** The persisted state: one list of rows per table. *)
Record Db : Type := {
  user_roles : list UserRole;
  branches : list EditBranch;
  feature_versions : list FeatureVersion;
  merge_requests : list MergeRequest;
  conflicts : list MergeConflict;
  audit_log : list AuditLog
}.

End Rows.

(* ================================================================== *)
(** ** Query sets and dictionaries *)

Section Containers.
Variables (K A : Type).

(** [QuerySet.order_by]: a stable sort, [le x y] meaning that [x] may stand
    before [y].  Rows that the ordering does not separate keep their
    insertion order. *)
Fixpoint insert_sorted (le : A -> A -> bool) (x : A) (l : list A) : list A :=
  match l with
  | [] => [x]
  | y :: l' => if le x y then x :: l else y :: insert_sorted le x l'
  end.

Definition order_by (le : A -> A -> bool) (l : list A) : list A :=
  fold_right (insert_sorted le) [] l.

(** [QuerySet.first] *)
Definition first (l : list A) : option A := hd_error l.

(** A Python [dict]: keys are unique and kept in insertion order. *)
Definition dict : Type := list (K * A).

Variable keyb : K -> K -> bool.

Fixpoint dict_get (k : K) (d : dict) : option A :=
  match d with
  | [] => None
  | (k', v) :: d' => if keyb k k' then Some v else dict_get k d'
  end.

(** [k in d] *)
Definition dict_in (k : K) (d : dict) : bool :=
  match dict_get k d with Some _ => true | None => false end.

(** [d[k] = v] *)
Fixpoint dict_set (k : K) (v : A) (d : dict) : dict :=
  match d with
  | [] => [(k, v)]
  | (k', v') :: d' =>
      if keyb k k' then (k', v) :: d' else (k', v') :: dict_set k v d'
  end.

End Containers.

(* ================================================================== *)
(** ** [services.ConflictDetector] *)

Module ConflictDetector.
Section ConflictDetector.
Context `{Spatial}.

(** One entry of the list that [detect_conflicts] returns. *)
Record ConflictData : Type := {
  cd_feature_id : UUID;
  cd_conflict_type : ConflictType;
  cd_source_version : FeatureVersion;
  cd_target_version : FeatureVersion
}.

(** [order_by('feature_id', '-version')] *)
Definition by_feature_id_desc_version (a b : FeatureVersion) : bool :=
  (feature_id a <? feature_id b)%N
  || ((feature_id a =? feature_id b)%N && (version b <=? version a)%Z).

Definition _get_latest_features
  (fvs : list FeatureVersion) (branch : EditBranch) : dict UUID FeatureVersion :=
  let versions :=
    order_by by_feature_id_desc_version
      (filter (fun v => (fv_branch v =? eb_id branch)%N) fvs) in
  fold_left
    (fun features v =>
       if negb (dict_in N.eqb (feature_id v) features)
       then dict_set N.eqb (feature_id v) v features
       else features)
    versions [].

Definition _detect_conflict_type
  (source_version target_version : FeatureVersion) : option ConflictType :=
  if (version source_version =? 1)%Z && (version target_version =? 1)%Z
  then None
  else
    (* the statements after the "both modified" block *)
    let delete_checks :=
      if is_deleted source_version && (version target_version >? 1)%Z
         && negb (is_deleted target_version)
      then Some DELETE
      else if is_deleted target_version && (version source_version >? 1)%Z
              && negb (is_deleted source_version)
      then Some DELETE
      else None in
    if (version source_version >? 1)%Z && (version target_version >? 1)%Z
    then
      let geom_conflict :=
        negb (equals (geometry source_version) (geometry target_version)) in
      let prop_conflict :=
        negb (properties_eqb (properties source_version)
                             (properties target_version)) in
      if geom_conflict && prop_conflict then Some BOTH
      else if geom_conflict then Some GEOMETRY
      else if prop_conflict then Some PROPERTIES
      else delete_checks
    else delete_checks.

Definition detect_conflicts
  (fvs : list FeatureVersion) (source target : EditBranch) : list ConflictData :=
  let source_features := _get_latest_features fvs source in
  let target_features := _get_latest_features fvs target in
  fold_left
    (fun conflicts '(fid, source_version) =>
       match dict_get N.eqb fid target_features with
       | Some target_version =>
           match _detect_conflict_type source_version target_version with
           | Some ty =>
               conflicts ++ [ {| cd_feature_id := fid;
                                 cd_conflict_type := ty;
                                 cd_source_version := source_version;
                                 cd_target_version := target_version |} ]
           | None => conflicts
           end
       | None => conflicts
       end)
    source_features [].

End ConflictDetector.
End ConflictDetector.

(* ================================================================== *)
(** ** Python exceptions and the state of a service call *)

Inductive Exception : Type :=
| DoesNotExist (model : string)   (** a dangling foreign key *)
| ValueError (msg : string)
| NameError (name : string).

(** A computation that reads and writes a state [S] and either returns a
    value or raises; the state reached when it raises is kept (an object
    mutated in memory stays mutated). *)
Definition Py (S A : Type) : Type := S -> (Exception + A) * S.

Definition ret {S A : Type} (a : A) : Py S A := fun s => (inr a, s).

Definition raise {S A : Type} (e : Exception) : Py S A := fun s => (inl e, s).

Definition bind {S A B : Type} (c : Py S A) (k : A -> Py S B) : Py S B :=
  fun s =>
    match c s with
    | (inl e, s') => (inl e, s')
    | (inr a, s') => k a s'
    end.

Definition get {S : Type} : Py S S := fun s => (inr s, s).

Definition put {S : Type} (s : S) : Py S unit := fun _ => (inr tt, s).

Definition modify {S : Type} (f : S -> S) : Py S unit := fun s => (inr tt, f s).

Declare Scope py_scope.
Delimit Scope py_scope with py.
Notation "x <- c ;; k" := (bind c (fun x => k))
  (at level 61, c at next level, right associativity) : py_scope.
Notation "c ;;; k" := (bind c (fun _ => k))
  (at level 61, right associativity) : py_scope.

(** [for x in xs: body x] *)
Fixpoint for_each {S X : Type} (xs : list X) (body : X -> Py S unit) : Py S unit :=
  match xs with
  | [] => ret tt
  | x :: xs' => bind (body x) (fun _ => for_each xs' body)
  end.

(** [@transaction.atomic] over a state whose persisted part is read by
    [persisted] and restored by [restore]: when the body raises, the writes
    made so far are rolled back and the exception propagates. *)
Definition atomic {S D A : Type}
  (persisted : S -> D) (restore : D -> S -> S) (body : Py S A) : Py S A :=
  fun s =>
    match body s with
    | (inl e, s') => (inl e, restore (persisted s) s')
    | (inr a, s') => (inr a, s')
    end.

(** The value of a non-null foreign key: the row that carries the key. *)
Definition deref {S A : Type} (model : string) (key : A -> UUID)
  (tbl : list A) (k : UUID) : Py S A :=
  match find (fun r => (key r =? k)%N) tbl with
  | Some r => ret r
  | None => raise (DoesNotExist model)
  end.

(** [Model.save()]: the row with the same primary key is overwritten; a new
    key is inserted. *)
Fixpoint save_row {A : Type} (key : A -> UUID) (x : A) (tbl : list A) : list A :=
  match tbl with
  | [] => [x]
  | r :: tbl' =>
      if (key r =? key x)%N then x :: tbl' else r :: save_row key x tbl'
  end.

(* ================================================================== *)
(** ** [services.MergeService] *)

Module MergeService.
Section MergeService.
Context `{Spatial}.

Definition set_feature_versions (fvs : list FeatureVersion) (db : Db) : Db :=
  {| user_roles := user_roles db;
     branches := branches db;
     feature_versions := fvs;
     merge_requests := merge_requests db;
     conflicts := conflicts db;
     audit_log := audit_log db |}.

(** [order_by('feature_id', '-version')] *)
Definition by_feature_id_desc_version (a b : FeatureVersion) : bool :=
  (feature_id a <? feature_id b)%N
  || ((feature_id a =? feature_id b)%N && (version b <=? version a)%Z).

(** [order_by('-version')] *)
Definition by_desc_version (a b : FeatureVersion) : bool :=
  (version b <=? version a)%Z.

Definition _get_latest_features
  (fvs : list FeatureVersion) (branch : EditBranch) : dict UUID FeatureVersion :=
  let versions :=
    order_by by_feature_id_desc_version
      (filter (fun v => (fv_branch v =? eb_id branch)%N) fvs) in
  fold_left
    (fun features v =>
       if negb (dict_in N.eqb (feature_id v) features)
       then dict_set N.eqb (feature_id v) v features
       else features)
    versions [].

Definition _versions_equal (version1 version2 : FeatureVersion) : bool :=
  equals (geometry version1) (geometry version2)
  && properties_eqb (properties version1) (properties version2).

Definition _create_merged_version
  (source_version : FeatureVersion) (target_branch : EditBranch)
  : Py Db FeatureVersion :=
  (db <- get ;;
   let latest_in_target :=
     first (order_by by_desc_version
              (filter (fun v => (fv_branch v =? eb_id target_branch)%N
                                && (feature_id v =? feature_id source_version)%N)
                      (feature_versions db))) in
   let next_version :=
     match latest_in_target with
     | Some latest => (version latest + 1)%Z
     | None => 1%Z
     end in
   (* source_version.branch.name *)
   branch <- deref "EditBranch" eb_id (branches db) (fv_branch source_version) ;;
   let merged_version :=
     {| fv_id := uuid4 (map fv_id (feature_versions db));
        fv_branch := eb_id target_branch;
        feature_id := feature_id source_version;
        version := next_version;
        geometry := geometry source_version;
        properties := properties source_version;
        operation := Op_MERGE;
        is_deleted := false;
        fv_created_by := fv_created_by source_version;
        comment := Some ("Merged from branch " ++ eb_name branch)%string |} in
   put (set_feature_versions (feature_versions db ++ [merged_version]) db) ;;;
   ret merged_version)%py.

(** The body of the loop of [merge_branches]; the state is the database
    together with [merged_count]. *)
Definition lift_db {A : Type} (c : Py Db A) : Py (Db * nat) A :=
  fun s =>
    match c (fst s) with
    | (r, db') => (r, (db', snd s))
    end.

Definition merge_feature
  (target_features : dict UUID FeatureVersion) (target_branch : EditBranch)
  (item : UUID * FeatureVersion) : Py (Db * nat) unit :=
  let '(fid, source_version) := item in
  let increment : Py (Db * nat) unit :=
    modify (fun s => (fst s, S (snd s))) in
  if is_deleted source_version then ret tt
  else
    match dict_get N.eqb fid target_features with
    | Some target_version =>
        if (version source_version >? version target_version)%Z
           || negb (_versions_equal source_version target_version)
        then (lift_db (_create_merged_version source_version target_branch) ;;;
              increment)%py
        else ret tt
    | None =>
        (lift_db (_create_merged_version source_version target_branch) ;;;
         increment)%py
    end.

(** [merge_branches]: returns [merged_count]; the writes are one
    transaction. *)
Definition merge_branches (source_branch target_branch : EditBranch) : Py Db nat :=
  atomic (fun db => db) (fun db0 _ => db0)
    (fun db =>
       let source_features := _get_latest_features (feature_versions db) source_branch in
       let target_features := _get_latest_features (feature_versions db) target_branch in
       match for_each source_features (merge_feature target_features target_branch) (db, 0) with
       | (inl e, (db', _)) => (inl e, db')
       | (inr _, (db', merged_count)) => (inr merged_count, db')
       end).

End MergeService.
End MergeService.

(* ================================================================== *)
(** ** [services.ConflictResolver] *)

(** The names bound at module level in [services.py]: its imports, its
    logger and its three classes. *)
Definition services_globals : list string :=
  [ "transaction"; "GEOSGeometry"; "EditBranch"; "FeatureVersion";
    "MergeConflict"; "logging"; "logger";
    "ConflictDetector"; "MergeService"; "ConflictResolver" ]%string.

(** Evaluating a global name of a module: [NameError] when it is unbound. *)
Definition global_name {S : Type} (globals : list string) (name : string) : Py S unit :=
  if existsb (String.eqb name) globals then ret tt else raise (NameError name).

Module ConflictResolver.
Section ConflictResolver.
Context `{Spatial}.

(** The state of a call: the [conflict] object in memory and the database. *)
Record Call : Type := { conflict : MergeConflict; db : Db }.

Definition set_conflict (c : MergeConflict) (s : Call) : Call :=
  {| conflict := c; db := db s |}.

Definition set_db (d : Db) (s : Call) : Call :=
  {| conflict := conflict s; db := d |}.

Definition set_conflicts (cs : list MergeConflict) (d : Db) : Db :=
  {| user_roles := user_roles d;
     branches := branches d;
     feature_versions := feature_versions d;
     merge_requests := merge_requests d;
     conflicts := cs;
     audit_log := audit_log d |}.

(** Attribute assignments on the [conflict] object. *)
Definition assign_resolved_geometry (g : option Geometry) : Py Call unit :=
  modify (fun s =>
    let c := conflict s in
    set_conflict
      {| mc_id := mc_id c; mc_merge_request := mc_merge_request c;
         mc_feature_id := mc_feature_id c; conflict_type := conflict_type c;
         mc_source_version := mc_source_version c;
         mc_target_version := mc_target_version c;
         resolved := resolved c;
         resolution_strategy := resolution_strategy c;
         resolved_geometry := g;
         resolved_properties := resolved_properties c;
         resolved_by := resolved_by c; resolved_at := resolved_at c |} s).

Definition assign_resolved_properties (p : option Properties) : Py Call unit :=
  modify (fun s =>
    let c := conflict s in
    set_conflict
      {| mc_id := mc_id c; mc_merge_request := mc_merge_request c;
         mc_feature_id := mc_feature_id c; conflict_type := conflict_type c;
         mc_source_version := mc_source_version c;
         mc_target_version := mc_target_version c;
         resolved := resolved c;
         resolution_strategy := resolution_strategy c;
         resolved_geometry := resolved_geometry c;
         resolved_properties := p;
         resolved_by := resolved_by c; resolved_at := resolved_at c |} s).

Definition assign_resolution_strategy (st : option string) : Py Call unit :=
  modify (fun s =>
    let c := conflict s in
    set_conflict
      {| mc_id := mc_id c; mc_merge_request := mc_merge_request c;
         mc_feature_id := mc_feature_id c; conflict_type := conflict_type c;
         mc_source_version := mc_source_version c;
         mc_target_version := mc_target_version c;
         resolved := resolved c;
         resolution_strategy := st;
         resolved_geometry := resolved_geometry c;
         resolved_properties := resolved_properties c;
         resolved_by := resolved_by c; resolved_at := resolved_at c |} s).

Definition assign_resolved (b : bool) : Py Call unit :=
  modify (fun s =>
    let c := conflict s in
    set_conflict
      {| mc_id := mc_id c; mc_merge_request := mc_merge_request c;
         mc_feature_id := mc_feature_id c; conflict_type := conflict_type c;
         mc_source_version := mc_source_version c;
         mc_target_version := mc_target_version c;
         resolved := b;
         resolution_strategy := resolution_strategy c;
         resolved_geometry := resolved_geometry c;
         resolved_properties := resolved_properties c;
         resolved_by := resolved_by c; resolved_at := resolved_at c |} s).

Definition assign_resolved_by (u : option UserId) : Py Call unit :=
  modify (fun s =>
    let c := conflict s in
    set_conflict
      {| mc_id := mc_id c; mc_merge_request := mc_merge_request c;
         mc_feature_id := mc_feature_id c; conflict_type := conflict_type c;
         mc_source_version := mc_source_version c;
         mc_target_version := mc_target_version c;
         resolved := resolved c;
         resolution_strategy := resolution_strategy c;
         resolved_geometry := resolved_geometry c;
         resolved_properties := resolved_properties c;
         resolved_by := u; resolved_at := resolved_at c |} s).

Definition assign_resolved_at (t : option Timestamp) : Py Call unit :=
  modify (fun s =>
    let c := conflict s in
    set_conflict
      {| mc_id := mc_id c; mc_merge_request := mc_merge_request c;
         mc_feature_id := mc_feature_id c; conflict_type := conflict_type c;
         mc_source_version := mc_source_version c;
         mc_target_version := mc_target_version c;
         resolved := resolved c;
         resolution_strategy := resolution_strategy c;
         resolved_geometry := resolved_geometry c;
         resolved_properties := resolved_properties c;
         resolved_by := resolved_by c; resolved_at := t |} s).

(** [conflict.source_version] *)
Definition source_version_of : Py Call FeatureVersion :=
  (s <- get ;;
   deref "FeatureVersion" fv_id (feature_versions (db s))
         (mc_source_version (conflict s)))%py.

(** [conflict.target_version], a nullable foreign key *)
Definition target_version_of : Py Call (option FeatureVersion) :=
  (s <- get ;;
   match mc_target_version (conflict s) with
   | None => ret None
   | Some k =>
       v <- deref "FeatureVersion" fv_id (feature_versions (db s)) k ;;
       ret (Some v)
   end)%py.

(** [conflict.save()] *)
Definition save : Py Call unit :=
  modify (fun s =>
    set_db (set_conflicts (save_row mc_id (conflict s) (conflicts (db s))) (db s)) s).

(** [resolve_conflict] run in a module whose global names are [globals];
    [now] is what [timezone.now()] returns where [timezone] is bound. *)
Definition resolve_conflict_in (globals : list string) (now : Timestamp)
  (resolution_strategy : string) (resolved_by : User)
  (manual_geometry : option Geometry) (manual_properties : option Properties)
  : Py Call MergeConflict :=
  atomic db set_db
   ((if (resolution_strategy =? "SOURCE")%string then
       sv <- source_version_of ;;
       assign_resolved_geometry (Some (geometry sv)) ;;;
       sv <- source_version_of ;;
       assign_resolved_properties (Some (properties sv))
     else if (resolution_strategy =? "TARGET")%string then
       tv <- target_version_of ;;
       assign_resolved_geometry (option_map geometry tv) ;;;
       tv <- target_version_of ;;
       assign_resolved_properties
         (Some (match tv with Some v => properties v | None => empty_properties end))
     else if (resolution_strategy =? "MANUAL")%string then
       match manual_geometry, manual_properties with
       | Some g, Some p =>
           assign_resolved_geometry (Some g) ;;;
           assign_resolved_properties (Some p)
       | _, _ => raise (ValueError "Manual resolution requires geometry and properties")
       end
     else raise (ValueError ("Invalid resolution strategy: " ++ resolution_strategy))) ;;;
    assign_resolution_strategy (Some resolution_strategy) ;;;
    assign_resolved true ;;;
    assign_resolved_by (Some (user_id resolved_by)) ;;;
    global_name globals "timezone" ;;;
    assign_resolved_at (Some now) ;;;
    save ;;;
    s <- get ;;
    ret (conflict s))%py.

(** [resolve_conflict] as it stands in [services.py]. *)
Definition resolve_conflict := resolve_conflict_in services_globals.

End ConflictResolver.
End ConflictResolver.

(* ================================================================== *)
(** ** Methods of the models ([models.py]) *)

(** [QuerySet.get(pk=k)] as DRF's [get_object] uses it: [None] is HTTP 404. *)
Definition get_object {A : Type} (key : A -> UUID) (queryset : list A) (pk : UUID)
  : option A :=
  find (fun r => (key r =? pk)%N) queryset.

(** [x in xs] for strings *)
Definition string_in (x : string) (xs : list string) : bool :=
  existsb (String.eqb x) xs.

(** [EditBranch.is_master] *)
Definition is_master (branch : EditBranch) : bool :=
  match parent_branch branch with
  | None => (eb_name branch =? "master")%string
  | Some _ => false
  end.

(** [MergeRequest.can_user_approve]; [target] is [self.target_branch]. *)
Definition can_user_approve
  (roles : list UserRole) (target : EditBranch) (user : User) : bool :=
  if is_superuser user then true
  else
    match eb_group target with
    | Some group =>
        existsb
          (fun r => (ur_user r =? user_id user)%N && (ur_group r =? group)%N
                    && string_in (ur_role r) ["validator"; "admin"]%string
                    && can_approve_merges r)
          roles
    | None => false
    end.

(** [UserRole.save]: merge approval is switched on for validators and
    admins before the row is written. *)
Definition UserRole_save (r : UserRole) (roles : list UserRole) : list UserRole :=
  let r' :=
    if string_in (ur_role r) ["validator"; "admin"]%string
    then {| ur_id := ur_id r; ur_user := ur_user r; ur_group := ur_group r;
            ur_role := ur_role r; can_approve_merges := true;
            can_manage_branches := can_manage_branches r |}
    else r in
  save_row ur_id r' roles.

(* ================================================================== *)
(** ** [permissions.PermissionManager] *)

Module PermissionManager.

Definition is_admin (roles : list UserRole) (user : User) : bool :=
  if is_superuser user then true
  else existsb (fun r => (ur_user r =? user_id user)%N
                         && (ur_role r =? "admin")%string) roles.

Definition can_delete_branch
  (roles : list UserRole) (user : User) (branch : EditBranch) : bool :=
  if is_master branch then false
  else if is_admin roles user then true
  else if (eb_created_by branch =? user_id user)%N then
    match eb_group branch with
    | Some group =>
        let role :=
          first (filter (fun r => (ur_user r =? user_id user)%N
                                  && (ur_group r =? group)%N
                                  && can_manage_branches r) roles) in
        match role with Some _ => true | None => false end
    | None => true
    end
  else false.

(** [target] is [merge_request.target_branch]. *)
Definition can_approve_merge_request
  (roles : list UserRole) (user : User) (target : EditBranch) : bool :=
  if is_admin roles user then true
  else
    match eb_group target with
    | Some group =>
        existsb
          (fun r => (ur_user r =? user_id user)%N && (ur_group r =? group)%N
                    && string_in (ur_role r) ["validator"; "admin"]%string
                    && can_approve_merges r)
          roles
    | None => false
    end.

End PermissionManager.

(* ================================================================== *)
(** ** REST actions ([api_views.py]) *)

Inductive HttpStatus : Type :=
| HTTP_200_OK | HTTP_400_BAD_REQUEST | HTTP_403_FORBIDDEN
| HTTP_404_NOT_FOUND | HTTP_500_INTERNAL_SERVER_ERROR.

(** The payload of a [Response]: [{'error': ...}], [{'message': ...}], or a
    message together with the serialised merge request (kept as its row). *)
Inductive Payload : Type :=
| error (msg : string)
| message (msg : string)
| message_merge_request (msg : string) (merge_request : MergeRequest).

Record Response : Type := { status : HttpStatus; data : Payload }.

(** The response DRF builds when [get_object] finds no row. *)
Definition not_found : Response :=
  {| status := HTTP_404_NOT_FOUND; data := error "Not found." |}.

(** [str(n)] for a count *)
Definition str_of_nat (n : nat) : string :=
  NilEmpty.string_of_uint (Nat.to_uint n).

(** [str(e)] *)
Definition str_of_exception (e : Exception) : string :=
  match e with
  | DoesNotExist model => (model ++ " matching query does not exist.")%string
  | ValueError msg => msg
  | NameError name => ("name '" ++ name ++ "' is not defined")%string
  end.

(** [try: body except Exception as e: handler e] *)
Definition try_except {S A : Type} (body : Py S A) (handler : Exception -> Py S A)
  : Py S A :=
  fun s =>
    match body s with
    | (inl e, s') => handler e s'
    | (inr a, s') => (inr a, s')
    end.

Section DbUpdates.
Context `{Spatial}.

Definition set_branches (bs : list EditBranch) (d : Db) : Db :=
  {| user_roles := user_roles d; branches := bs;
     feature_versions := feature_versions d;
     merge_requests := merge_requests d; conflicts := conflicts d;
     audit_log := audit_log d |}.

Definition set_merge_requests (mrs : list MergeRequest) (d : Db) : Db :=
  {| user_roles := user_roles d; branches := branches d;
     feature_versions := feature_versions d;
     merge_requests := mrs; conflicts := conflicts d;
     audit_log := audit_log d |}.

(** [AuditLog.objects.create(...)] *)
Definition AuditLog_create (user : User) (action : AuditAction)
  (entity_type : string) (entity_id : UUID) (details : list (string * string))
  (d : Db) : Db :=
  {| user_roles := user_roles d; branches := branches d;
     feature_versions := feature_versions d;
     merge_requests := merge_requests d; conflicts := conflicts d;
     audit_log :=
       audit_log d ++
       [ {| al_id := uuid4 (map al_id (audit_log d));
            al_user := Some (user_id user);
            al_action := action;
            al_entity_type := entity_type;
            al_entity_id := entity_id;
            al_details := details |} ] |}.

(** [FeatureVersion.objects.create(...)] *)
Definition FeatureVersion_create (row : FeatureVersion) (d : Db) : Db :=
  MergeService.set_feature_versions (feature_versions d ++ [row]) d.

End DbUpdates.

Module EditBranchViewSet.
Section EditBranchViewSet.
Context `{Spatial}.

Definition with_status (st : BranchStatus) (merged : option Timestamp)
  (b : EditBranch) : EditBranch :=
  {| eb_id := eb_id b; eb_name := eb_name b; eb_layer := eb_layer b;
     eb_group := eb_group b; parent_branch := parent_branch b;
     eb_created_by := eb_created_by b; eb_status := st; merged_at := merged |}.

(** The [soft_delete] action of a branch, called by [request_user] on the
    branch of key [pk]. *)
Definition soft_delete (request_user : User) (pk : UUID) (d : Db) : Response * Db :=
  match get_object eb_id (branches d) pk with
  | None => (not_found, d)
  | Some branch =>
      if negb (eb_created_by branch =? user_id request_user)%N
         && negb (is_superuser request_user)
      then ({| status := HTTP_403_FORBIDDEN;
               data := error "You do not have permission to delete this branch" |}, d)
      else if is_master branch
      then ({| status := HTTP_400_BAD_REQUEST;
               data := error "Cannot delete master branch" |}, d)
      else
        let branch := with_status Branch_deleted (merged_at branch) branch in
        let d := set_branches (save_row eb_id branch (branches d)) d in
        let d := AuditLog_create request_user DELETE_BRANCH "branch" (eb_id branch)
                   [("branch_name", eb_name branch)]%string d in
        ({| status := HTTP_200_OK; data := message "Branch deleted successfully" |}, d)
  end.

End EditBranchViewSet.
End EditBranchViewSet.

Module FeatureVersionViewSet.
Section FeatureVersionViewSet.
Context `{Spatial}.

(** The writable fields of [FeatureVersionSerializer] after validation
    ([operation] is also writable, but every [save] below overrides it). *)
Record ValidatedData : Type := {
  vd_branch : UUID;
  vd_geometry : Geometry;
  vd_properties : Properties;
  vd_is_deleted : bool;
  vd_comment : option string
}.

(** [get_queryset] without query parameters: deleted rows are left out. *)
Definition get_queryset (d : Db) : list FeatureVersion :=
  filter (fun v => negb (is_deleted v)) (feature_versions d).

(** [perform_create]: [new_feature_id] is the value of [uuid.uuid4()]. *)
Definition perform_create (request_user : User) (new_feature_id : UUID)
  (validated : ValidatedData) (d : Db) : Db :=
  let feature :=
    {| fv_id := uuid4 (map fv_id (feature_versions d));
       fv_branch := vd_branch validated;
       feature_id := new_feature_id;
       version := 1%Z;
       geometry := vd_geometry validated;
       properties := vd_properties validated;
       operation := Op_CREATE;
       is_deleted := vd_is_deleted validated;
       fv_created_by := user_id request_user;
       comment := vd_comment validated |} in
  let d := FeatureVersion_create feature d in
  AuditLog_create request_user CREATE_FEATURE "feature" (fv_id feature)
    [("feature_id", str_of_nat (N.to_nat (feature_id feature)));
     ("branch_id", str_of_nat (N.to_nat (fv_branch feature)))]%string d.

(** [perform_update] on the row of key [pk].  DRF's update mixin binds the
    serializer to the row that [get_object] returned, and [save] on a bound
    [ModelSerializer] assigns the validated fields and the keyword
    arguments to that row and saves it: the row keeps its key. *)
Definition perform_update (request_user : User) (pk : UUID)
  (validated : ValidatedData) (d : Db) : option Db :=
  match get_object fv_id (get_queryset d) pk with
  | None => None
  | Some old_feature =>
      let feature :=
        {| fv_id := fv_id old_feature;
           fv_branch := vd_branch validated;
           feature_id := feature_id old_feature;
           version := (version old_feature + 1)%Z;
           geometry := vd_geometry validated;
           properties := vd_properties validated;
           operation := Op_UPDATE;
           is_deleted := vd_is_deleted validated;
           fv_created_by := user_id request_user;
           comment := vd_comment validated |} in
      let d := MergeService.set_feature_versions
                 (save_row fv_id feature (feature_versions d)) d in
      Some (AuditLog_create request_user UPDATE_FEATURE "feature" (fv_id feature)
              [("feature_id", str_of_nat (N.to_nat (feature_id feature)))]%string d)
  end.

(** The [soft_delete] action of a feature version. *)
Definition soft_delete (request_user : User) (pk : UUID) (d : Db) : Response * Db :=
  match get_object fv_id (get_queryset d) pk with
  | None => (not_found, d)
  | Some feature =>
      let delete_version :=
        {| fv_id := uuid4 (map fv_id (feature_versions d));
           fv_branch := fv_branch feature;
           feature_id := feature_id feature;
           version := (version feature + 1)%Z;
           geometry := geometry feature;
           properties := properties feature;
           operation := Op_DELETE;
           is_deleted := true;
           fv_created_by := user_id request_user;
           comment := None |} in
      let d := FeatureVersion_create delete_version d in
      let d := AuditLog_create request_user DELETE_FEATURE "feature"
                 (fv_id delete_version)
                 [("feature_id", str_of_nat (N.to_nat (feature_id feature)))]%string d in
      ({| status := HTTP_200_OK; data := message "Feature deleted successfully" |}, d)
  end.

End FeatureVersionViewSet.
End FeatureVersionViewSet.

Module MergeRequestViewSet.
Section MergeRequestViewSet.
Context `{Spatial}.

(** [_can_approve]: the superuser flag or the role of the user's profile. *)
Definition _can_approve (user : User) : bool :=
  is_superuser user
  || match profile user with
     | Some p =>
         match profile_role p with
         | Some role => string_in role ["validator"; "admin"]%string
         | None => false
         end
     | None => false
     end.

Definition reviewed (st : MergeRequestStatus) (reviewer : User) (now : Timestamp)
  (comment : option string) (mr : MergeRequest) : MergeRequest :=
  {| mr_id := mr_id mr; source_branch := source_branch mr;
     target_branch := target_branch mr; mr_title := mr_title mr;
     mr_status := st; mr_created_by := mr_created_by mr;
     reviewed_by := Some (user_id reviewer);
     review_comment := comment;
     reviewed_at := Some now |}.

(** [merge_request.conflicts.filter(resolved=False).count()] *)
Definition unresolved_conflicts (merge_request : MergeRequest) (d : Db) : nat :=
  List.length (filter (fun c => (mc_merge_request c =? mr_id merge_request)%N
                           && negb (resolved c)) (conflicts d)).

(** The statements of [approve] inside [try]. *)
Definition approve_and_merge (request_user : User) (now : Timestamp)
  (merge_request : MergeRequest) : Py Db Response :=
  (d <- get ;;
   source <- deref "EditBranch" eb_id (branches d) (source_branch merge_request) ;;
   target <- deref "EditBranch" eb_id (branches d) (target_branch merge_request) ;;
   MergeService.merge_branches source target ;;;
   let merge_request :=
     reviewed MR_merged request_user now (review_comment merge_request) merge_request in
   modify (fun d => set_merge_requests
                      (save_row mr_id merge_request (merge_requests d)) d) ;;;
   let source := EditBranchViewSet.with_status Branch_merged (Some now) source in
   modify (fun d => set_branches (save_row eb_id source (branches d)) d) ;;;
   modify (AuditLog_create request_user APPROVE_MERGE_REQUEST "merge_request"
             (mr_id merge_request) [("status", "merged")]%string) ;;;
   ret {| status := HTTP_200_OK;
          data := message_merge_request
                    "Merge request approved and merged successfully"
                    merge_request |})%py.

(** The [approve] action, called by [request_user] at time [now] on the
    merge request of key [pk]. *)
Definition approve (request_user : User) (now : Timestamp) (pk : UUID) (d : Db)
  : Response * Db :=
  match get_object mr_id (merge_requests d) pk with
  | None => (not_found, d)
  | Some merge_request =>
      if negb (_can_approve request_user)
      then ({| status := HTTP_403_FORBIDDEN;
               data := error "You do not have permission to approve merge requests" |}, d)
      else
        let unresolved := unresolved_conflicts merge_request d in
        if (0 <? unresolved)%nat
        then ({| status := HTTP_400_BAD_REQUEST;
                 data := error ("Cannot merge: " ++ str_of_nat unresolved
                                ++ " unresolved conflicts") |}, d)
        else
          match
            try_except (approve_and_merge request_user now merge_request)
              (fun e => ret {| status := HTTP_500_INTERNAL_SERVER_ERROR;
                               data := error ("Merge failed: " ++ str_of_exception e) |})
              d
          with
          | (inr response, d') => (response, d')
          | (inl _, d') => ({| status := HTTP_500_INTERNAL_SERVER_ERROR;
                               data := error "Internal server error" |}, d')
          end
  end.

(** The [reject] action; [comment] is [request.data.get('comment', '')]. *)
Definition reject (request_user : User) (now : Timestamp) (comment : string)
  (pk : UUID) (d : Db) : Response * Db :=
  match get_object mr_id (merge_requests d) pk with
  | None => (not_found, d)
  | Some merge_request =>
      if negb (_can_approve request_user)
      then ({| status := HTTP_403_FORBIDDEN;
               data := error "You do not have permission to reject merge requests" |}, d)
      else
        let merge_request :=
          reviewed MR_rejected request_user now (Some comment) merge_request in
        let d := set_merge_requests
                   (save_row mr_id merge_request (merge_requests d)) d in
        let d := AuditLog_create request_user REJECT_MERGE_REQUEST "merge_request"
                   (mr_id merge_request) [("status", "rejected")]%string d in
        ({| status := HTTP_200_OK;
            data := message_merge_request "Merge request rejected" merge_request |}, d)
  end.

End MergeRequestViewSet.
End MergeRequestViewSet.

(* ================================================================== *)
(** ** A concrete platform: points and flat documents

    Geometries are points with integer coordinates, equal when their
    coordinates are; documents are lists of key/value pairs. *)

Definition Point : Type := (Z * Z)%type.

Definition Point_equals (a b : Point) : bool :=
  (fst a =? fst b)%Z && (snd a =? snd b)%Z.

Definition Document : Type := list (string * string).

Definition Document_eq_dec (p q : Document) : {p = q} + {p <> q}.
Proof.
  apply list_eq_dec; intros [a b] [c d].
  destruct (string_dec a c) as [->|n]; [|right; congruence].
  destruct (string_dec b d) as [->|n]; [left; reflexivity|right; congruence].
Defined.

#[export] Instance PointSpatial : Spatial :=
  {| Geometry := Point;
     equals := Point_equals;
     Properties := Document;
     Properties_eq_dec := Document_eq_dec;
     empty_properties := [] |}.

(* ================================================================== *)
(** * Vocabulary of the properties *)

(** ** Conflict resolution *)

Section ResolutionInputs.
Context `{Spatial}.
Import ConflictResolver.

(** The three strategies that [resolve_conflict] accepts, with the manual
    fields that [MANUAL] needs. *)
Definition valid_resolution (resolution_strategy : string)
  (manual_geometry : option Geometry) (manual_properties : option Properties)
  : Prop :=
  resolution_strategy = "SOURCE"%string
  \/ resolution_strategy = "TARGET"%string
  \/ (resolution_strategy = "MANUAL"%string
      /\ manual_geometry <> None /\ manual_properties <> None).

(** The inputs that [resolve_conflict] refuses. *)
Definition refused_resolution (resolution_strategy : string)
  (manual_geometry : option Geometry) (manual_properties : option Properties)
  : Prop :=
  (resolution_strategy = "MANUAL"%string
   /\ (manual_geometry = None \/ manual_properties = None))
  \/ (resolution_strategy <> "SOURCE"%string
      /\ resolution_strategy <> "TARGET"%string
      /\ resolution_strategy <> "MANUAL"%string).

(** The foreign keys of the conflict point to rows of the version table. *)
Definition versions_exist (s : Call) : Prop :=
  find (fun r => (fv_id r =? mc_source_version (conflict s))%N)
       (feature_versions (db s)) <> None
  /\ match mc_target_version (conflict s) with
     | Some k =>
         find (fun r => (fv_id r =? k)%N) (feature_versions (db s)) <> None
     | None => True
     end.

End ResolutionInputs.

(** ** Conflict detection *)

Section DetectionVocabulary.
Context `{Spatial}.
Import ConflictDetector.

(** The rule table of the design document, read top-down with the first
    matching rule deciding:
    1. both versions are 1: no conflict;
    2. both versions exceed 1: BOTH, GEOMETRY or PROPERTIES by the two
       comparisons, and no conflict when both are equal;
    3. one side deleted with version above 1, the other side live with
       version above 1: DELETE;
    4. otherwise no conflict. *)
Definition rule_table (source_version target_version : FeatureVersion)
  : option ConflictType :=
  let sv := version source_version in
  let tv := version target_version in
  if (sv =? 1)%Z && (tv =? 1)%Z then None
  else if (1 <? sv)%Z && (1 <? tv)%Z then
    match equals (geometry source_version) (geometry target_version),
          properties_eqb (properties source_version) (properties target_version)
    with
    | false, false => Some BOTH
    | false, true => Some GEOMETRY
    | true, false => Some PROPERTIES
    | true, true => None
    end
  else if (is_deleted source_version && (1 <? sv)%Z
           && (1 <? tv)%Z && negb (is_deleted target_version))
          || (is_deleted target_version && (1 <? tv)%Z
              && (1 <? sv)%Z && negb (is_deleted source_version))
  then Some DELETE
  else None.

(** Both versions were modified and their contents differ. *)
Definition content_conflict (s t : FeatureVersion) : Prop :=
  (1 < version s)%Z /\ (1 < version t)%Z
  /\ (equals (geometry s) (geometry t) = false \/ properties s <> properties t).

(** One side is deleted (whatever its version) and the other side is live
    with a version above 1. *)
Definition delete_against_edit (s t : FeatureVersion) : Prop :=
  (is_deleted s = true /\ (1 < version t)%Z /\ is_deleted t = false)
  \/ (is_deleted t = true /\ (1 < version s)%Z /\ is_deleted s = false).

(** The classification that the detector computes:
    - BOTH, GEOMETRY, PROPERTIES when both versions exceed 1 and the
      contents differ accordingly;
    - DELETE when the contents raise no conflict and a deleted side meets
      an edited live side. *)
Inductive classifies (s t : FeatureVersion) : ConflictType -> Prop :=
| classifies_BOTH :
    (1 < version s)%Z -> (1 < version t)%Z ->
    equals (geometry s) (geometry t) = false ->
    properties s <> properties t ->
    classifies s t BOTH
| classifies_GEOMETRY :
    (1 < version s)%Z -> (1 < version t)%Z ->
    equals (geometry s) (geometry t) = false ->
    properties s = properties t ->
    classifies s t GEOMETRY
| classifies_PROPERTIES :
    (1 < version s)%Z -> (1 < version t)%Z ->
    equals (geometry s) (geometry t) = true ->
    properties s <> properties t ->
    classifies s t PROPERTIES
| classifies_DELETE :
    ~ content_conflict s t ->
    delete_against_edit s t ->
    classifies s t DELETE.

(** The loop of [_get_latest_features]. *)
Definition keep_first (features : dict UUID FeatureVersion) (v : FeatureVersion)
  : dict UUID FeatureVersion :=
  if negb (dict_in N.eqb (feature_id v) features)
  then dict_set N.eqb (feature_id v) v features
  else features.

(** The entry that [detect_conflicts] builds for a feature. *)
Definition conflict_entry (fid : UUID) (ty : ConflictType)
  (source_version target_version : FeatureVersion) : ConflictData :=
  {| cd_feature_id := fid; cd_conflict_type := ty;
     cd_source_version := source_version;
     cd_target_version := target_version |}.

(** An entry with the roles of source and target exchanged. *)
Definition swap_roles (c : ConflictData) : ConflictData :=
  conflict_entry (cd_feature_id c) (cd_conflict_type c)
    (cd_target_version c) (cd_source_version c).

(** The loop of [detect_conflicts]. *)
Definition report (target_features : dict UUID FeatureVersion)
  (conflicts : list ConflictData) (item : UUID * FeatureVersion)
  : list ConflictData :=
  let '(fid, source_version) := item in
  match dict_get N.eqb fid target_features with
  | Some target_version =>
      match _detect_conflict_type source_version target_version with
      | Some ty =>
          conflicts ++ [conflict_entry fid ty source_version target_version]
      | None => conflicts
      end
  | None => conflicts
  end.

End DetectionVocabulary.

(** ** Merging *)

Section MergeVocabulary.
Context `{Spatial}.

(** The row that a sort by descending version puts first: the earliest of
    the rows of greatest version. *)
Fixpoint newest (l : list FeatureVersion) : option FeatureVersion :=
  match l with
  | [] => None
  | x :: l' =>
      match newest l' with
      | Some y => if (version y <=? version x)%Z then Some x else Some y
      | None => Some x
      end
  end.

(** The latest version of feature [fid] on the branch of key [b]. *)
Definition head_version (fvs : list FeatureVersion) (b fid : UUID)
  : option FeatureVersion :=
  newest (filter (fun v => (fv_branch v =? b)%N && (feature_id v =? fid)%N) fvs).

(** The number of the latest version, 0 when the branch has none. *)
Definition head_number (fvs : list FeatureVersion) (b fid : UUID) : Z :=
  match head_version fvs b fid with
  | Some latest => version latest
  | None => 0%Z
  end.

(** The test of [merge_branches] on one entry of the source dictionary:
    the entry is live and the target has no such feature, an older version
    number, or another content. *)
Definition needs_merge (target_features : dict UUID FeatureVersion)
  (item : UUID * FeatureVersion) : bool :=
  negb (is_deleted (snd item))
  && match dict_get N.eqb (fst item) target_features with
     | Some target_version =>
         (version (snd item) >? version target_version)%Z
         || negb (MergeService._versions_equal (snd item) target_version)
     | None => true
     end.

(** The row that [_create_merged_version] appends to the table [fvs]. *)
Definition merged_version (fvs : list FeatureVersion)
  (source_version : FeatureVersion) (target_branch : EditBranch)
  (source_name : string) : FeatureVersion :=
  {| fv_id := uuid4 (map fv_id fvs);
     fv_branch := eb_id target_branch;
     feature_id := feature_id source_version;
     version := (head_number fvs (eb_id target_branch)
                   (feature_id source_version) + 1)%Z;
     geometry := geometry source_version;
     properties := properties source_version;
     operation := Op_MERGE;
     is_deleted := false;
     fv_created_by := fv_created_by source_version;
     comment := Some ("Merged from branch " ++ source_name)%string |}.

(** A live source entry whose version number is more than one above the
    number of the latest target version (0 when the target has none). *)
Definition runs_ahead (fvs : list FeatureVersion) (target_branch : EditBranch)
  (item : UUID * FeatureVersion) : bool :=
  negb (is_deleted (snd item))
  && (version (snd item) >? head_number fvs (eb_id target_branch) (fst item) + 1)%Z.

(** Sorted by [order_by('feature_id', '-version')]. *)
Definition lex_sorted (l : list FeatureVersion) : Prop :=
  StronglySorted
    (fun a b => MergeService.by_feature_id_desc_version a b = true) l.

(** The two databases differ at most in their version tables. *)
Definition same_but_versions (d d' : Db) : Prop :=
  user_roles d' = user_roles d
  /\ branches d' = branches d
  /\ merge_requests d' = merge_requests d
  /\ conflicts d' = conflicts d
  /\ audit_log d' = audit_log d.

(** The number of the latest version of a feature in the dictionary of a
    branch, 0 when the branch has no such feature. *)
Definition latest_number (fvs : list FeatureVersion) (branch : EditBranch)
  (fid : UUID) : Z :=
  match dict_get N.eqb fid (MergeService._get_latest_features fvs branch) with
  | Some latest => version latest
  | None => 0%Z
  end.

End MergeVocabulary.

(** ** Version numbers *)

Section VersionNumbers.
Context `{Spatial}.

(** The version numbers stored for a feature on a branch, in insertion
    order. *)
Definition versions_of (d : Db) (branch fid : UUID) : list Z :=
  map version
    (filter (fun v => (fv_branch v =? branch)%N && (feature_id v =? fid)%N)
       (feature_versions d)).

(** The numbers are 1, 2, ..., N in some order: no gap, no duplicate. *)
Definition contiguous (vs : list Z) : Prop :=
  Permutation vs (map Z.of_nat (seq 1 (List.length vs))).

End VersionNumbers.

(* ================================================================== *)
(** * Example data

    A layer with its master branch and one branch forked from it, two users
    and a few version tables, on the concrete platform of points. *)

Module Examples.

Definition master : EditBranch :=
  {| eb_id := 1%N; eb_name := "master"; eb_layer := 1%N; eb_group := Some 7%N;
     parent_branch := None; eb_created_by := 10%N;
     eb_status := Branch_active; merged_at := None |}.

Definition survey : EditBranch :=
  {| eb_id := 2%N; eb_name := "survey"; eb_layer := 1%N; eb_group := Some 7%N;
     parent_branch := Some 1%N; eb_created_by := 11%N;
     eb_status := Branch_active; merged_at := None |}.

(** A version row of feature 100 written by user 11. *)
Definition row (key branch : UUID) (v : Z) (g : Point) (p : Document)
  (op : Operation) (deleted : bool) : FeatureVersion :=
  {| fv_id := key; fv_branch := branch; feature_id := 100%N; version := v;
     geometry := g; properties := p; operation := op; is_deleted := deleted;
     fv_created_by := 11%N; comment := None |}.

Definition here : Point := (0, 0)%Z.
Definition there : Point := (1, 1)%Z.
Definition plain : Document := [("kind", "well")]%string.

(** The feature was deleted on [survey] (version 2) and rewritten with the
    same content on [master] (version 2). *)
Definition deleted_against_same_content : list FeatureVersion :=
  [ row 1 2 1 here plain Op_CREATE false;
    row 2 2 2 here plain Op_DELETE true;
    row 3 1 1 here plain Op_CREATE false;
    row 4 1 2 here plain Op_UPDATE false ].

(** The feature was created as deleted on [survey] (version 1) and edited
    on [master] (version 2). *)
Definition deleted_at_version_one : list FeatureVersion :=
  [ row 1 2 1 here plain Op_CREATE true;
    row 3 1 1 here plain Op_CREATE false;
    row 4 1 2 there plain Op_UPDATE false ].

(** The feature was edited on both branches: another place on [survey],
    other properties on [master]. *)
Definition edited_on_both : list FeatureVersion :=
  [ row 1 2 1 here plain Op_CREATE false;
    row 2 2 2 there plain Op_UPDATE false;
    row 3 1 1 here plain Op_CREATE false;
    row 4 1 2 here [("kind", "spring")]%string Op_UPDATE false ].

(** The feature is at version 2 on [survey] and absent from [master]. *)
Definition ahead_of_target : list FeatureVersion :=
  [ row 1 2 1 here plain Op_CREATE false;
    row 2 2 2 there plain Op_UPDATE false ].

(** Users: a superuser, a plain user, and a user whose profile says
    validator but who holds no role in any group. *)
Definition alice : User :=
  {| user_id := 10; is_superuser := true; profile := None |}.

Definition bob : User :=
  {| user_id := 11; is_superuser := false; profile := None |}.

Definition carol : User :=
  {| user_id := 12; is_superuser := false;
     profile := Some {| profile_role := Some "validator"%string |} |}.

(** A merge request from [survey] into [master] in a given status. *)
Definition request (st : MergeRequestStatus) : MergeRequest :=
  {| mr_id := 1; source_branch := 2; target_branch := 1;
     mr_title := "Survey of the wells"; mr_status := st; mr_created_by := 11;
     reviewed_by := None; review_comment := None; reviewed_at := None |}.

(** An unresolved conflict of the merge request on feature 100. *)
Definition open_conflict : MergeConflict :=
  {| mc_id := 1; mc_merge_request := 1; mc_feature_id := 100;
     conflict_type := BOTH; mc_source_version := 2;
     mc_target_version := Some 4%N;
     resolved := false; resolution_strategy := None;
     resolved_geometry := None; resolved_properties := None;
     resolved_by := None; resolved_at := None |}.

(** A database with the two branches, a version table, a merge request in
    a given status and its conflicts. *)
Definition database (fvs : list FeatureVersion) (st : MergeRequestStatus)
  (cs : list MergeConflict) : Db :=
  {| user_roles := []; branches := [master; survey];
     feature_versions := fvs; merge_requests := [request st];
     conflicts := cs; audit_log := [] |}.

(** The payload of a request that creates a feature on [survey]. *)
Definition new_well : FeatureVersionViewSet.ValidatedData :=
  {| FeatureVersionViewSet.vd_branch := 2;
     FeatureVersionViewSet.vd_geometry := here;
     FeatureVersionViewSet.vd_properties := plain;
     FeatureVersionViewSet.vd_is_deleted := false;
     FeatureVersionViewSet.vd_comment := None |}.

End Examples.

(* ================================================================== *)
(** * The rest of the application *)

(** ** More methods of the models ([models.py]) *)

(** [EditBranch.can_user_edit] *)
Definition can_user_edit (roles : list UserRole) (branch : EditBranch) (user : User)
  : bool :=
  if is_superuser user then true
  else
    match eb_group branch with
    | Some group =>
        existsb
          (fun r => (ur_user r =? user_id user)%N && (ur_group r =? group)%N
                    && string_in (ur_role r) ["editor"; "validator"; "admin"]%string)
          roles
    | None => (eb_created_by branch =? user_id user)%N
    end.

(** [MergeRequest.get_validators], the users given by their keys; [users] is
    the user table and [target] is [self.target_branch]. *)
Definition get_validators (users : list User) (roles : list UserRole)
  (target : EditBranch) : list UserId :=
  match eb_group target with
  | None => map user_id (filter is_superuser users)
  | Some group =>
      map ur_user
        (filter (fun r => (ur_group r =? group)%N
                          && string_in (ur_role r) ["validator"; "admin"]%string
                          && can_approve_merges r) roles)
  end.

(** The row that [UserRole.save] writes. *)
Definition UserRole_forced (r : UserRole) : UserRole :=
  if string_in (ur_role r) ["validator"; "admin"]%string
  then {| ur_id := ur_id r; ur_user := ur_user r; ur_group := ur_group r;
          ur_role := ur_role r; can_approve_merges := true;
          can_manage_branches := can_manage_branches r |}
  else r.

(* ================================================================== *)
(** ** The rest of [permissions.PermissionManager] *)

Module Permissions.

Inductive Error : Type :=
| PermissionError (msg : string)
| ValueError (msg : string).

Definition is_validator_in_group (roles : list UserRole) (user : User)
  (group : GroupId) : bool :=
  if is_superuser user then true
  else existsb
         (fun r => (ur_user r =? user_id user)%N && (ur_group r =? group)%N
                   && string_in (ur_role r) ["validator"; "admin"]%string)
         roles.

Definition is_editor_in_group (roles : list UserRole) (user : User)
  (group : GroupId) : bool :=
  if is_superuser user then true
  else existsb
         (fun r => (ur_user r =? user_id user)%N && (ur_group r =? group)%N
                   && string_in (ur_role r) ["editor"; "validator"; "admin"]%string)
         roles.

(** [can_create_branch]: [layer_group] is [layer.group] where the layer has
    one, and [has_perm] is the platform's answer to
    [user.has_perm('change_resourcebase', ...)]. *)
Definition can_create_branch (roles : list UserRole) (user : User)
  (layer_group : option GroupId) (has_perm : bool) : bool :=
  if PermissionManager.is_admin roles user then true
  else
    match layer_group with
    | Some group => is_editor_in_group roles user group
    | None => has_perm
    end.

Definition can_edit_branch (roles : list UserRole) (user : User)
  (branch : EditBranch) : bool :=
  if PermissionManager.is_admin roles user then true
  else if (eb_created_by branch =? user_id user)%N then true
  else
    match eb_group branch with
    | Some group => is_editor_in_group roles user group
    | None => false
    end.

Definition can_create_merge_request (roles : list UserRole) (user : User)
  (source target : EditBranch) : bool :=
  if negb (can_edit_branch roles user source) then false
  else if negb (eb_layer source =? eb_layer target)%N then false
  else if (eb_id source =? eb_id target)%N then false
  else true.

Definition can_manage_users (roles : list UserRole) (user : User) : bool :=
  PermissionManager.is_admin roles user.

(** [role_priority.get(r, 0)] *)
Definition role_priority (role : string) : nat :=
  if (role =? "admin")%string then 3
  else if (role =? "validator")%string then 2
  else if (role =? "editor")%string then 1
  else 0.

(** [max(roles, key=...)] on a non-empty list: the first role of greatest
    priority. *)
Definition max_by_priority (role : string) (roles : list string) : string :=
  fold_left
    (fun best r => if (role_priority best <? role_priority r)%nat then r else best)
    roles role.

Definition get_user_role_in_group (roles : list UserRole) (user : User)
  (group : GroupId) : option string :=
  if is_superuser user then Some "admin"%string
  else
    let found :=
      map ur_role
        (filter (fun r => (ur_user r =? user_id user)%N && (ur_group r =? group)%N)
           roles) in
    match found with
    | [] => None
    | r :: rest => Some (max_by_priority r rest)
    end.

(** The lookup of [update_or_create] and of [remove_role]. *)
Definition same_role (user : UserId) (group : GroupId) (role : string)
  (r : UserRole) : bool :=
  (ur_user r =? user)%N && (ur_group r =? group)%N && (ur_role r =? role)%string.

(** [UserRole.objects.update_or_create(user=, group=, role=, defaults=)]:
    the row found is given the defaults, a missing row is created; either
    way the row goes through [UserRole.save]. *)
Definition update_or_create (roles : list UserRole)
  (user : UserId) (group : GroupId) (role : string)
  (approve manage : bool) : UserRole * list UserRole :=
  let row :=
    match find (same_role user group role) roles with
    | Some r =>
        {| ur_id := ur_id r; ur_user := ur_user r; ur_group := ur_group r;
           ur_role := ur_role r; can_approve_merges := approve;
           can_manage_branches := manage |}
    | None =>
        {| ur_id := uuid4 (map ur_id roles); ur_user := user; ur_group := group;
           ur_role := role; can_approve_merges := approve;
           can_manage_branches := manage |}
    end in
  (UserRole_forced row, UserRole_save row roles).

Definition assign_role (roles : list UserRole) (admin_user target_user : User)
  (group : GroupId) (role : string)
  (can_approve_merges : option bool) (can_manage_branches : bool)
  : Error + UserRole * list UserRole :=
  if negb (can_manage_users roles admin_user)
  then inl (PermissionError "Only admins can assign roles")
  else if negb (string_in role ["admin"; "validator"; "editor"]%string)
  then inl (ValueError ("Invalid role: " ++ role))
  else
    let can_approve_merges :=
      match can_approve_merges with
      | None => string_in role ["validator"; "admin"]%string
      | Some b => b
      end in
    inr (update_or_create roles (user_id target_user) group role
           can_approve_merges can_manage_branches).

Definition remove_role (roles : list UserRole) (admin_user target_user : User)
  (group : GroupId) (role : string) : Error + list UserRole :=
  if negb (can_manage_users roles admin_user)
  then inl (PermissionError "Only admins can remove roles")
  else inr (filter (fun r => negb (same_role (user_id target_user) group role r))
              roles).

(** The dictionary that [get_group_members] returns, users by their keys. *)
Record GroupMembers : Type := {
  admins : list UserId;
  validators : list UserId;
  editors : list UserId
}.

Definition get_group_members (roles : list UserRole) (group : GroupId)
  : GroupMembers :=
  let user_roles := filter (fun r => (ur_group r =? group)%N) roles in
  {| admins :=
       map ur_user (filter (fun r => (ur_role r =? "admin")%string) user_roles);
     validators :=
       map ur_user (filter (fun r => (ur_role r =? "validator")%string) user_roles);
     editors :=
       map ur_user (filter (fun r => (ur_role r =? "editor")%string) user_roles) |}.

End Permissions.

(* ================================================================== *)
(** ** [serializers.MergeRequestSerializer] *)

Module Serializers.

(** The writable fields of the serializer after field validation: the two
    branches are model instances. *)
Record MergeRequestData : Type := {
  md_source_branch : EditBranch;
  md_target_branch : EditBranch;
  md_title : string
}.

(** [validate]: [inl] carries the message of the [ValidationError]. *)
Definition validate (data : MergeRequestData) : string + MergeRequestData :=
  let source := md_source_branch data in
  let target := md_target_branch data in
  if (eb_id source =? eb_id target)%N
  then inl "Source and target branches must be different"%string
  else if negb (eb_layer source =? eb_layer target)%N
  then inl "Branches must belong to the same layer"%string
  else inr data.

End Serializers.

(* ================================================================== *)
(** ** More REST actions ([api_views.py]) *)

Module ApiViews.
Section ApiViews.
Context `{Spatial}.

(** [MergeConflict.objects.create(merge_request=..., **conflict_data)] *)
Definition MergeConflict_create (merge_request : MergeRequest)
  (conflict_data : ConflictDetector.ConflictData) (d : Db) : Db :=
  ConflictResolver.set_conflicts
    (conflicts d ++
     [ {| mc_id := uuid4 (map mc_id (conflicts d));
          mc_merge_request := mr_id merge_request;
          mc_feature_id := ConflictDetector.cd_feature_id conflict_data;
          conflict_type := ConflictDetector.cd_conflict_type conflict_data;
          mc_source_version :=
            fv_id (ConflictDetector.cd_source_version conflict_data);
          mc_target_version :=
            Some (fv_id (ConflictDetector.cd_target_version conflict_data));
          resolved := false;
          resolution_strategy := None;
          resolved_geometry := None;
          resolved_properties := None;
          resolved_by := None;
          resolved_at := None |} ]) d.

Definition with_mr_status (st : MergeRequestStatus) (mr : MergeRequest)
  : MergeRequest :=
  {| mr_id := mr_id mr; source_branch := source_branch mr;
     target_branch := target_branch mr; mr_title := mr_title mr;
     mr_status := st; mr_created_by := mr_created_by mr;
     reviewed_by := reviewed_by mr; review_comment := review_comment mr;
     reviewed_at := reviewed_at mr |}.

(** [MergeRequestViewSet.perform_create] on validated data; returns the
    merge request it leaves in the table together with the database. *)
Definition MergeRequest_perform_create (request_user : User)
  (validated : Serializers.MergeRequestData) (d : Db) : MergeRequest * Db :=
  let merge_request :=
    {| mr_id := uuid4 (map mr_id (merge_requests d));
       source_branch := eb_id (Serializers.md_source_branch validated);
       target_branch := eb_id (Serializers.md_target_branch validated);
       mr_title := Serializers.md_title validated;
       mr_status := MR_pending;
       mr_created_by := user_id request_user;
       reviewed_by := None; review_comment := None; reviewed_at := None |} in
  let d := set_merge_requests (merge_requests d ++ [merge_request]) d in
  let conflicts :=
    ConflictDetector.detect_conflicts (feature_versions d)
      (Serializers.md_source_branch validated)
      (Serializers.md_target_branch validated) in
  let d := fold_left (fun d conflict_data =>
                        MergeConflict_create merge_request conflict_data d)
             conflicts d in
  let '(merge_request, d) :=
    match conflicts with
    | [] => (merge_request, d)
    | _ :: _ =>
        let merge_request := with_mr_status MR_conflicts merge_request in
        (merge_request,
         set_merge_requests (save_row mr_id merge_request (merge_requests d)) d)
    end in
  (merge_request,
   AuditLog_create request_user CREATE_MERGE_REQUEST "merge_request"
     (mr_id merge_request)
     [("title", mr_title merge_request);
      ("source_branch", str_of_nat (N.to_nat (source_branch merge_request)));
      ("target_branch", str_of_nat (N.to_nat (target_branch merge_request)));
      ("conflicts_count", str_of_nat (List.length conflicts))]%string d).

(** The [conflicts] action of a merge request: the rows bound to it, or
    [None] for HTTP 404. *)
Definition MergeRequest_conflicts (pk : UUID) (d : Db)
  : option (list MergeConflict) :=
  match get_object mr_id (merge_requests d) pk with
  | None => None
  | Some merge_request =>
      Some (filter (fun c => (mc_merge_request c =? mr_id merge_request)%N)
              (conflicts d))
  end.

(** [order_by('version')] *)
Definition by_version (a b : FeatureVersion) : bool :=
  (version a <=? version b)%Z.

(** The [history] action; [feature_id_param] is the query parameter, [None]
    when it is absent or empty. *)
Definition history (feature_id_param : option UUID) (d : Db)
  : HttpStatus * (string + list FeatureVersion) :=
  match feature_id_param with
  | None => (HTTP_400_BAD_REQUEST, inl "feature_id parameter required"%string)
  | Some fid =>
      (HTTP_200_OK,
       inr (order_by by_version
              (filter (fun v => (feature_id v =? fid)%N) (feature_versions d))))
  end.

End ApiViews.
End ApiViews.

(* ================================================================== *)
(** ** [signals.create_master_branch_for_layer] *)

Module Signals.
Section Signals.
Context `{Spatial}.

(** What the handler reads of a [geonode.layers.models.Dataset]. *)
Record Dataset : Type := {
  ds_id : LayerId;
  ds_name : string;
  ds_owner : UserId;
  ds_subtype : string
}.

(** [EditBranch.objects.create(...)]: [None] is the [IntegrityError] of
    [unique_together = (layer, name, created_by)]. *)
Definition EditBranch_create (name : string) (layer : LayerId)
  (created_by : UserId) (parent : option UUID) (st : BranchStatus) (d : Db)
  : option Db :=
  if existsb (fun b => (eb_layer b =? layer)%N && (eb_name b =? name)%string
                       && (eb_created_by b =? created_by)%N) (branches d)
  then None
  else
    Some (set_branches
            (branches d ++
             [ {| eb_id := uuid4 (map eb_id (branches d));
                  eb_name := name; eb_layer := layer; eb_group := None;
                  parent_branch := parent; eb_created_by := created_by;
                  eb_status := st; merged_at := None |} ]) d).

(** The [post_save] handler of [Dataset]; an exception of the body is
    logged and swallowed. *)
Definition create_master_branch_for_layer (instance : Dataset) (created : bool)
  (d : Db) : Db :=
  if created && (ds_subtype instance =? "vector")%string then
    let master_exists :=
      existsb (fun b => (eb_layer b =? ds_id instance)%N
                        && (eb_name b =? "master")%string
                        && match parent_branch b with
                           | None => true
                           | Some _ => false
                           end) (branches d) in
    if negb master_exists then
      match EditBranch_create "master" (ds_id instance) (ds_owner instance)
              None Branch_active d with
      | Some d' => d'
      | None => d
      end
    else d
  else d.

End Signals.
End Signals.

(* ================================================================== *)
(** * More example data *)

Module MoreExamples.

(** Roles of group 7: user 11 is an editor, user 13 a validator; user 14
    is an admin of group 8. *)
Definition role (key : UUID) (user : UserId) (group : GroupId)
  (name : string) (approve : bool) : UserRole :=
  {| ur_id := key; ur_user := user; ur_group := group; ur_role := name;
     can_approve_merges := approve; can_manage_branches := true |}.

Definition roles : list UserRole :=
  [ role 1 11 7 "editor" false;
    role 2 13 7 "validator" true;
    role 3 14 8 "admin" true;
    role 4 13 7 "editor" false ].

Definition dave : User :=
  {| user_id := 13; is_superuser := false; profile := None |}.

Definition erin : User :=
  {| user_id := 15; is_superuser := false; profile := None |}.

(** A second layer with its own master branch. *)
Definition other_master : EditBranch :=
  {| eb_id := 3; eb_name := "master"; eb_layer := 2; eb_group := Some 7%N;
     parent_branch := None; eb_created_by := 10;
     eb_status := Branch_active; merged_at := None |}.

(** A new vector layer owned by user 10. *)
Definition roads : Signals.Dataset :=
  {| Signals.ds_id := 5; Signals.ds_name := "roads";
     Signals.ds_owner := 10; Signals.ds_subtype := "vector" |}.

End MoreExamples.

(* ================================================================== *)
(** * More vocabulary *)

Section MoreVocabulary.
Context `{Spatial}.

(** A row written by a merge into [target]: a live MERGE row that copies
    the feature, content and author of a live entry of [items]. *)
Definition copies_live_source (items : dict UUID FeatureVersion)
  (target : EditBranch) (v : FeatureVersion) : Prop :=
  fv_branch v = eb_id target
  /\ operation v = Op_MERGE
  /\ is_deleted v = false
  /\ exists fid sv,
       In (fid, sv) items
       /\ is_deleted sv = false
       /\ feature_id v = feature_id sv
       /\ geometry v = geometry sv
       /\ properties v = properties sv
       /\ fv_created_by v = fv_created_by sv.

(** The entries of the source dictionary for which [detect_conflicts]
    appends a conflict. *)
Definition reported (target_features : dict UUID FeatureVersion)
  (item : UUID * FeatureVersion) : bool :=
  match dict_get N.eqb (fst item) target_features with
  | Some target_version =>
      match ConflictDetector._detect_conflict_type (snd item) target_version with
      | Some _ => true
      | None => false
      end
  | None => false
  end.

(** A conflict row bound to a merge request and not yet resolved. *)
Definition open_for (merge_request : MergeRequest) (c : MergeConflict) : Prop :=
  mc_merge_request c = mr_id merge_request /\ resolved c = false.

End MoreVocabulary.

Module Scenarios.

(** The database in which [survey] holds versions 1 and 2 of feature 100. *)
Definition surveyed : Db :=
  Examples.database Examples.ahead_of_target MR_pending [].

(** [surveyed] after an update of row 2 with the payload [new_well]. *)
Definition updated : Db :=
  match FeatureVersionViewSet.perform_update Examples.bob 2 Examples.new_well
          surveyed with
  | Some d' => d'
  | None => surveyed
  end.

(** The call of [resolve_conflict] on the open conflict of the example. *)
Definition resolving : ConflictResolver.Call :=
  {| ConflictResolver.conflict := Examples.open_conflict;
     ConflictResolver.db :=
       Examples.database Examples.edited_on_both MR_conflicts
         [Examples.open_conflict] |}.

End Scenarios.
(* ================================================================== *)
(** * Properties *)

Unset Implicit Arguments.

(** ** Conflict resolution *)

Section ResolveConflict.
Context `{Spatial}.
Import ConflictResolver.

Lemma atomic_raise (s s' : Call) (e : Exception) (body : Py Call MergeConflict) :
  body s = (inl e, s') ->
  atomic db set_db body s = (inl e, set_db (db s) s').
Proof. intros Hb; unfold atomic; rewrite Hb; reflexivity. Qed.

(** C8. [resolve_conflict] with strategy MANUAL and a missing manual
    geometry or manual properties, or with a strategy other than SOURCE,
    TARGET and MANUAL, raises [ValueError] (the validation error of the
    service); the conflict object and the database, hence the persisted
    [resolved] flag and resolution fields, are what they were. *)
Theorem resolve_conflict_refused
  (now : Timestamp) (resolution_strategy : string) (resolved_by : User)
  (manual_geometry : option Geometry) (manual_properties : option Properties)
  (s : Call) :
  refused_resolution resolution_strategy manual_geometry manual_properties ->
  exists msg s',
    resolve_conflict now resolution_strategy resolved_by
      manual_geometry manual_properties s = (inl (ValueError msg), s')
    /\ db s' = db s
    /\ conflict s' = conflict s.
Proof.
  intros [[-> Hnone] | (Hs & Ht & Hm)].
  - exists "Manual resolution requires geometry and properties"%string, (set_db (db s) s).
    split; [|split; reflexivity].
    apply atomic_raise.
    unfold bind; cbn.
    destruct Hnone as [-> | ->]; [reflexivity|].
    destruct manual_geometry; reflexivity.
  - apply String.eqb_neq in Hs, Ht, Hm.
    exists ("Invalid resolution strategy: " ++ resolution_strategy)%string,
           (set_db (db s) s).
    split; [|split; reflexivity].
    apply atomic_raise.
    unfold bind. rewrite Hs, Ht, Hm. reflexivity.
Qed.

(** Whatever the inputs, a call of [resolve_conflict] ends in an exception
    and leaves the database as it was. *)
Lemma resolve_conflict_never_saves
  (now : Timestamp) (resolution_strategy : string) (resolved_by : User)
  (manual_geometry : option Geometry) (manual_properties : option Properties)
  (s : Call) :
  exists e s',
    resolve_conflict now resolution_strategy resolved_by
      manual_geometry manual_properties s = (inl e, s')
    /\ db s' = db s.
Proof.
  unfold resolve_conflict, resolve_conflict_in, atomic.
  match goal with
  | |- context [bind ?c ?k] =>
      set (first_block := c); set (rest := k)
  end.
  unfold bind at 1.
  destruct (first_block s) as [[e | []] s1] eqn:Hfirst.
  - exists e, (set_db (db s) s1). split; reflexivity.
  - subst rest. cbn.
    exists (NameError "timezone"). eexists. split; reflexivity.
Qed.

(** C9. On every valid input (SOURCE, TARGET, or MANUAL with both manual
    fields), with the version rows of the conflict in the table,
    [resolve_conflict] raises [NameError] for the name [timezone], which
    [services.py] never binds; the exception comes before [save], so the
    database (and with it the persisted conflict row) is unchanged. *)
Theorem resolve_conflict_name_error
  (now : Timestamp) (resolution_strategy : string) (resolved_by : User)
  (manual_geometry : option Geometry) (manual_properties : option Properties)
  (s : Call) :
  valid_resolution resolution_strategy manual_geometry manual_properties ->
  versions_exist s ->
  exists s',
    resolve_conflict now resolution_strategy resolved_by
      manual_geometry manual_properties s = (inl (NameError "timezone"), s')
    /\ db s' = db s
    /\ (forall pk, get_object mc_id (conflicts (db s')) pk
                   = get_object mc_id (conflicts (db s)) pk).
Proof.
  intros Hvalid [Hsrc Htgt].
  assert (Hgoal : exists s',
    resolve_conflict now resolution_strategy resolved_by
      manual_geometry manual_properties s = (inl (NameError "timezone"), s')
    /\ db s' = db s).
  { unfold resolve_conflict, resolve_conflict_in, atomic.
    destruct Hvalid as [-> | [-> | (-> & Hg & Hp)]].
    - unfold bind, source_version_of, get, deref; cbn.
      destruct (find _ (feature_versions (db s))) as [sv|] eqn:Hf;
        [|contradiction].
      cbn. rewrite Hf. cbn. eexists; split; reflexivity.
    - unfold bind, target_version_of, get, deref; cbn.
      destruct (mc_target_version (conflict s)) as [k|] eqn:Hk.
      + destruct (find (fun r => (fv_id r =? k)%N) (feature_versions (db s)))
          as [tv|] eqn:Hf; [|contradiction].
        repeat (cbn; unfold bind; try rewrite Hk; try rewrite Hf).
        eexists; split; reflexivity.
      + repeat (cbn; try rewrite Hk). eexists; split; reflexivity.
    - destruct manual_geometry as [g|]; [|contradiction].
      destruct manual_properties as [p|]; [|contradiction].
      cbn. eexists; split; reflexivity. }
  destruct Hgoal as (s' & Hrun & Hdb).
  exists s'. split; [exact Hrun|]. split; [exact Hdb|].
  intros pk. rewrite Hdb. reflexivity.
Qed.

End ResolveConflict.

(* ================================================================== *)
(** ** Dictionaries of latest versions *)

Section LatestFeatures.
Context `{Spatial}.

Lemma dict_set_absent (k : UUID) (v : FeatureVersion) (d : dict UUID FeatureVersion) :
  dict_get N.eqb k d = None -> dict_set N.eqb k v d = d ++ [(k, v)].
Proof.
  induction d as [|[k' v'] d IH]; cbn; [reflexivity|].
  destruct (N.eqb k k'); [discriminate|].
  intros Hd. rewrite IH by exact Hd. reflexivity.
Qed.

Lemma dict_get_app (k : UUID) (d1 d2 : dict UUID FeatureVersion) :
  dict_get N.eqb k (d1 ++ d2)
  = match dict_get N.eqb k d1 with
    | Some v => Some v
    | None => dict_get N.eqb k d2
    end.
Proof.
  induction d1 as [|[k' v'] d1 IH]; cbn; [reflexivity|].
  destruct (N.eqb k k'); [reflexivity|exact IH].
Qed.

Lemma dict_get_In (k : UUID) (v : FeatureVersion) (d : dict UUID FeatureVersion) :
  dict_get N.eqb k d = Some v -> In (k, v) d.
Proof.
  induction d as [|[k' v'] d IH]; cbn; [discriminate|].
  destruct (N.eqb_spec k k') as [->|Hne].
  - intros [= ->]. left; reflexivity.
  - intros Hd. right. exact (IH Hd).
Qed.

Lemma dict_get_None_not_key (k : UUID) (d : dict UUID FeatureVersion) :
  dict_get N.eqb k d = None -> ~ In k (map fst d).
Proof.
  induction d as [|[k' v'] d IH]; cbn; [tauto|].
  destruct (N.eqb_spec k k') as [->|Hne]; [discriminate|].
  intros Hd [Heq|Hin]; [congruence|exact (IH Hd Hin)].
Qed.

Lemma In_dict_get (k : UUID) (v : FeatureVersion) (d : dict UUID FeatureVersion) :
  NoDup (map fst d) -> In (k, v) d -> dict_get N.eqb k d = Some v.
Proof.
  induction d as [|[k' v'] d IH]; cbn; [tauto|].
  intros Hnd [Heq|Hin].
  - injection Heq as -> ->. rewrite N.eqb_refl. reflexivity.
  - inversion Hnd as [|? ? Hnotin Hnd']; subst.
    destruct (N.eqb_spec k k') as [->|Hne].
    + exfalso. apply Hnotin. apply (in_map fst) in Hin. exact Hin.
    + exact (IH Hnd' Hin).
Qed.

Lemma keep_first_keys (l : list FeatureVersion) (acc : dict UUID FeatureVersion) :
  NoDup (map fst acc) -> NoDup (map fst (fold_left keep_first l acc)).
Proof.
  revert acc; induction l as [|x l IH]; intros acc Hnd; cbn; [exact Hnd|].
  apply IH. unfold keep_first, dict_in.
  destruct (dict_get N.eqb (feature_id x) acc) eqn:Hg; cbn; [exact Hnd|].
  rewrite dict_set_absent by exact Hg.
  rewrite map_app; cbn.
  apply NoDup_app_remove_l with (l := []); cbn.
  apply NoDup_rev in Hnd.
  rewrite <- (rev_involutive (map fst acc ++ [feature_id x])).
  apply NoDup_rev. rewrite rev_app_distr; cbn.
  constructor; [|exact Hnd].
  rewrite <- in_rev. exact (dict_get_None_not_key _ _ Hg).
Qed.

Lemma keep_first_get (k : UUID) (l : list FeatureVersion)
  (acc : dict UUID FeatureVersion) :
  dict_get N.eqb k (fold_left keep_first l acc)
  = match dict_get N.eqb k acc with
    | Some v => Some v
    | None => find (fun v => (feature_id v =? k)%N) l
    end.
Proof.
  revert acc; induction l as [|x l IH]; intros acc; cbn.
  - destruct (dict_get N.eqb k acc); reflexivity.
  - rewrite IH. unfold keep_first, dict_in.
    destruct (dict_get N.eqb (feature_id x) acc) eqn:Hg; cbn.
    + destruct (dict_get N.eqb k acc) eqn:Hk; [reflexivity|].
      destruct (N.eqb_spec (feature_id x) k) as [<-|Hne]; [congruence|reflexivity].
    + rewrite dict_set_absent by exact Hg.
      rewrite dict_get_app; cbn.
      destruct (dict_get N.eqb k acc) eqn:Hk; [reflexivity|].
      rewrite (N.eqb_sym k). destruct (N.eqb (feature_id x) k); reflexivity.
Qed.

Lemma latest_keys (fvs : list FeatureVersion) (branch : EditBranch) :
  NoDup (map fst (ConflictDetector._get_latest_features fvs branch)).
Proof. apply keep_first_keys. constructor. Qed.

End LatestFeatures.

(* ================================================================== *)
(** ** Conflict detection *)

Section Detection.
Context `{Spatial}.
Import ConflictDetector.

Lemma properties_eqb_true (p q : Properties) :
  properties_eqb p q = true <-> p = q.
Proof.
  unfold properties_eqb. destruct (Properties_eq_dec p q); split;
    intros; congruence.
Qed.

Lemma properties_eqb_false (p q : Properties) :
  properties_eqb p q = false <-> p <> q.
Proof.
  unfold properties_eqb. destruct (Properties_eq_dec p q); split;
    intros; congruence.
Qed.

Lemma properties_eqb_sym (p q : Properties) :
  properties_eqb p q = properties_eqb q p.
Proof.
  unfold properties_eqb.
  destruct (Properties_eq_dec p q), (Properties_eq_dec q p); congruence.
Qed.

Lemma detect_conflicts_unfold (fvs : list FeatureVersion) (source target : EditBranch) :
  detect_conflicts fvs source target
  = fold_left (report (_get_latest_features fvs target))
      (_get_latest_features fvs source) [].
Proof. reflexivity. Qed.

Lemma report_In (tgt : dict UUID FeatureVersion) (c : ConflictData)
  (src : dict UUID FeatureVersion) (acc : list ConflictData) :
  In c (fold_left (report tgt) src acc)
  <-> In c acc
      \/ exists fid sv tv ty,
           In (fid, sv) src /\ dict_get N.eqb fid tgt = Some tv
           /\ _detect_conflict_type sv tv = Some ty
           /\ c = conflict_entry fid ty sv tv.
Proof.
  revert acc; induction src as [|[fid sv] src IH]; intros acc; cbn [fold_left].
  - split; [intros Hin; left; exact Hin|].
    intros [Hin|(? & ? & ? & ? & [] & _)]; exact Hin.
  - rewrite IH. unfold report.
    destruct (dict_get N.eqb fid tgt) as [tv|] eqn:Htv.
    + destruct (_detect_conflict_type sv tv) as [ty|] eqn:Hty.
      * rewrite in_app_iff; cbn. split.
        -- intros [[Hin|[<-|[]]]|(f & s & t & y & Hin & Hrest)].
           ++ left; exact Hin.
           ++ right. exists fid, sv, tv, ty. auto.
           ++ right. exists f, s, t, y. split; [right; exact Hin|exact Hrest].
        -- intros [Hin|(f & s & t & y & [Heq|Hin] & Ht & Hy & ->)].
           ++ left; left; exact Hin.
           ++ injection Heq as <- <-. left; right; left.
              rewrite Htv in Ht; injection Ht as <-.
              rewrite Hty in Hy; injection Hy as <-. reflexivity.
           ++ right. exists f, s, t, y. auto.
      * split.
        -- intros [Hin|(f & s & t & y & Hin & Hrest)]; [left; exact Hin|].
           right. exists f, s, t, y. split; [right; exact Hin|exact Hrest].
        -- intros [Hin|(f & s & t & y & [Heq|Hin] & Ht & Hy & ->)].
           ++ left; exact Hin.
           ++ injection Heq as <- <-. rewrite Htv in Ht; injection Ht as <-.
              congruence.
           ++ right. exists f, s, t, y. auto.
    + split.
      * intros [Hin|(f & s & t & y & Hin & Hrest)]; [left; exact Hin|].
        right. exists f, s, t, y. split; [right; exact Hin|exact Hrest].
      * intros [Hin|(f & s & t & y & [Heq|Hin] & Ht & Hy & ->)].
        -- left; exact Hin.
        -- injection Heq as <- <-. congruence.
        -- right. exists f, s, t, y. auto.
Qed.

(** The entries of [detect_conflicts]: one for each feature that both
    dictionaries hold and that [_detect_conflict_type] gives a type. *)
Lemma detect_conflicts_In (fvs : list FeatureVersion) (source target : EditBranch)
  (c : ConflictData) :
  In c (detect_conflicts fvs source target)
  <-> exists fid sv tv ty,
        dict_get N.eqb fid (_get_latest_features fvs source) = Some sv
        /\ dict_get N.eqb fid (_get_latest_features fvs target) = Some tv
        /\ _detect_conflict_type sv tv = Some ty
        /\ c = conflict_entry fid ty sv tv.
Proof.
  rewrite detect_conflicts_unfold, report_In. split.
  - intros [[]|(fid & sv & tv & ty & Hin & Hrest)].
    exists fid, sv, tv, ty. split; [|exact Hrest].
    apply In_dict_get; [apply latest_keys|exact Hin].
  - intros (fid & sv & tv & ty & Hs & Hrest). right.
    exists fid, sv, tv, ty. split; [|exact Hrest].
    apply dict_get_In. exact Hs.
Qed.

Ltac split_conditions :=
  repeat match goal with
    | |- context [(?a =? ?b)%Z] => destruct (Z.eqb_spec a b)
    | |- context [(?a >? ?b)%Z] =>
        rewrite (Z.gtb_ltb a b); destruct (Z.ltb_spec b a)
    | |- context [equals ?a ?b] => destruct (equals a b) eqn:?
    | |- context [properties_eqb ?a ?b] =>
        let E := fresh "E" in
        destruct (properties_eqb a b) eqn:E;
        [apply properties_eqb_true in E | apply properties_eqb_false in E]
    | |- context [is_deleted ?a] => destruct (is_deleted a) eqn:?
    end; cbn.

Lemma detect_conflict_type_classifies (s t : FeatureVersion) (ty : ConflictType) :
  _detect_conflict_type s t = Some ty <-> classifies s t ty.
Proof.
  split.
  - unfold _detect_conflict_type. split_conditions;
      intros [= <-];
      try (constructor; unfold content_conflict, delete_against_edit;
           first [ assumption | lia | intuition (congruence || lia) ]).
  - intros Hc. unfold _detect_conflict_type.
    destruct Hc as [Hs Ht Hg Hp | Hs Ht Hg Hp | Hs Ht Hg Hp | Hn Hd];
      unfold content_conflict, delete_against_edit in *.
    + rewrite Hg. apply properties_eqb_false in Hp. rewrite Hp.
      split_conditions; try reflexivity; lia.
    + rewrite Hg. apply properties_eqb_true in Hp. rewrite Hp.
      split_conditions; try reflexivity; lia.
    + rewrite Hg. apply properties_eqb_false in Hp. rewrite Hp.
      split_conditions; try reflexivity; lia.
    + split_conditions; try reflexivity;
        exfalso; intuition (congruence || lia).
Qed.

End Detection.

Section DetectionProperties.
Context `{Spatial}.
Import ConflictDetector.

(** C1 (as the code has it).  For every version table, every pair of
    branches and every feature held by both dictionaries of latest
    versions, with latest versions [sv] and [tv], the detector reports the
    feature exactly when [classifies sv tv] gives a type, with that type
    and these two versions: BOTH, GEOMETRY or PROPERTIES when both versions
    exceed 1 and the contents differ; DELETE when the contents raise no
    conflict and one side is deleted while the other is live with a
    version above 1; nothing otherwise (in particular when both versions
    are 1). *)
Theorem detect_conflicts_classifies
  (fvs : list FeatureVersion) (source target : EditBranch)
  (fid : UUID) (sv tv : FeatureVersion) (c : ConflictData) :
  dict_get N.eqb fid (_get_latest_features fvs source) = Some sv ->
  dict_get N.eqb fid (_get_latest_features fvs target) = Some tv ->
  (In c (detect_conflicts fvs source target) /\ cd_feature_id c = fid)
  <-> (exists ty, classifies sv tv ty /\ c = conflict_entry fid ty sv tv).
Proof.
  intros Hs Ht. rewrite detect_conflicts_In. split.
  - intros [(fid' & sv' & tv' & ty & Hs' & Ht' & Hty & ->) Hfid].
    cbn in Hfid; subst fid'.
    rewrite Hs in Hs'; injection Hs' as <-.
    rewrite Ht in Ht'; injection Ht' as <-.
    exists ty. split; [|reflexivity].
    apply detect_conflict_type_classifies. exact Hty.
  - intros (ty & Hc & ->). split; [|reflexivity].
    exists fid, sv, tv, ty. repeat split; try assumption.
    apply detect_conflict_type_classifies. exact Hc.
Qed.

Lemma detect_conflict_type_sym (s t : FeatureVersion) :
  (forall g g' : Geometry, equals g g' = equals g' g) ->
  _detect_conflict_type s t = _detect_conflict_type t s.
Proof.
  intros Hsym. unfold _detect_conflict_type.
  rewrite (Hsym (geometry t) (geometry s)).
  rewrite (properties_eqb_sym (properties t) (properties s)).
  rewrite (andb_comm (version t =? 1)%Z).
  rewrite (andb_comm (version t >? 1)%Z).
  destruct (version s =? 1)%Z, (version t =? 1)%Z,
           (version s >? 1)%Z, (version t >? 1)%Z,
           (equals (geometry s) (geometry t)),
           (properties_eqb (properties s) (properties t)),
           (is_deleted s), (is_deleted t); reflexivity.
Qed.

(** C10.  With a symmetric spatial equality, [detect_conflicts] on (A, B)
    and on (B, A) over the same version table report the same features
    with the same conflict types: the entries of one call are the entries
    of the other with source and target versions exchanged. *)
Theorem detect_conflicts_symmetric
  (fvs : list FeatureVersion) (A B : EditBranch) (c : ConflictData) :
  (forall g g' : Geometry, equals g g' = equals g' g) ->
  In c (detect_conflicts fvs A B)
  <-> In (swap_roles c) (detect_conflicts fvs B A).
Proof.
  intros Hsym. rewrite !detect_conflicts_In. split.
  - intros (fid & sv & tv & ty & Hs & Ht & Hty & ->).
    exists fid, tv, sv, ty. repeat split; try assumption.
    rewrite detect_conflict_type_sym by exact Hsym. exact Hty.
  - intros (fid & sv & tv & ty & Hs & Ht & Hty & Hc).
    exists fid, tv, sv, ty. repeat split; try assumption.
    + rewrite detect_conflict_type_sym by exact Hsym. exact Hty.
    + destruct c as [f y s t]. unfold swap_roles, conflict_entry in *.
      cbn in Hc. injection Hc as -> -> -> ->. reflexivity.
Qed.

End DetectionProperties.

Lemma Point_equals_sym (g g' : Point) : Point_equals g g' = Point_equals g' g.
Proof.
  unfold Point_equals. rewrite (Z.eqb_sym (fst g)), (Z.eqb_sym (snd g)).
  reflexivity.
Qed.

Lemma Point_equals_refl (g : Point) : Point_equals g g = true.
Proof. unfold Point_equals. rewrite !Z.eqb_refl. reflexivity. Qed.

(** C1, on the table [edited_on_both]: feature 100 is reported as BOTH. *)
Lemma detect_conflicts_classifies_witness :
  let sv := Examples.row 2 2 2 Examples.there Examples.plain Op_UPDATE false in
  let tv := Examples.row 4 1 2 Examples.here [("kind", "spring")]%string
              Op_UPDATE false in
  let c := conflict_entry 100%N BOTH sv tv in
  (In c (ConflictDetector.detect_conflicts Examples.edited_on_both
           Examples.survey Examples.master)
   /\ ConflictDetector.cd_feature_id c = 100%N)
  <-> (exists ty, classifies sv tv ty /\ c = conflict_entry 100%N ty sv tv).
Proof.
  cbv zeta.
  apply (@detect_conflicts_classifies PointSpatial Examples.edited_on_both
           Examples.survey Examples.master 100%N);
    vm_compute; reflexivity.
Defined.

(** C1, as the rule table has it, fails on two tables: a deletion against a
    rewrite with the same content (both versions 2), and a feature deleted
    at version 1 against an edit.  The table gives no conflict, the
    detector reports DELETE. *)
Lemma rule_table_counterexample :
  (exists sv tv,
     dict_get N.eqb 100%N
       (ConflictDetector._get_latest_features
          Examples.deleted_against_same_content Examples.survey) = Some sv
     /\ dict_get N.eqb 100%N
          (ConflictDetector._get_latest_features
             Examples.deleted_against_same_content Examples.master) = Some tv
     /\ rule_table sv tv = None
     /\ ConflictDetector.detect_conflicts
          Examples.deleted_against_same_content Examples.survey Examples.master
        = [conflict_entry 100%N DELETE sv tv])
  /\ (exists sv tv,
        dict_get N.eqb 100%N
          (ConflictDetector._get_latest_features
             Examples.deleted_at_version_one Examples.survey) = Some sv
        /\ dict_get N.eqb 100%N
             (ConflictDetector._get_latest_features
                Examples.deleted_at_version_one Examples.master) = Some tv
        /\ rule_table sv tv = None
        /\ ConflictDetector.detect_conflicts
             Examples.deleted_at_version_one Examples.survey Examples.master
           = [conflict_entry 100%N DELETE sv tv]).
Proof.
  split; do 2 eexists; repeat split; vm_compute; reflexivity.
Qed.

(** C10, on the table [edited_on_both]. *)
Lemma detect_conflicts_symmetric_witness :
  In (conflict_entry 100%N BOTH
        (Examples.row 2 2 2 Examples.there Examples.plain Op_UPDATE false)
        (Examples.row 4 1 2 Examples.here [("kind", "spring")]%string
           Op_UPDATE false))
     (ConflictDetector.detect_conflicts Examples.edited_on_both
        Examples.survey Examples.master)
  <-> In (swap_roles
            (conflict_entry 100%N BOTH
               (Examples.row 2 2 2 Examples.there Examples.plain Op_UPDATE false)
               (Examples.row 4 1 2 Examples.here [("kind", "spring")]%string
                  Op_UPDATE false)))
         (ConflictDetector.detect_conflicts Examples.edited_on_both
            Examples.master Examples.survey).
Proof.
  apply (@detect_conflicts_symmetric PointSpatial Examples.edited_on_both
           Examples.survey Examples.master).
  exact Point_equals_sym.
Defined.

(* ================================================================== *)
(** ** Deleting a branch *)

Section BranchDeletion.
Context `{Spatial}.
Import EditBranchViewSet.

(** C7 (as the code has it).  On a master branch ([parent_branch] null,
    name "master") every call of the branch [soft_delete] action fails and
    leaves the database, hence the status of the branch, as it was: with
    HTTP 403 when the caller is neither the creator nor a superuser, with
    HTTP 400 otherwise.  [can_delete_branch] refuses every user, and no
    sequence of calls changes the database. *)
Theorem master_branch_never_deleted
  (d : Db) (pk : UUID) (branch : EditBranch) (request_user : User)
  (callers : list User) :
  get_object eb_id (branches d) pk = Some branch ->
  is_master branch = true ->
  snd (soft_delete request_user pk d) = d
  /\ status (fst (soft_delete request_user pk d))
     = (if negb (eb_created_by branch =? user_id request_user)%N
           && negb (is_superuser request_user)
        then HTTP_403_FORBIDDEN else HTTP_400_BAD_REQUEST)
  /\ PermissionManager.can_delete_branch (user_roles d) request_user branch = false
  /\ fold_left (fun d u => snd (soft_delete u pk d)) callers d = d.
Proof.
  intros Hget Hmaster.
  assert (Hone : forall u, snd (soft_delete u pk d) = d).
  { intros u. unfold soft_delete. rewrite Hget, Hmaster.
    destruct (negb _ && negb _); reflexivity. }
  split; [apply Hone|]. split; [|split].
  - unfold soft_delete. rewrite Hget, Hmaster.
    destruct (negb _ && negb _); reflexivity.
  - unfold PermissionManager.can_delete_branch. rewrite Hmaster. reflexivity.
  - induction callers as [|u callers IH]; cbn; [reflexivity|].
    rewrite Hone. exact IH.
Qed.

End BranchDeletion.

(** C7, for the creator of the master branch of the example. *)
Lemma master_branch_never_deleted_witness :
  let d := Examples.database [] MR_pending [] in
  snd (EditBranchViewSet.soft_delete Examples.alice 1%N d) = d
  /\ status (fst (EditBranchViewSet.soft_delete Examples.alice 1%N d))
     = HTTP_400_BAD_REQUEST
  /\ PermissionManager.can_delete_branch (user_roles d) Examples.alice
       Examples.master = false
  /\ fold_left (fun d u => snd (EditBranchViewSet.soft_delete u 1%N d))
       [Examples.alice; Examples.bob] d = d.
Proof.
  cbv zeta.
  apply (@master_branch_never_deleted PointSpatial
           (Examples.database [] MR_pending []) 1%N Examples.master
           Examples.alice [Examples.alice; Examples.bob]);
    reflexivity.
Defined.

(** C7, as stated, fails for a caller who is neither the creator of the
    master branch nor a superuser: the call is refused with HTTP 403 (no
    permission), not with the HTTP 400 of the master check. *)
Lemma master_delete_forbidden_counterexample :
  get_object eb_id (branches (Examples.database [] MR_pending [])) 1%N
  = Some Examples.master
  /\ is_master Examples.master = true
  /\ fst (EditBranchViewSet.soft_delete Examples.bob 1%N
            (Examples.database [] MR_pending []))
     = {| status := HTTP_403_FORBIDDEN;
          data := error "You do not have permission to delete this branch" |}.
Proof. repeat split. Qed.

(* ================================================================== *)
(** ** Approving with unresolved conflicts *)

Section ApproveUnresolved.
Context `{Spatial}.
Import MergeRequestViewSet.

Lemma unresolved_conflicts_positive (d : Db) (mr : MergeRequest) (c : MergeConflict) :
  In c (conflicts d) -> mc_merge_request c = mr_id mr -> resolved c = false ->
  (0 <? unresolved_conflicts mr d)%nat = true.
Proof.
  intros Hin Hbound Hres. apply Nat.ltb_lt. unfold unresolved_conflicts.
  assert (Hf : In c (filter (fun c => (mc_merge_request c =? mr_id mr)%N
                                      && negb (resolved c)) (conflicts d))).
  { apply filter_In. split; [exact Hin|].
    rewrite Hbound, N.eqb_refl, Hres. reflexivity. }
  destruct (filter _ (conflicts d)); [contradiction|cbn; lia].
Qed.

(** C5 (as the code has it).  When a conflict bound to the merge request
    has [resolved = false], [approve] fails and leaves the database as it
    was (no merge, the status of the request unchanged): with HTTP 400
    (the unresolved-conflicts error) when the caller passes
    [_can_approve], and with HTTP 403 when the caller does not. *)
Theorem approve_unresolved_conflict
  (d : Db) (pk : UUID) (merge_request : MergeRequest) (c : MergeConflict)
  (request_user : User) (now : Timestamp) :
  get_object mr_id (merge_requests d) pk = Some merge_request ->
  In c (conflicts d) ->
  mc_merge_request c = mr_id merge_request ->
  resolved c = false ->
  snd (approve request_user now pk d) = d
  /\ status (fst (approve request_user now pk d))
     = (if _can_approve request_user
        then HTTP_400_BAD_REQUEST else HTTP_403_FORBIDDEN).
Proof.
  intros Hget Hin Hbound Hres. unfold approve. rewrite Hget.
  destruct (_can_approve request_user); cbn [negb].
  - rewrite (unresolved_conflicts_positive d merge_request c Hin Hbound Hres).
    split; reflexivity.
  - split; reflexivity.
Qed.

End ApproveUnresolved.

(** C5, for a superuser and the open conflict of the example. *)
Lemma approve_unresolved_conflict_witness :
  let d := Examples.database Examples.edited_on_both MR_conflicts
             [Examples.open_conflict] in
  snd (MergeRequestViewSet.approve Examples.alice 0%Z 1%N d) = d
  /\ status (fst (MergeRequestViewSet.approve Examples.alice 0%Z 1%N d))
     = HTTP_400_BAD_REQUEST.
Proof.
  cbv zeta.
  apply (@approve_unresolved_conflict PointSpatial
           (Examples.database Examples.edited_on_both MR_conflicts
              [Examples.open_conflict])
           1%N (Examples.request MR_conflicts) Examples.open_conflict
           Examples.alice 0%Z);
    first [reflexivity | left; reflexivity].
Defined.

(** C5, as stated, fails for a caller whom [_can_approve] refuses: the
    request has an unresolved conflict, and the call fails with HTTP 403
    (no permission), not with the unresolved-conflicts error. *)
Lemma approve_unresolved_forbidden_counterexample :
  let d := Examples.database Examples.edited_on_both MR_conflicts
             [Examples.open_conflict] in
  get_object mr_id (merge_requests d) 1%N = Some (Examples.request MR_conflicts)
  /\ MergeRequestViewSet.unresolved_conflicts (Examples.request MR_conflicts) d
     = 1%nat
  /\ fst (MergeRequestViewSet.approve Examples.bob 0%Z 1%N d)
     = {| status := HTTP_403_FORBIDDEN;
          data := error "You do not have permission to approve merge requests" |}.
Proof. repeat split. Qed.

(* ================================================================== *)
(** ** Ordered query sets *)

Section OrderBy.
Context `{Spatial}.
Import MergeService.

Lemma insert_sorted_In (le : FeatureVersion -> FeatureVersion -> bool)
  (x z : FeatureVersion) (l : list FeatureVersion) :
  In z (insert_sorted le x l) <-> z = x \/ In z l.
Proof.
  induction l as [|y l IH]; cbn.
  - intuition congruence.
  - destruct (le x y); cbn; [intuition congruence|].
    rewrite IH. intuition congruence.
Qed.

Lemma order_by_cons (le : FeatureVersion -> FeatureVersion -> bool)
  (x : FeatureVersion) (l : list FeatureVersion) :
  order_by le (x :: l) = insert_sorted le x (order_by le l).
Proof. reflexivity. Qed.

Lemma first_insert_sorted (le : FeatureVersion -> FeatureVersion -> bool)
  (x : FeatureVersion) (l : list FeatureVersion) :
  first (insert_sorted le x l)
  = match first l with
    | Some y => if le x y then Some x else Some y
    | None => Some x
    end.
Proof. destruct l as [|y l]; cbn; [reflexivity|]. destruct (le x y); reflexivity. Qed.

(** [order_by('-version').first()] is the newest row. *)
Lemma first_by_desc_version (l : list FeatureVersion) :
  first (order_by by_desc_version l) = newest l.
Proof.
  induction l as [|x l IH]; [reflexivity|].
  rewrite order_by_cons, first_insert_sorted, IH. reflexivity.
Qed.

Lemma lex_total (a b : FeatureVersion) :
  by_feature_id_desc_version a b = false ->
  by_feature_id_desc_version b a = true.
Proof.
  unfold by_feature_id_desc_version.
  destruct (N.ltb_spec (feature_id a) (feature_id b)),
           (N.ltb_spec (feature_id b) (feature_id a)),
           (N.eqb_spec (feature_id a) (feature_id b)),
           (N.eqb_spec (feature_id b) (feature_id a)),
           (Z.leb_spec (version b) (version a)),
           (Z.leb_spec (version a) (version b)); cbn; intros; try congruence; lia.
Qed.

Lemma lex_trans (a b c : FeatureVersion) :
  by_feature_id_desc_version a b = true ->
  by_feature_id_desc_version b c = true ->
  by_feature_id_desc_version a c = true.
Proof.
  unfold by_feature_id_desc_version.
  destruct (N.ltb_spec (feature_id a) (feature_id b)),
           (N.ltb_spec (feature_id b) (feature_id c)),
           (N.ltb_spec (feature_id a) (feature_id c)),
           (N.eqb_spec (feature_id a) (feature_id b)),
           (N.eqb_spec (feature_id b) (feature_id c)),
           (N.eqb_spec (feature_id a) (feature_id c)),
           (Z.leb_spec (version b) (version a)),
           (Z.leb_spec (version c) (version b)),
           (Z.leb_spec (version c) (version a)); cbn; intros; try congruence; lia.
Qed.

Lemma insert_lex_sorted (x : FeatureVersion) (l : list FeatureVersion) :
  lex_sorted l -> lex_sorted (insert_sorted by_feature_id_desc_version x l).
Proof.
  unfold lex_sorted. induction 1 as [|y l Hs IH Hy]; cbn.
  - repeat constructor.
  - destruct (by_feature_id_desc_version x y) eqn:Hxy.
    + constructor; [constructor; assumption|].
      constructor; [exact Hxy|].
      rewrite Forall_forall in *. intros z Hz.
      exact (lex_trans _ _ _ Hxy (Hy z Hz)).
    + constructor; [exact IH|].
      rewrite Forall_forall in *. intros z Hz.
      apply insert_sorted_In in Hz. destruct Hz as [->|Hz].
      * exact (lex_total _ _ Hxy).
      * exact (Hy z Hz).
Qed.

Lemma order_by_lex_sorted (l : list FeatureVersion) :
  lex_sorted (order_by by_feature_id_desc_version l).
Proof.
  induction l as [|x l IH]; [constructor|].
  rewrite order_by_cons. apply insert_lex_sorted. exact IH.
Qed.

Lemma find_insert_lex (k : UUID) (x : FeatureVersion) (l : list FeatureVersion) :
  lex_sorted l ->
  find (fun v => (feature_id v =? k)%N)
       (insert_sorted by_feature_id_desc_version x l)
  = if (feature_id x =? k)%N
    then match find (fun v => (feature_id v =? k)%N) l with
         | Some y => if (version y <=? version x)%Z then Some x else Some y
         | None => Some x
         end
    else find (fun v => (feature_id v =? k)%N) l.
Proof.
  unfold lex_sorted. induction 1 as [|y l Hs IH Hy]; cbn.
  - destruct (feature_id x =? k)%N; reflexivity.
  - destruct (by_feature_id_desc_version x y) eqn:Hxy; cbn.
    + destruct (N.eqb_spec (feature_id x) k) as [Hx|Hx]; [|reflexivity].
      assert (Hle : forall z, In z (y :: l) -> feature_id z = k ->
                              (version z <=? version x)%Z = true).
      { intros z Hz Hk.
        assert (Hxz : by_feature_id_desc_version x z = true).
        { destruct Hz as [<-|Hz]; [exact Hxy|].
          rewrite Forall_forall in Hy.
          exact (lex_trans _ _ _ Hxy (Hy z Hz)). }
        unfold by_feature_id_desc_version in Hxz.
        rewrite Hx, Hk, N.ltb_irrefl, N.eqb_refl in Hxz. exact Hxz. }
      destruct (N.eqb_spec (feature_id y) k) as [Hyk|Hyk].
      * rewrite (Hle y (or_introl eq_refl) Hyk). reflexivity.
      * destruct (find _ l) as [z|] eqn:Hf; [|reflexivity].
        apply find_some in Hf. destruct Hf as [Hz Hzk].
        apply N.eqb_eq in Hzk.
        rewrite (Hle z (or_intror Hz) Hzk). reflexivity.
    + rewrite IH.
      destruct (N.eqb_spec (feature_id y) k) as [Hyk|Hyk]; [|reflexivity].
      destruct (N.eqb_spec (feature_id x) k) as [Hx|Hx]; [|reflexivity].
      unfold by_feature_id_desc_version in Hxy.
      rewrite Hx, Hyk, N.ltb_irrefl, N.eqb_refl in Hxy. cbn in Hxy.
      rewrite Hxy. reflexivity.
Qed.

(** The first row of a feature under [order_by('feature_id', '-version')]
    is the newest row of the feature. *)
Lemma find_by_feature_id_desc_version (k : UUID) (l : list FeatureVersion) :
  find (fun v => (feature_id v =? k)%N) (order_by by_feature_id_desc_version l)
  = newest (filter (fun v => (feature_id v =? k)%N) l).
Proof.
  induction l as [|x l IH]; [reflexivity|].
  rewrite order_by_cons, find_insert_lex by apply order_by_lex_sorted.
  rewrite IH. cbn [filter]. destruct (feature_id x =? k)%N; reflexivity.
Qed.

Lemma filter_filter (f g : FeatureVersion -> bool) (l : list FeatureVersion) :
  filter g (filter f l) = filter (fun v => f v && g v) l.
Proof.
  induction l as [|x l IH]; cbn; [reflexivity|].
  destruct (f x); cbn; [destruct (g x)|]; rewrite IH; reflexivity.
Qed.

(** An entry of the dictionary of latest versions is the head version. *)
Lemma latest_get (fvs : list FeatureVersion) (branch : EditBranch) (k : UUID) :
  dict_get N.eqb k (_get_latest_features fvs branch)
  = head_version fvs (eb_id branch) k.
Proof.
  unfold _get_latest_features, head_version.
  change (fold_left _ ?l []) with (fold_left keep_first l []).
  rewrite keep_first_get; cbn [dict_get].
  rewrite find_by_feature_id_desc_version, filter_filter. reflexivity.
Qed.

Lemma newest_In (l : list FeatureVersion) (r : FeatureVersion) :
  newest l = Some r -> In r l.
Proof.
  revert r; induction l as [|x l IH]; cbn; [discriminate|].
  intros r. destruct (newest l) as [y|].
  - destruct (version y <=? version x)%Z; intros [= <-]; auto.
  - intros [= <-]; auto.
Qed.

Lemma head_version_In (fvs : list FeatureVersion) (b k : UUID) (r : FeatureVersion) :
  head_version fvs b k = Some r ->
  In r fvs /\ fv_branch r = b /\ feature_id r = k.
Proof.
  intros Hh. apply newest_In, filter_In in Hh. destruct Hh as [Hin Hb].
  apply andb_true_iff in Hb. destruct Hb as [Hb Hk].
  apply N.eqb_eq in Hb, Hk. auto.
Qed.

Lemma newest_app_one (l : list FeatureVersion) (r : FeatureVersion) :
  newest (l ++ [r])
  = match newest l with
    | Some y => if (version y <? version r)%Z then Some r else Some y
    | None => Some r
    end.
Proof.
  induction l as [|x l IH]; cbn; [reflexivity|].
  rewrite IH. destruct (newest l) as [y|].
  - destruct (Z.ltb_spec (version y) (version r)),
             (Z.leb_spec (version y) (version x)); cbn;
      repeat match goal with
        | |- context [(?a <=? ?b)%Z] => destruct (Z.leb_spec a b)
        | |- context [(?a <? ?b)%Z] => destruct (Z.ltb_spec a b)
        end; try reflexivity; lia.
  - destruct (Z.leb_spec (version r) (version x)),
             (Z.ltb_spec (version x) (version r)); try reflexivity; lia.
Qed.

End OrderBy.

(* ================================================================== *)
(** ** The merge loop *)

Section MergeLoop.
Context `{Spatial}.
Import MergeService.

Lemma same_but_versions_refl (d : Db) : same_but_versions d d.
Proof. repeat split. Qed.

(** [_create_merged_version] returns the row [merged_version] and appends
    it to the version table, once the branch of the source version is
    found. *)
Lemma create_merged_version_run
  (sv : FeatureVersion) (target : EditBranch) (d : Db) (b : EditBranch) :
  find (fun r => (eb_id r =? fv_branch sv)%N) (branches d) = Some b ->
  _create_merged_version sv target d
  = (inr (merged_version (feature_versions d) sv target (eb_name b)),
     set_feature_versions
       (feature_versions d
        ++ [merged_version (feature_versions d) sv target (eb_name b)]) d).
Proof.
  intros Hb. unfold _create_merged_version, bind, get, deref, put, ret.
  rewrite Hb. rewrite first_by_desc_version.
  unfold merged_version, head_number, head_version.
  destruct (newest _); reflexivity.
Qed.

Lemma merge_feature_skip
  (tgt : dict UUID FeatureVersion) (target : EditBranch)
  (item : UUID * FeatureVersion) (s : Db * nat) :
  needs_merge tgt item = false ->
  merge_feature tgt target item s = (inr tt, s).
Proof.
  destruct item as [fid sv]. unfold needs_merge, merge_feature; cbn [fst snd].
  destruct (is_deleted sv); [reflexivity|]. cbn [negb andb].
  destruct (dict_get N.eqb fid tgt) as [tv|]; [|discriminate].
  intros ->. reflexivity.
Qed.

Lemma merge_feature_create
  (tgt : dict UUID FeatureVersion) (target : EditBranch)
  (fid : UUID) (sv : FeatureVersion) (d : Db) (n : nat) (b : EditBranch) :
  needs_merge tgt (fid, sv) = true ->
  find (fun r => (eb_id r =? fv_branch sv)%N) (branches d) = Some b ->
  merge_feature tgt target (fid, sv) (d, n)
  = (inr tt,
     (set_feature_versions
        (feature_versions d
         ++ [merged_version (feature_versions d) sv target (eb_name b)]) d,
      S n)).
Proof.
  unfold needs_merge, merge_feature; cbn [fst snd].
  intros Hneeds Hb. apply andb_true_iff in Hneeds. destruct Hneeds as [Hlive Hc].
  apply negb_true_iff in Hlive. rewrite Hlive.
  assert (Hrun :
    bind (lift_db (_create_merged_version sv target))
         (fun _ => modify (fun s : Db * nat => (fst s, S (snd s)))) (d, n)
    = (inr tt,
       (set_feature_versions
          (feature_versions d
           ++ [merged_version (feature_versions d) sv target (eb_name b)]) d,
        S n))).
  { unfold bind, lift_db; cbn [fst snd].
    rewrite (create_merged_version_run sv target d b Hb). reflexivity. }
  destruct (dict_get N.eqb fid tgt) as [tv|]; [rewrite Hc|]; exact Hrun.
Qed.

Lemma head_version_app_other
  (fvs : list FeatureVersion) (r : FeatureVersion) (b k : UUID) :
  (fv_branch r =? b)%N && (feature_id r =? k)%N = false ->
  head_version (fvs ++ [r]) b k = head_version fvs b k.
Proof.
  intros Hr. unfold head_version. rewrite filter_app; cbn [filter].
  rewrite Hr, app_nil_r. reflexivity.
Qed.

Lemma head_version_app_merged
  (fvs : list FeatureVersion) (sv : FeatureVersion) (target : EditBranch)
  (name : string) :
  head_version (fvs ++ [merged_version fvs sv target name])
    (eb_id target) (feature_id sv)
  = Some (merged_version fvs sv target name).
Proof.
  unfold head_version at 1. rewrite filter_app; cbn [filter].
  cbn [merged_version fv_branch feature_id]. rewrite !N.eqb_refl; cbn [andb].
  rewrite newest_app_one.
  fold (head_version fvs (eb_id target) (feature_id sv)).
  destruct (head_version fvs (eb_id target) (feature_id sv)) as [y|] eqn:Hy;
    [|reflexivity].
  assert (Hv : version (merged_version fvs sv target name) = (version y + 1)%Z).
  { cbn. unfold head_number. rewrite Hy. reflexivity. }
  rewrite Hv.
  destruct (Z.ltb_spec (version y) (version y + 1)); [reflexivity|lia].
Qed.

Lemma feature_id_merged_version
  (fvs : list FeatureVersion) (sv : FeatureVersion) (target : EditBranch)
  (name : string) (b k : UUID) :
  b <> eb_id target \/ k <> feature_id sv ->
  (fv_branch (merged_version fvs sv target name) =? b)%N
  && (feature_id (merged_version fvs sv target name) =? k)%N = false.
Proof.
  cbn. intros [Hb|Hk].
  - destruct (N.eqb_spec (eb_id target) b); [congruence|reflexivity].
  - destruct (N.eqb_spec (feature_id sv) k); [congruence|].
    apply andb_false_r.
Qed.

(** The loop of [merge_branches] over the entries [items] of the source
    dictionary, from the database [d] and the count [n]. *)
Lemma merge_loop (tgt : dict UUID FeatureVersion) (target : EditBranch)
  (items : list (UUID * FeatureVersion)) :
  forall (d : Db) (n : nat),
  NoDup (map fst items) ->
  (forall fid sv, In (fid, sv) items -> feature_id sv = fid) ->
  (forall fid sv, In (fid, sv) items ->
     find (fun r => (eb_id r =? fv_branch sv)%N) (branches d) <> None) ->
  exists d',
    for_each items (merge_feature tgt target) (d, n)
    = (inr tt, (d', n + List.length (filter (needs_merge tgt) items)))
    /\ same_but_versions d d'
    /\ (forall b, b <> eb_id target ->
          filter (fun v => (fv_branch v =? b)%N) (feature_versions d')
          = filter (fun v => (fv_branch v =? b)%N) (feature_versions d))
    /\ (forall k, ~ In k (map fst (filter (needs_merge tgt) items)) ->
          head_version (feature_versions d') (eb_id target) k
          = head_version (feature_versions d) (eb_id target) k)
    /\ (forall fid sv, In (fid, sv) items -> needs_merge tgt (fid, sv) = true ->
          exists r,
            head_version (feature_versions d') (eb_id target) fid = Some r
            /\ version r
               = (head_number (feature_versions d) (eb_id target) fid + 1)%Z
            /\ geometry r = geometry sv
            /\ properties r = properties sv)
    /\ (filter (needs_merge tgt) items = [] -> d' = d).
Proof.
  induction items as [|[fid0 sv0] items IH]; intros d n Hnd Hkey Hbr.
  - exists d. cbn. rewrite Nat.add_0_r.
    split; [reflexivity|]. split; [apply same_but_versions_refl|].
    split; [reflexivity|]. split; [reflexivity|].
    split; [intros ? ? []|reflexivity].
  - cbn [map fst] in Hnd. apply NoDup_cons_iff in Hnd.
    destruct Hnd as [Hfresh Hnd].
    assert (Hkey' : forall fid sv, In (fid, sv) items -> feature_id sv = fid).
    { intros fid sv Hin. apply Hkey. right; exact Hin. }
    assert (Hother_key : forall fid sv, In (fid, sv) items -> fid <> fid0).
    { intros fid sv Hin ->. apply Hfresh.
      apply (in_map fst) in Hin. exact Hin. }
    cbn [for_each filter]. unfold bind at 1.
    destruct (needs_merge tgt (fid0, sv0)) eqn:Hneeds.
    + destruct (find (fun r => (eb_id r =? fv_branch sv0)%N) (branches d))
        as [b|] eqn:Hb;
        [|exfalso; exact (Hbr fid0 sv0 (or_introl eq_refl) Hb)].
      rewrite (merge_feature_create tgt target fid0 sv0 d n b Hneeds Hb).
      set (mv := merged_version (feature_versions d) sv0 target (eb_name b)).
      set (d1 := set_feature_versions (feature_versions d ++ [mv]) d).
      assert (Hfid0 : feature_id sv0 = fid0)
        by exact (Hkey fid0 sv0 (or_introl eq_refl)).
      destruct (IH d1 (S n) Hnd Hkey')
        as (d' & Hrun & Hsame & Hother & Hkeep & Hnew & _).
      { intros fid sv Hin. apply (Hbr fid sv). right; exact Hin. }
      exists d'. split; [rewrite Hrun; cbn [List.length]; do 2 f_equal; lia|].
      split; [exact Hsame|].
      split; [|split; [|split; [|discriminate]]].
      * intros k Hk. rewrite (Hother k Hk). subst d1; cbn [feature_versions set_feature_versions].
        rewrite filter_app; cbn [filter]. subst mv; cbn [fv_branch merged_version].
        destruct (N.eqb_spec (eb_id target) k); [congruence|apply app_nil_r].
      * intros k Hk. cbn [map fst] in Hk.
        rewrite Hkeep by (intros Hin; apply Hk; right; exact Hin).
        apply head_version_app_other. apply feature_id_merged_version.
        right. rewrite Hfid0. intros ->. apply Hk. left; reflexivity.
      * intros fid sv [Heq|Hin] Hn.
        -- injection Heq as <- <-.
           exists mv. split; [|repeat split].
           ++ rewrite Hkeep.
              ** subst d1 mv; cbn [feature_versions set_feature_versions].
                 rewrite <- Hfid0. apply head_version_app_merged.
              ** intros Hin. apply Hfresh.
                 apply in_map_iff in Hin. destruct Hin as ([k v] & <- & Hin).
                 apply filter_In in Hin. destruct Hin as [Hin _].
                 apply (in_map fst) in Hin. exact Hin.
           ++ subst mv; cbn [version merged_version]. rewrite Hfid0. reflexivity.
        -- destruct (Hnew fid sv Hin Hn) as (r & Hr & Hv & Hg & Hp).
           exists r. split; [exact Hr|]. split; [|split; assumption].
           rewrite Hv. f_equal. unfold head_number.
           subst d1; cbn [feature_versions set_feature_versions].
           rewrite head_version_app_other; [reflexivity|].
           apply feature_id_merged_version. right. rewrite Hfid0.
           exact (Hother_key fid sv Hin).
    + rewrite (merge_feature_skip tgt target (fid0, sv0) (d, n) Hneeds).
      destruct (IH d n Hnd Hkey')
        as (d' & Hrun & Hsame & Hother & Hkeep & Hnew & Hnil).
      { intros fid sv Hin. apply (Hbr fid sv). right; exact Hin. }
      exists d'. split; [exact Hrun|]. split; [exact Hsame|].
      split; [exact Hother|]. split; [exact Hkeep|]. split; [|exact Hnil].
      intros fid sv [Heq|Hin] Hn; [|exact (Hnew fid sv Hin Hn)].
      injection Heq as <- <-. congruence.
Qed.

Lemma latest_entry (fvs : list FeatureVersion) (branch : EditBranch)
  (k : UUID) (v : FeatureVersion) :
  In (k, v) (_get_latest_features fvs branch) ->
  In v fvs /\ fv_branch v = eb_id branch /\ feature_id v = k.
Proof.
  intros Hin. apply In_dict_get in Hin; [|apply latest_keys].
  rewrite latest_get in Hin. exact (head_version_In _ _ _ _ Hin).
Qed.

(** [merge_branches] returns: its count is the number of entries of the
    source dictionary that pass the test [needs_merge], and the version
    table gains one merged row per such entry, each the new head of its
    feature on the target branch. *)
Lemma merge_branches_run (source target : EditBranch) (d : Db) :
  find (fun r => (eb_id r =? eb_id source)%N) (branches d) <> None ->
  let src := _get_latest_features (feature_versions d) source in
  let tgt := _get_latest_features (feature_versions d) target in
  exists d',
    merge_branches source target d
    = (inr (List.length (filter (needs_merge tgt) src)), d')
    /\ same_but_versions d d'
    /\ (forall b, b <> eb_id target ->
          filter (fun v => (fv_branch v =? b)%N) (feature_versions d')
          = filter (fun v => (fv_branch v =? b)%N) (feature_versions d))
    /\ (forall k, ~ In k (map fst (filter (needs_merge tgt) src)) ->
          head_version (feature_versions d') (eb_id target) k
          = head_version (feature_versions d) (eb_id target) k)
    /\ (forall fid sv, In (fid, sv) src -> needs_merge tgt (fid, sv) = true ->
          exists r,
            head_version (feature_versions d') (eb_id target) fid = Some r
            /\ version r
               = (head_number (feature_versions d) (eb_id target) fid + 1)%Z
            /\ geometry r = geometry sv
            /\ properties r = properties sv)
    /\ (filter (needs_merge tgt) src = [] -> d' = d).
Proof.
  intros Hsource src tgt.
  destruct (merge_loop tgt target src d 0) as (d' & Hrun & Hrest).
  - apply latest_keys.
  - intros fid sv Hin. apply (latest_entry _ _ _ _ Hin).
  - intros fid sv Hin. apply latest_entry in Hin.
    destruct Hin as (_ & -> & _). exact Hsource.
  - exists d'. split; [|exact Hrest].
    unfold merge_branches, atomic. fold src tgt. rewrite Hrun. reflexivity.
Qed.

Lemma filter_length_zero {X : Type} (f : X -> bool) (l : list X) :
  List.length (filter f l) = 0 <-> forall x, In x l -> f x = false.
Proof.
  induction l as [|y l IH]; cbn; [intuition|].
  destruct (f y) eqn:Hy; cbn.
  - split; [discriminate|]. intros Hall.
    rewrite (Hall y (or_introl eq_refl)) in Hy. discriminate.
  - rewrite IH. split.
    + intros Hall x [<-|Hin]; auto.
    + intros Hall x Hin. apply Hall. right; exact Hin.
Qed.

Lemma latest_depends_on_key (fvs : list FeatureVersion) (b b' : EditBranch) :
  eb_id b = eb_id b' ->
  _get_latest_features fvs b = _get_latest_features fvs b'.
Proof. intros Heq. unfold _get_latest_features. rewrite Heq. reflexivity. Qed.

(** After a first merge, a second merge creates a version exactly for the
    live source entries that run ahead of the target. *)
Lemma merge_branches_second_count (source target : EditBranch) (d : Db) :
  (forall g : Geometry, equals g g = true) ->
  find (fun r => (eb_id r =? eb_id source)%N) (branches d) <> None ->
  exists n1 d1 d2,
    merge_branches source target d = (inr n1, d1)
    /\ merge_branches source target d1
       = (inr (List.length
                 (filter (runs_ahead (feature_versions d) target)
                    (_get_latest_features (feature_versions d) source))), d2).
Proof.
  intros Hrefl Hsource.
  set (src := _get_latest_features (feature_versions d) source).
  set (tgt := _get_latest_features (feature_versions d) target).
  assert (Hveq : forall v w, geometry w = geometry v -> properties w = properties v ->
                             _versions_equal v w = true).
  { intros v w Hg Hp. unfold _versions_equal. rewrite Hg, Hp, Hrefl.
    apply properties_eqb_true. reflexivity. }
  assert (Hget : forall fid sv, In (fid, sv) src ->
                               dict_get N.eqb fid src = Some sv).
  { intros fid sv Hin. apply In_dict_get; [apply latest_keys|exact Hin]. }
  destruct (merge_branches_run source target d Hsource)
    as (d1 & Hrun1 & Hsame & Hother & Hkeep & Hnew & Hnil).
  fold src tgt in Hrun1, Hkeep, Hnew, Hnil.
  assert (Hsource1 :
    find (fun r => (eb_id r =? eb_id source)%N) (branches d1) <> None).
  { destruct Hsame as (_ & -> & _). exact Hsource. }
  destruct (merge_branches_run source target d1 Hsource1)
    as (d2 & Hrun2 & _).
  exists (List.length (filter (needs_merge tgt) src)), d1, d2.
  split; [exact Hrun1|]. rewrite Hrun2. do 2 f_equal.
  destruct (N.eq_dec (eb_id source) (eb_id target)) as [Hsame_key|Hdiff].
  - (* one branch merged into itself: nothing is written *)
    assert (Htgt : tgt = src).
    { subst src tgt. apply latest_depends_on_key. symmetry; exact Hsame_key. }
    assert (Hnone : forall x, In x src -> needs_merge tgt x = false).
    { intros [fid sv] Hin. unfold needs_merge; cbn [fst snd].
      rewrite Htgt, (Hget fid sv Hin).
      rewrite (Hveq sv sv eq_refl eq_refl), Z.gtb_ltb, Z.ltb_irrefl.
      apply andb_false_r. }
    assert (Hd1 : d1 = d).
    { apply Hnil. destruct (filter (needs_merge tgt) src) as [|x l] eqn:Hf;
        [reflexivity|].
      assert (Hx : In x (filter (needs_merge tgt) src))
        by (rewrite Hf; left; reflexivity).
      apply filter_In in Hx. destruct Hx as [Hin Hx].
      rewrite (Hnone x Hin) in Hx. discriminate. }
    rewrite Hd1. fold src tgt.
    transitivity 0.
    + apply filter_length_zero. exact Hnone.
    + symmetry. apply filter_length_zero.
      intros [fid sv] Hin. unfold runs_ahead; cbn [fst snd].
      unfold head_number. rewrite <- Hsame_key, <- latest_get. fold src.
      rewrite (Hget fid sv Hin).
      destruct (Z.gtb_spec (version sv) (version sv + 1)); [lia|].
      apply andb_false_r.
  - (* two branches *)
    assert (Hsrc1 : _get_latest_features (feature_versions d1) source = src).
    { subst src. unfold _get_latest_features. rewrite (Hother _ Hdiff).
      reflexivity. }
    rewrite Hsrc1. f_equal. apply filter_ext_in.
    intros [fid sv] Hin. unfold needs_merge at 1, runs_ahead; cbn [fst snd].
    rewrite latest_get.
    destruct (needs_merge tgt (fid, sv)) eqn:Hneeds.
    + destruct (Hnew fid sv Hin Hneeds) as (r & -> & Hv & Hg & Hp).
      rewrite (Hveq sv r Hg Hp), Hv. cbn [negb]. rewrite orb_false_r.
      reflexivity.
    + rewrite Hkeep.
      * assert (Hneeds' := Hneeds). unfold needs_merge in Hneeds'.
        cbn [fst snd] in Hneeds'. subst tgt. rewrite latest_get in Hneeds'.
        rewrite Hneeds'. symmetry. unfold head_number.
        destruct (is_deleted sv); [reflexivity|]. cbn [negb andb] in *.
        destruct (head_version (feature_versions d) (eb_id target) fid)
          as [tv|]; [|discriminate].
        apply orb_false_iff in Hneeds'. destruct Hneeds' as [Hgt _].
        rewrite Z.gtb_ltb in *. apply Z.ltb_ge in Hgt.
        apply Z.ltb_ge. lia.
      * intros Hk. apply in_map_iff in Hk. destruct Hk as ([k v] & Hkv & Hin').
        cbn in Hkv; subst k. apply filter_In in Hin'.
        destruct Hin' as [Hin' Hn'].
        assert (v = sv).
        { pose proof (Hget fid v Hin') as E1.
          pose proof (Hget fid sv Hin) as E2.
          congruence. }
        subst v. congruence.
Qed.

End MergeLoop.

Section MergeTwice.
Context `{Spatial}.
Import MergeService.

(** C2 (as the code has it).  With a reflexive spatial equality and the
    source branch in the branch table, two consecutive calls of
    [merge_branches source target] both return, and the second returns a
    merged count of 0 exactly when no live latest version of the source
    has a version number more than one above the number of the latest
    version of the same feature on the target before the first call (0
    when the target had none). *)
Theorem merge_branches_twice (source target : EditBranch) (d : Db) :
  (forall g : Geometry, equals g g = true) ->
  find (fun r => (eb_id r =? eb_id source)%N) (branches d) <> None ->
  exists n1 d1 n2 d2,
    merge_branches source target d = (inr n1, d1)
    /\ merge_branches source target d1 = (inr n2, d2)
    /\ (n2 = 0
        <-> forall fid sv,
              dict_get N.eqb fid
                (_get_latest_features (feature_versions d) source) = Some sv ->
              is_deleted sv = false ->
              (version sv
               <= latest_number (feature_versions d) target fid + 1)%Z).
Proof.
  intros Hrefl Hsource.
  destruct (merge_branches_second_count source target d Hrefl Hsource)
    as (n1 & d1 & d2 & Hrun1 & Hrun2).
  exists n1, d1. eexists. exists d2.
  split; [exact Hrun1|]. split; [exact Hrun2|].
  rewrite filter_length_zero. split.
  - intros Hall fid sv Hget Hlive. apply dict_get_In in Hget.
    specialize (Hall (fid, sv) Hget). unfold runs_ahead in Hall.
    cbn [fst snd] in Hall. rewrite Hlive in Hall. cbn [negb andb] in Hall.
    unfold latest_number. rewrite latest_get. fold (head_number (feature_versions d) (eb_id target) fid).
    rewrite Z.gtb_ltb in Hall. apply Z.ltb_ge in Hall. exact Hall.
  - intros Hall [fid sv] Hin. unfold runs_ahead; cbn [fst snd].
    destruct (is_deleted sv) eqn:Hdel; [reflexivity|]. cbn [negb andb].
    apply In_dict_get in Hin; [|apply latest_keys].
    specialize (Hall fid sv Hin Hdel).
    unfold latest_number in Hall. rewrite latest_get in Hall.
    fold (head_number (feature_versions d) (eb_id target) fid) in Hall.
    rewrite Z.gtb_ltb. apply Z.ltb_ge. exact Hall.
Qed.

End MergeTwice.

(** C2, on the table [edited_on_both]: the first merge writes version 3 of
    the feature on [master], the second writes nothing. *)
Lemma merge_branches_twice_witness :
  exists n1 d1 n2 d2,
    MergeService.merge_branches Examples.survey Examples.master
      (Examples.database Examples.edited_on_both MR_pending []) = (inr n1, d1)
    /\ MergeService.merge_branches Examples.survey Examples.master d1
       = (inr n2, d2)
    /\ (n2 = 0
        <-> forall fid sv,
              dict_get N.eqb fid
                (MergeService._get_latest_features
                   (feature_versions
                      (Examples.database Examples.edited_on_both MR_pending []))
                   Examples.survey) = Some sv ->
              is_deleted sv = false ->
              (version sv
               <= latest_number
                    (feature_versions
                       (Examples.database Examples.edited_on_both MR_pending []))
                    Examples.master fid + 1)%Z).
Proof.
  apply (@merge_branches_twice PointSpatial Examples.survey Examples.master
           (Examples.database Examples.edited_on_both MR_pending [])).
  - exact Point_equals_refl.
  - vm_compute. discriminate.
Defined.

(** C2, as stated, fails when the source is ahead by more than one version:
    the feature is at version 2 on [survey] and absent from [master]; the
    first merge writes version 1 on [master], and the second merge, with
    [survey] untouched, finds 2 > 1 and writes again: its count is 1. *)
Lemma merge_branches_twice_counterexample :
  exists d1 d2,
    MergeService.merge_branches Examples.survey Examples.master
      (Examples.database Examples.ahead_of_target MR_pending []) = (inr 1, d1)
    /\ filter (fun v => (fv_branch v =? eb_id Examples.survey)%N)
         (feature_versions d1)
       = Examples.ahead_of_target
    /\ MergeService.merge_branches Examples.survey Examples.master d1
       = (inr 1, d2).
Proof. do 2 eexists. repeat split; vm_compute; reflexivity. Qed.

(* ================================================================== *)
(** ** Reviewing a merge request *)

Section Review.
Context `{Spatial}.
Import MergeRequestViewSet.

Lemma get_object_save_row {A : Type} (key : A -> UUID) (x : A) (tbl : list A) :
  get_object key (save_row key x tbl) (key x) = Some x.
Proof.
  unfold get_object. induction tbl as [|r tbl IH]; cbn.
  - rewrite N.eqb_refl. reflexivity.
  - destruct (key r =? key x)%N eqn:Hr; cbn.
    + rewrite N.eqb_refl. reflexivity.
    + rewrite Hr. exact IH.
Qed.

Lemma get_object_key {A : Type} (key : A -> UUID) (tbl : list A) (pk : UUID) (x : A) :
  get_object key tbl pk = Some x -> key x = pk.
Proof.
  unfold get_object. intros Hf. apply find_some in Hf.
  destruct Hf as [_ Hk]. apply N.eqb_eq in Hk. exact Hk.
Qed.

(** The statements of [approve] inside [try], once both branches of the
    request are found: the merge runs, the request is saved as merged and
    the source branch as merged. *)
Lemma approve_and_merge_run
  (d : Db) (merge_request : MergeRequest) (request_user : User) (now : Timestamp)
  (source target : EditBranch) :
  get_object eb_id (branches d) (source_branch merge_request) = Some source ->
  get_object eb_id (branches d) (target_branch merge_request) = Some target ->
  exists n d1 d',
    MergeService.merge_branches source target d = (inr n, d1)
    /\ approve_and_merge request_user now merge_request d
       = (inr {| status := HTTP_200_OK;
                 data := message_merge_request
                           "Merge request approved and merged successfully"
                           (reviewed MR_merged request_user now
                              (review_comment merge_request) merge_request) |},
          d')
    /\ feature_versions d' = feature_versions d1
    /\ merge_requests d'
       = save_row mr_id
           (reviewed MR_merged request_user now
              (review_comment merge_request) merge_request)
           (merge_requests d)
    /\ branches d'
       = save_row eb_id
           (EditBranchViewSet.with_status Branch_merged (Some now) source)
           (branches d).
Proof.
  intros Hsource Htarget.
  assert (Hfound :
    find (fun r => (eb_id r =? eb_id source)%N) (branches d) <> None).
  { rewrite (get_object_key _ _ _ _ Hsource).
    unfold get_object in Hsource. rewrite Hsource. discriminate. }
  destruct (merge_branches_run source target d Hfound)
    as (d1 & Hrun & Hsame & _).
  destruct Hsame as (_ & Hbranches & Hrequests & _).
  eexists _, d1, _. split; [exact Hrun|].
  unfold approve_and_merge, bind, get, deref, modify, ret.
  unfold get_object in Hsource, Htarget. rewrite Hsource, Htarget, Hrun.
  cbn. rewrite Hbranches, Hrequests. repeat split.
Qed.

(** C3 (as the code has it).  [approve] and [reject] never read the status
    of the merge request, so what they do to a request in status [merged]
    or [rejected] is what they do to any request:
    - a caller whom [_can_approve] refuses changes nothing;
    - [reject] by an accepted caller saves the request with status
      [rejected] and leaves the version table alone;
    - [approve] by an accepted caller, with no unresolved conflict and both
      branches found, runs the merge and saves the request with status
      [merged]. *)
Theorem review_ignores_status
  (d : Db) (pk : UUID) (merge_request : MergeRequest) (request_user : User)
  (now : Timestamp) (comment : string) :
  get_object mr_id (merge_requests d) pk = Some merge_request ->
  (_can_approve request_user = false ->
     snd (approve request_user now pk d) = d
     /\ snd (reject request_user now comment pk d) = d)
  /\ (_can_approve request_user = true ->
        get_object mr_id
          (merge_requests (snd (reject request_user now comment pk d))) pk
        = Some (reviewed MR_rejected request_user now (Some comment) merge_request)
        /\ feature_versions (snd (reject request_user now comment pk d))
           = feature_versions d)
  /\ (_can_approve request_user = true ->
      unresolved_conflicts merge_request d = 0 ->
      forall source target,
        get_object eb_id (branches d) (source_branch merge_request) = Some source ->
        get_object eb_id (branches d) (target_branch merge_request) = Some target ->
        exists n d1,
          MergeService.merge_branches source target d = (inr n, d1)
          /\ status (fst (approve request_user now pk d)) = HTTP_200_OK
          /\ get_object mr_id
               (merge_requests (snd (approve request_user now pk d))) pk
             = Some (reviewed MR_merged request_user now
                       (review_comment merge_request) merge_request)
          /\ feature_versions (snd (approve request_user now pk d))
             = feature_versions d1).
Proof.
  intros Hget. pose proof (get_object_key _ _ _ _ Hget) as Hpk.
  split; [|split].
  - intros Hno. unfold approve, reject. rewrite Hget, Hno. split; reflexivity.
  - intros Hyes. unfold reject. rewrite Hget, Hyes. cbn.
    split; [|reflexivity]. rewrite <- Hpk.
    apply (get_object_save_row mr_id
             (reviewed MR_rejected request_user now (Some comment) merge_request)).
  - intros Hyes Hnone source target Hsource Htarget.
    destruct (approve_and_merge_run d merge_request request_user now
                source target Hsource Htarget)
      as (n & d1 & d' & Hmerge & Hrun & Hversions & Hrequests & _).
    exists n, d1. split; [exact Hmerge|].
    unfold approve, try_except. rewrite Hget, Hyes, Hnone, Hrun. cbn.
    split; [reflexivity|]. split; [|exact Hversions].
    rewrite Hrequests, <- Hpk.
    apply (get_object_save_row mr_id
             (reviewed MR_merged request_user now
                (review_comment merge_request) merge_request)).
Qed.

End Review.

(** C3, on a rejected request reviewed by a superuser. *)
Lemma review_ignores_status_witness :
  let d := Examples.database Examples.edited_on_both MR_rejected [] in
  get_object mr_id
    (merge_requests
       (snd (MergeRequestViewSet.reject Examples.alice 5%Z "again" 1%N d))) 1%N
  = Some (MergeRequestViewSet.reviewed MR_rejected Examples.alice 5%Z
            (Some "again"%string) (Examples.request MR_rejected))
  /\ feature_versions
       (snd (MergeRequestViewSet.reject Examples.alice 5%Z "again" 1%N d))
     = feature_versions d.
Proof.
  cbv zeta.
  apply (@review_ignores_status PointSpatial
           (Examples.database Examples.edited_on_both MR_rejected [])
           1%N (Examples.request MR_rejected) Examples.alice 5%Z "again"%string);
    reflexivity.
Defined.

(** C3, as stated, fails in both terminal states.  A superuser approves a
    rejected request: the merge runs (version 3 of the feature appears on
    [master]) and the request becomes merged.  A superuser rejects a merged
    request: the request becomes rejected. *)
Lemma terminal_status_counterexample :
  (let d := Examples.database Examples.edited_on_both MR_rejected [] in
   let d' := snd (MergeRequestViewSet.approve Examples.alice 5%Z 1%N d) in
   option_map mr_status (get_object mr_id (merge_requests d) 1%N)
   = Some MR_rejected
   /\ option_map mr_status (get_object mr_id (merge_requests d') 1%N)
      = Some MR_merged
   /\ map version
        (filter (fun v => (fv_branch v =? 1)%N) (feature_versions d'))
      = [1; 2; 3]%Z)
  /\ (let d := Examples.database Examples.edited_on_both MR_merged [] in
      let d' := snd (MergeRequestViewSet.reject Examples.alice 5%Z "" 1%N d) in
      option_map mr_status (get_object mr_id (merge_requests d) 1%N)
      = Some MR_merged
      /\ option_map mr_status (get_object mr_id (merge_requests d') 1%N)
         = Some MR_rejected).
Proof. repeat split. Qed.

(** C6.  The approval check of the REST actions looks at the superuser
    flag and at the role of the user's profile only.  Carol is no
    superuser and holds no role in any group, so [can_user_approve] and
    [can_approve_merge_request] both refuse her for the request into
    [master] (group 7); her profile says validator, and [approve] lets her
    through: the merge runs and the request becomes merged. *)
Theorem approve_without_group_role :
  let d := Examples.database Examples.edited_on_both MR_pending [] in
  let approved := MergeRequestViewSet.approve Examples.carol 5%Z 1%N d in
  user_roles d = []
  /\ eb_group Examples.master = Some 7%N
  /\ can_user_approve (user_roles d) Examples.master Examples.carol = false
  /\ PermissionManager.can_approve_merge_request (user_roles d)
       Examples.carol Examples.master = false
  /\ status (fst approved) = HTTP_200_OK
  /\ option_map mr_status (get_object mr_id (merge_requests (snd approved)) 1%N)
     = Some MR_merged
  /\ map version
       (filter (fun v => (fv_branch v =? 1)%N) (feature_versions (snd approved)))
     = [1; 2; 3]%Z.
Proof. repeat split. Qed.

(* ================================================================== *)
(** ** Version numbers *)

Lemma not_contiguous_1_2_2 : ~ contiguous [1; 2; 2]%Z.
Proof.
  unfold contiguous; cbn. intros Hp.
  apply Permutation_sym in Hp.
  assert (Hin : In 3%Z [1; 2; 2]%Z)
    by (apply (Permutation_in _ Hp); cbn; auto).
  cbn in Hin. intuition discriminate.
Qed.

(** C4.  [soft_delete] numbers the deleting version after the row it was
    called on, not after the latest row of the feature.  A feature is
    created on [survey] (row 1, version 1) and soft-deleted through row 1
    (row 2, version 2); row 1 is still live, and a second [soft_delete]
    through row 1 appends another version 2, where one plus the greatest
    stored number is 3. *)
Theorem soft_delete_repeats_version :
  let d0 := Examples.database [] MR_pending [] in
  let d1 := FeatureVersionViewSet.perform_create Examples.bob 100%N
              Examples.new_well d0 in
  let d2 := snd (FeatureVersionViewSet.soft_delete Examples.bob 1%N d1) in
  let d3 := snd (FeatureVersionViewSet.soft_delete Examples.bob 1%N d2) in
  versions_of d1 2%N 100%N = [1]%Z
  /\ versions_of d2 2%N 100%N = [1; 2]%Z
  /\ contiguous (versions_of d2 2%N 100%N)
  /\ (head_number (feature_versions d2) 2%N 100%N + 1 = 3)%Z
  /\ status (fst (FeatureVersionViewSet.soft_delete Examples.bob 1%N d2))
     = HTTP_200_OK
  /\ versions_of d3 2%N 100%N = [1; 2; 2]%Z
  /\ ~ contiguous (versions_of d3 2%N 100%N).
Proof.
  cbv zeta. repeat split.
  - unfold contiguous. cbn. apply Permutation_refl.
  - exact not_contiguous_1_2_2.
Qed.

(** [perform_update] rewrites the row it is called on: after a create and
    an update the feature has a single row, numbered 2. *)
Lemma perform_update_overwrites_row :
  let d0 := Examples.database [] MR_pending [] in
  let d1 := FeatureVersionViewSet.perform_create Examples.bob 100%N
              Examples.new_well d0 in
  option_map (fun d2 => versions_of d2 2%N 100%N)
    (FeatureVersionViewSet.perform_update Examples.bob 1%N Examples.new_well d1)
  = Some [2]%Z.
Proof. reflexivity. Qed.

Section MergePathNumbers.
Context `{Spatial}.

Lemma max_permutation (l l' : list Z) :
  Permutation l l' -> fold_right Z.max 0%Z l = fold_right Z.max 0%Z l'.
Proof.
  induction 1 as [|x l l' _ IH|x y l|l l' l'' _ IH1 _ IH2]; cbn.
  - reflexivity.
  - rewrite IH. reflexivity.
  - lia.
  - congruence.
Qed.

Lemma max_seq (n : nat) :
  fold_right Z.max 0%Z (map Z.of_nat (seq 1 n)) = Z.of_nat n.
Proof.
  induction n as [|n IH]; [reflexivity|].
  rewrite seq_S, map_app, fold_right_app. cbn [map fold_right Nat.add].
  assert (Hgen : forall l a, (0 <= a)%Z ->
            fold_right Z.max a l = Z.max a (fold_right Z.max 0%Z l)).
  { induction l as [|z l IHl]; intros a Ha; cbn; [lia|].
    rewrite (IHl a Ha). lia. }
  rewrite Hgen by lia. rewrite IH. lia.
Qed.

Lemma newest_number (l : list FeatureVersion) :
  Forall (fun v => (0 <= version v)%Z) l ->
  match newest l with Some y => version y | None => 0%Z end
  = fold_right Z.max 0%Z (map version l).
Proof.
  induction 1 as [|x l Hx _ IH]; cbn; [reflexivity|].
  rewrite <- IH. destruct (newest l) as [y|]; [|lia].
  destruct (Z.leb_spec (version y) (version x)); lia.
Qed.

(** A table whose numbers for a feature on the target branch are 1..N
    keeps this form when [_create_merged_version] appends its row. *)
Lemma merged_version_keeps_contiguous
  (d : Db) (sv : FeatureVersion) (target : EditBranch) (name : string) :
  contiguous (versions_of d (eb_id target) (feature_id sv)) ->
  contiguous
    (versions_of
       (MergeService.set_feature_versions
          (feature_versions d
           ++ [merged_version (feature_versions d) sv target name]) d)
       (eb_id target) (feature_id sv)).
Proof.
  unfold contiguous, versions_of. cbn [feature_versions MergeService.set_feature_versions].
  set (rows := filter _ (feature_versions d)). intros Hc.
  rewrite filter_app; cbn [filter].
  cbn [fv_branch feature_id merged_version]. rewrite !N.eqb_refl; cbn [andb].
  fold rows. rewrite map_app, length_app; cbn [map List.length].
  rewrite Nat.add_1_r, seq_S, map_app; cbn [map Nat.add].
  rewrite length_map in *.
  apply Permutation_app; [exact Hc|].
  assert (Hn : head_number (feature_versions d) (eb_id target) (feature_id sv)
               = Z.of_nat (List.length rows)).
  { unfold head_number, head_version. fold rows.
    rewrite newest_number.
    - rewrite (max_permutation _ _ Hc). apply max_seq.
    - apply Forall_forall. intros v Hv.
      assert (Hin : In (version v) (map Z.of_nat (seq 1 (List.length rows)))).
      { apply (Permutation_in _ Hc). apply in_map. exact Hv. }
      apply in_map_iff in Hin. destruct Hin as (k & <- & _). lia. }
  cbn [version merged_version]. rewrite Hn.
  replace (Z.of_nat (List.length rows) + 1)%Z
    with (Z.of_nat (S (List.length rows))) by lia.
  apply Permutation_refl.
Qed.

End MergePathNumbers.

(** Where [timezone] is bound, [resolve_conflict] reaches [save]: the
    stored conflict becomes resolved. *)
Lemma resolve_conflict_with_timezone :
  let s := {| ConflictResolver.conflict := Examples.open_conflict;
              ConflictResolver.db :=
                Examples.database Examples.edited_on_both MR_conflicts
                  [Examples.open_conflict] |} in
  let run := ConflictResolver.resolve_conflict_in
               ("timezone"%string :: services_globals) 5%Z "SOURCE"
               Examples.alice None None s in
  option_map resolved
    (get_object mc_id (conflicts (ConflictResolver.db (snd run))) 1%N)
  = Some true
  /\ option_map resolved_geometry
       (get_object mc_id (conflicts (ConflictResolver.db (snd run))) 1%N)
     = Some (Some Examples.there).
Proof. split; reflexivity. Qed.

(** C8, for a manual resolution without its fields. *)
Lemma resolve_conflict_refused_witness :
  exists msg s',
    ConflictResolver.resolve_conflict 5%Z "MANUAL" Examples.alice None None
      {| ConflictResolver.conflict := Examples.open_conflict;
         ConflictResolver.db :=
           Examples.database Examples.edited_on_both MR_conflicts
             [Examples.open_conflict] |}
    = (inl (ValueError msg), s')
    /\ ConflictResolver.db s'
       = Examples.database Examples.edited_on_both MR_conflicts
           [Examples.open_conflict]
    /\ ConflictResolver.conflict s' = Examples.open_conflict.
Proof.
  apply (@resolve_conflict_refused PointSpatial 5%Z "MANUAL"%string
           Examples.alice None None
           {| ConflictResolver.conflict := Examples.open_conflict;
              ConflictResolver.db :=
                Examples.database Examples.edited_on_both MR_conflicts
                  [Examples.open_conflict] |}).
  left. split; [reflexivity|left; reflexivity].
Defined.

(** C9, for the strategy SOURCE on the open conflict of the example. *)
Lemma resolve_conflict_name_error_witness :
  exists s',
    ConflictResolver.resolve_conflict 5%Z "SOURCE" Examples.alice None None
      {| ConflictResolver.conflict := Examples.open_conflict;
         ConflictResolver.db :=
           Examples.database Examples.edited_on_both MR_conflicts
             [Examples.open_conflict] |}
    = (inl (NameError "timezone"), s')
    /\ ConflictResolver.db s'
       = Examples.database Examples.edited_on_both MR_conflicts
           [Examples.open_conflict]
    /\ (forall pk,
          get_object mc_id (conflicts (ConflictResolver.db s')) pk
          = get_object mc_id
              (conflicts
                 (Examples.database Examples.edited_on_both MR_conflicts
                    [Examples.open_conflict])) pk).
Proof.
  apply (@resolve_conflict_name_error PointSpatial 5%Z "SOURCE"%string
           Examples.alice None None
           {| ConflictResolver.conflict := Examples.open_conflict;
              ConflictResolver.db :=
                Examples.database Examples.edited_on_both MR_conflicts
                  [Examples.open_conflict] |}).
  - left; reflexivity.
  - split; vm_compute; discriminate.
Defined.

(* ================================================================== *)
(** * Further properties *)

(** ** Tables and keys *)

Lemma uuid4_bound (used : list UUID) (k : UUID) :
  In k used -> (k < uuid4 used)%N.
Proof.
  unfold uuid4. induction used as [|x used IH]; cbn; [tauto|].
  intros [<-|Hin]; [lia|]. specialize (IH Hin). lia.
Qed.

Lemma uuid4_fresh {A : Type} (key : A -> UUID) (tbl : list A) (r : A) :
  In r tbl -> (key r =? uuid4 (map key tbl))%N = false.
Proof.
  intros Hin. apply N.eqb_neq.
  pose proof (uuid4_bound (map key tbl) (key r) (in_map key _ _ Hin)). lia.
Qed.

Lemma save_row_In {A : Type} (key : A -> UUID) (x : A) (tbl : list A) :
  In x (save_row key x tbl).
Proof.
  induction tbl as [|r tbl IH]; cbn; [auto|].
  destruct (key r =? key x)%N; cbn; auto.
Qed.

Lemma save_row_fresh {A : Type} (key : A -> UUID) (x : A) (tbl : list A) :
  (forall r, In r tbl -> (key r =? key x)%N = false) ->
  save_row key x tbl = tbl ++ [x].
Proof.
  induction tbl as [|r tbl IH]; cbn; [reflexivity|].
  intros Hall. rewrite (Hall r (or_introl eq_refl)).
  rewrite IH; [reflexivity|]. intros r' Hr'. apply Hall. right; exact Hr'.
Qed.

Lemma get_object_save_row_other {A : Type} (key : A -> UUID) (x : A)
  (tbl : list A) (pk : UUID) :
  pk <> key x ->
  get_object key (save_row key x tbl) pk = get_object key tbl pk.
Proof.
  intros Hne. unfold get_object. induction tbl as [|r tbl IH]; cbn.
  - destruct (N.eqb_spec (key x) pk); [congruence|reflexivity].
  - destruct (N.eqb_spec (key r) (key x)) as [Heq|Hneq]; cbn.
    + destruct (N.eqb_spec (key x) pk); [congruence|].
      destruct (N.eqb_spec (key r) pk); [congruence|reflexivity].
    + rewrite IH. reflexivity.
Qed.

(* ================================================================== *)
(** ** Permission checks *)

Section PermissionChecks.
Import Permissions.

Lemma existsb_weaken {A : Type} (f g : A -> bool) (l : list A) :
  (forall x, f x = true -> g x = true) ->
  existsb f l = true -> existsb g l = true.
Proof.
  intros Hfg Hf. apply existsb_exists in Hf. destruct Hf as (x & Hin & Hx).
  apply existsb_exists. exists x. auto.
Qed.

(** X1.  [PermissionManager.can_approve_merge_request] accepts exactly the
    users whom [MergeRequest.can_user_approve] accepts for the target
    branch, and besides them every user who holds an admin role in some
    group. *)
Theorem manager_approval_is_model_or_admin
  (roles : list UserRole) (target : EditBranch) (user : User) :
  PermissionManager.can_approve_merge_request roles user target
  = can_user_approve roles target user
    || existsb (fun r => (ur_user r =? user_id user)%N
                         && (ur_role r =? "admin")%string) roles.
Proof.
  unfold can_user_approve, PermissionManager.can_approve_merge_request,
    PermissionManager.is_admin.
  destruct (is_superuser user); [reflexivity|].
  destruct (existsb (fun r => (ur_user r =? user_id user)%N
                              && (ur_role r =? "admin")%string) roles).
  - rewrite orb_true_r. reflexivity.
  - rewrite orb_false_r. reflexivity.
Qed.

(** X2.  Whoever [EditBranch.can_user_edit] accepts is accepted by
    [PermissionManager.can_edit_branch]. *)
Theorem can_user_edit_implies_manager
  (roles : list UserRole) (branch : EditBranch) (user : User) :
  can_user_edit roles branch user = true ->
  can_edit_branch roles user branch = true.
Proof.
  unfold can_user_edit, can_edit_branch, PermissionManager.is_admin,
    is_editor_in_group.
  destruct (is_superuser user); [reflexivity|].
  destruct (existsb (fun r => (ur_user r =? user_id user)%N
                              && (ur_role r =? "admin")%string) roles);
    [reflexivity|].
  destruct (eb_created_by branch =? user_id user)%N; [reflexivity|].
  destruct (eb_group branch); [tauto|discriminate].
Qed.

(** X3.  A pair of branches that [can_create_merge_request] accepts passes
    the validation of the merge request serializer: the branches differ
    and belong to one layer. *)
Theorem can_create_merge_request_validates
  (roles : list UserRole) (user : User) (source target : EditBranch)
  (title : string) :
  can_create_merge_request roles user source target = true ->
  Serializers.validate
    {| Serializers.md_source_branch := source;
       Serializers.md_target_branch := target;
       Serializers.md_title := title |}
  = inr {| Serializers.md_source_branch := source;
           Serializers.md_target_branch := target;
           Serializers.md_title := title |}.
Proof.
  unfold can_create_merge_request, Serializers.validate; cbn.
  destruct (can_edit_branch roles user source); cbn; [|discriminate].
  destruct (eb_layer source =? eb_layer target)%N; cbn; [|discriminate].
  destruct (eb_id source =? eb_id target)%N; [discriminate|reflexivity].
Qed.

End PermissionChecks.

Section RoleAssignment.
Import Permissions.

Lemma string_in_spec (x : string) (xs : list string) :
  string_in x xs = true <-> In x xs.
Proof.
  unfold string_in. rewrite existsb_exists. split.
  - intros (y & Hin & Heq). apply String.eqb_eq in Heq. subst. exact Hin.
  - intros Hin. exists x. split; [exact Hin|apply String.eqb_refl].
Qed.

Lemma same_role_spec (user : UserId) (group : GroupId) (role : string)
  (r : UserRole) :
  same_role user group role r = true
  <-> ur_user r = user /\ ur_group r = group /\ ur_role r = role.
Proof.
  unfold same_role. rewrite !andb_true_iff, !N.eqb_eq, String.eqb_eq. tauto.
Qed.

Lemma UserRole_forced_fields (r : UserRole) :
  ur_id (UserRole_forced r) = ur_id r
  /\ ur_user (UserRole_forced r) = ur_user r
  /\ ur_group (UserRole_forced r) = ur_group r
  /\ ur_role (UserRole_forced r) = ur_role r
  /\ can_manage_branches (UserRole_forced r) = can_manage_branches r.
Proof. unfold UserRole_forced. destruct (string_in _ _); repeat split. Qed.

(** The row that [update_or_create] hands back: it carries the triple it
    was asked for and it is in the table. *)
Lemma update_or_create_row (roles : list UserRole)
  (user : UserId) (group : GroupId) (role : string) (approve manage : bool) :
  let '(row, roles') := update_or_create roles user group role approve manage in
  In row roles'
  /\ ur_user row = user /\ ur_group row = group /\ ur_role row = role
  /\ can_manage_branches row = manage
  /\ can_approve_merges row
     = (approve || string_in role ["validator"; "admin"]%string).
Proof.
  unfold update_or_create.
  set (row := match find _ roles with Some r => _ | None => _ end).
  assert (Hrow : ur_user row = user /\ ur_group row = group /\ ur_role row = role
                 /\ can_manage_branches row = manage
                 /\ can_approve_merges row = approve).
  { subst row. destruct (find (same_role user group role) roles) as [r|] eqn:Hf.
    - apply find_some in Hf. destruct Hf as [_ Hr].
      apply same_role_spec in Hr. cbn. tauto.
    - cbn. tauto. }
  destruct Hrow as (Hu & Hg & Hr & Hm & Ha).
  destruct (UserRole_forced_fields row) as (Hid & Hu' & Hg' & Hr' & Hm').
  split; [|repeat split; try congruence].
  - unfold UserRole_save. fold (UserRole_forced row). apply save_row_In.
  - unfold UserRole_forced. rewrite Hr.
    destruct (string_in role ["validator"; "admin"]%string); cbn.
    + rewrite orb_true_r. reflexivity.
    + rewrite orb_false_r. exact Ha.
Qed.

(** X4.  [assign_role] by a caller who is an admin, with one of the three
    roles: the call succeeds, the row it returns is in the new table and
    carries the target user, the group and the role; for the roles
    validator and admin its [can_approve_merges] is true whatever value the
    caller passed, and for the role editor it is the value passed (false
    when none was). *)
Theorem assign_role_writes_row
  (roles : list UserRole) (admin_user target_user : User) (group : GroupId)
  (role : string) (approve : option bool) (manage : bool) :
  PermissionManager.is_admin roles admin_user = true ->
  In role ["admin"; "validator"; "editor"]%string ->
  exists row roles',
    assign_role roles admin_user target_user group role approve manage
    = inr (row, roles')
    /\ In row roles'
    /\ ur_user row = user_id target_user
    /\ ur_group row = group
    /\ ur_role row = role
    /\ can_manage_branches row = manage
    /\ can_approve_merges row
       = match role, approve with
         | "editor"%string, Some b => b
         | "editor"%string, None => false
         | _, _ => true
         end.
Proof.
  intros Hadmin Hrole. unfold assign_role, can_manage_users.
  rewrite Hadmin. cbn [negb].
  rewrite (proj2 (string_in_spec role _) Hrole). cbn [negb].
  set (flag := match approve with Some b => b | None => _ end).
  pose proof (update_or_create_row roles (user_id target_user) group role
                flag manage) as Hrow.
  destruct (update_or_create roles (user_id target_user) group role flag manage)
    as [row roles'].
  destruct Hrow as (Hin & Hu & Hg & Hr & Hm & Ha).
  exists row, roles'. repeat split; try assumption.
  rewrite Ha. subst flag.
  destruct Hrole as [<-|[<-|[<-|[]]]]; destruct approve as [[|]|]; reflexivity.
Qed.

(** X5.  Once a user has been assigned a role in a group, the user is an
    editor of the group for [is_editor_in_group]; if the role is validator
    or admin, the user is a validator of the group and
    [can_approve_merge_request] accepts the user for every target branch
    of the group. *)
Theorem assign_role_grants
  (roles roles' : list UserRole) (admin_user target_user : User)
  (group : GroupId) (role : string) (approve : option bool) (manage : bool)
  (row : UserRole) (target : EditBranch) :
  assign_role roles admin_user target_user group role approve manage
  = inr (row, roles') ->
  is_editor_in_group roles' target_user group = true
  /\ (role <> "editor"%string ->
      is_validator_in_group roles' target_user group = true
      /\ (eb_group target = Some group ->
          PermissionManager.can_approve_merge_request roles' target_user target
          = true)).
Proof.
  unfold assign_role.
  destruct (negb (can_manage_users roles admin_user)); [discriminate|].
  destruct (string_in role ["admin"; "validator"; "editor"]%string) eqn:Hrole;
    [|discriminate].
  cbn [negb]. set (flag := match approve with Some b => b | None => _ end).
  pose proof (update_or_create_row roles (user_id target_user) group role
                flag manage) as Hrow.
  destruct (update_or_create roles (user_id target_user) group role flag manage)
    as [row0 roles0].
  intros [= -> ->].
  destruct Hrow as (Hin & Hu & Hg & Hr & Hm & Ha).
  apply string_in_spec in Hrole.
  assert (Hed : string_in (ur_role row) ["editor"; "validator"; "admin"]%string
                = true).
  { rewrite Hr. apply string_in_spec. cbn in *. tauto. }
  split.
  - unfold is_editor_in_group. destruct (is_superuser target_user); [reflexivity|].
    apply existsb_exists. exists row. split; [exact Hin|].
    rewrite Hu, Hg, !N.eqb_refl, Hed. reflexivity.
  - intros Hne.
    assert (Hval : string_in role ["validator"; "admin"]%string = true).
    { apply string_in_spec. cbn in *. destruct Hrole as [<-|[<-|[<-|[]]]];
        [tauto|tauto|congruence]. }
    split.
    + unfold is_validator_in_group.
      destruct (is_superuser target_user); [reflexivity|].
      apply existsb_exists. exists row. split; [exact Hin|].
      rewrite Hu, Hg, Hr, !N.eqb_refl, Hval. reflexivity.
    + intros Hgroup. unfold PermissionManager.can_approve_merge_request.
      destruct (PermissionManager.is_admin roles' target_user); [reflexivity|].
      rewrite Hgroup. apply existsb_exists. exists row. split; [exact Hin|].
      rewrite Hu, Hg, Hr, Ha, !N.eqb_refl, Hval, orb_true_r. reflexivity.
Qed.

(** [assign_role] refuses a caller who is no admin with
    [PermissionError], and a role outside admin, validator and editor with
    [ValueError]; [remove_role] refuses the same callers.  Either way no
    table is returned: nothing is written. *)
Lemma role_changes_refused
  (roles : list UserRole) (admin_user target_user : User) (group : GroupId)
  (role : string) (approve : option bool) (manage : bool) :
  (PermissionManager.is_admin roles admin_user = false ->
   assign_role roles admin_user target_user group role approve manage
   = inl (PermissionError "Only admins can assign roles")
   /\ remove_role roles admin_user target_user group role
      = inl (PermissionError "Only admins can remove roles"))
  /\ (PermissionManager.is_admin roles admin_user = true ->
      ~ In role ["admin"; "validator"; "editor"]%string ->
      assign_role roles admin_user target_user group role approve manage
      = inl (ValueError ("Invalid role: " ++ role))).
Proof.
  unfold assign_role, remove_role, can_manage_users. split.
  - intros ->. split; reflexivity.
  - intros -> Hrole. cbn [negb].
    destruct (string_in role ["admin"; "validator"; "editor"]%string) eqn:Hin;
      [|reflexivity].
    apply string_in_spec in Hin. contradiction.
Qed.

Lemma filter_all {A : Type} (f : A -> bool) (l : list A) :
  (forall x, In x l -> f x = true) -> filter f l = l.
Proof.
  induction l as [|x l IH]; cbn; [reflexivity|].
  intros Hall. rewrite (Hall x (or_introl eq_refl)), IH; [reflexivity|].
  intros y Hy. apply Hall. right; exact Hy.
Qed.

(** X6.  Assigning a role that the user did not hold and removing it again
    gives back the table of roles as it was. *)
Theorem assign_then_remove_role
  (roles roles' : list UserRole) (admin_user target_user : User)
  (group : GroupId) (role : string) (approve : option bool) (manage : bool)
  (row : UserRole) :
  find (same_role (user_id target_user) group role) roles = None ->
  assign_role roles admin_user target_user group role approve manage
  = inr (row, roles') ->
  remove_role roles' admin_user target_user group role = inr roles.
Proof.
  intros Hnone. unfold assign_role, remove_role, can_manage_users.
  destruct (PermissionManager.is_admin roles admin_user) eqn:Hadmin;
    [|discriminate].
  cbn [negb].
  destruct (string_in role ["admin"; "validator"; "editor"]%string);
    [|discriminate].
  cbn [negb]. unfold update_or_create. rewrite Hnone.
  set (row0 := {| ur_id := uuid4 (map ur_id roles) |}).
  intros [= <- <-].
  assert (Htable : UserRole_save row0 roles = roles ++ [UserRole_forced row0]).
  { unfold UserRole_save. fold (UserRole_forced row0).
    apply save_row_fresh. intros r Hr.
    destruct (UserRole_forced_fields row0) as (-> & _).
    apply (uuid4_fresh ur_id roles r Hr). }
  rewrite Htable.
  assert (Hstill : PermissionManager.is_admin
                     (roles ++ [UserRole_forced row0]) admin_user = true).
  { unfold PermissionManager.is_admin in *.
    destruct (is_superuser admin_user); [reflexivity|].
    rewrite existsb_app, Hadmin. reflexivity. }
  rewrite Hstill. cbn [negb]. f_equal.
  rewrite filter_app. cbn [filter].
  assert (Hmatch : same_role (user_id target_user) group role
                     (UserRole_forced row0) = true).
  { apply same_role_spec.
    destruct (UserRole_forced_fields row0) as (_ & -> & -> & -> & _).
    repeat split. }
  rewrite Hmatch. cbn [negb]. rewrite app_nil_r.
  apply filter_all. intros r Hr.
  apply negb_true_iff.
  destruct (same_role (user_id target_user) group role r) eqn:Hs; [|reflexivity].
  pose proof (find_none _ _ Hnone r Hr) as E. congruence.
Qed.

End RoleAssignment.

Section RoleQueries.
Import Permissions.

Lemma max_by_priority_spec (r : string) (rest : list string) :
  In (max_by_priority r rest) (r :: rest)
  /\ forall x, In x (r :: rest) ->
       role_priority x <= role_priority (max_by_priority r rest).
Proof.
  unfold max_by_priority. revert r.
  induction rest as [|y rest IH]; intros r; cbn [fold_left].
  - split; [left; reflexivity|]. intros x [<-|[]]. lia.
  - destruct (Nat.ltb_spec (role_priority r) (role_priority y)) as [Hlt|Hge].
    + destruct (IH y) as [Hin Hmax]. split.
      * right. exact Hin.
      * intros x [<-|Hx]; [|exact (Hmax x Hx)].
        pose proof (Hmax y (or_introl eq_refl)). lia.
    + destruct (IH r) as [Hin Hmax]. split.
      * destruct Hin as [<-|Hin]; [left; reflexivity|right; right; exact Hin].
      * intros x [<-|[<-|Hx]].
        -- exact (Hmax _ (or_introl eq_refl)).
        -- pose proof (Hmax r (or_introl eq_refl)). lia.
        -- exact (Hmax x (or_intror Hx)).
Qed.

(** X7.  For a user who is no superuser, [get_user_role_in_group] answers
    [None] exactly when the user holds no role in the group; otherwise it
    answers a role that the user holds in the group and that no other role
    of the user in the group outranks (admin over validator over
    editor). *)
Theorem get_user_role_in_group_highest
  (roles : list UserRole) (user : User) (group : GroupId) :
  is_superuser user = false ->
  match get_user_role_in_group roles user group with
  | None =>
      forall r, In r roles -> ur_user r = user_id user -> ur_group r <> group
  | Some best =>
      (exists r, In r roles /\ ur_user r = user_id user /\ ur_group r = group
                 /\ ur_role r = best)
      /\ forall r, In r roles -> ur_user r = user_id user -> ur_group r = group ->
           role_priority (ur_role r) <= role_priority best
  end.
Proof.
  intros Hsuper. unfold get_user_role_in_group. rewrite Hsuper.
  set (mine := filter _ roles).
  assert (Hmine : forall r, In r mine
            <-> In r roles /\ ur_user r = user_id user /\ ur_group r = group).
  { intros r. subst mine. rewrite filter_In, andb_true_iff, !N.eqb_eq. tauto. }
  destruct (map ur_role mine) as [|first_role rest] eqn:Hmap.
  - intros r Hin Hu Hg.
    assert (Hr : In r mine) by (apply Hmine; auto).
    apply (in_map ur_role) in Hr. rewrite Hmap in Hr. exact Hr.
  - destruct (max_by_priority_spec first_role rest) as [Hin Hmax].
    rewrite <- Hmap in Hin, Hmax. split.
    + apply in_map_iff in Hin. destruct Hin as (r & Hr & Hin).
      apply Hmine in Hin. exists r. tauto.
    + intros r Hin' Hu Hg. apply Hmax. apply in_map. apply Hmine. auto.
Qed.

(** X8.  For a target branch that belongs to a group, the users whom
    [get_validators] lists are, among the users who are no superusers,
    exactly those whom [can_user_approve] accepts. *)
Theorem get_validators_can_approve
  (users : list User) (roles : list UserRole) (target : EditBranch)
  (group : GroupId) (user : User) :
  eb_group target = Some group ->
  is_superuser user = false ->
  In (user_id user) (get_validators users roles target)
  <-> can_user_approve roles target user = true.
Proof.
  intros Hgroup Hsuper. unfold get_validators, can_user_approve.
  rewrite Hgroup, Hsuper, in_map_iff, existsb_exists. split.
  - intros (r & Hu & Hin). apply filter_In in Hin. destruct Hin as [Hin Hp].
    exists r. split; [exact Hin|]. rewrite Hu, N.eqb_refl.
    rewrite <- andb_assoc in Hp |- *. exact Hp.
  - intros (r & Hin & Hp). rewrite <- !andb_assoc in Hp.
    apply andb_true_iff in Hp. destruct Hp as [Hu Hp].
    apply N.eqb_eq in Hu. exists r. split; [exact Hu|].
    apply filter_In. split; [exact Hin|].
    rewrite <- andb_assoc. exact Hp.
Qed.

End RoleQueries.

(** X2, for the editor of group 7 on the branch [survey]. *)
Lemma can_user_edit_implies_manager_witness :
  Permissions.can_edit_branch MoreExamples.roles Examples.bob Examples.survey
  = true.
Proof.
  apply (can_user_edit_implies_manager MoreExamples.roles Examples.survey
           Examples.bob).
  reflexivity.
Defined.

(** X3, for the editor of group 7 and the two branches of the layer. *)
Lemma can_create_merge_request_validates_witness :
  Serializers.validate
    {| Serializers.md_source_branch := Examples.survey;
       Serializers.md_target_branch := Examples.master;
       Serializers.md_title := "wells" |}
  = inr {| Serializers.md_source_branch := Examples.survey;
           Serializers.md_target_branch := Examples.master;
           Serializers.md_title := "wells" |}.
Proof.
  apply (can_create_merge_request_validates MoreExamples.roles Examples.bob
           Examples.survey Examples.master "wells"%string).
  reflexivity.
Defined.

(** X4, for a superuser who makes user 15 a validator of group 7 and asks
    for no merge approval. *)
Lemma assign_role_writes_row_witness :
  exists row roles',
    Permissions.assign_role MoreExamples.roles Examples.alice MoreExamples.erin
      7%N "validator" (Some false) true
    = inr (row, roles')
    /\ In row roles'
    /\ ur_user row = user_id MoreExamples.erin
    /\ ur_group row = 7%N
    /\ ur_role row = "validator"%string
    /\ can_manage_branches row = true
    /\ can_approve_merges row = true.
Proof.
  apply (assign_role_writes_row MoreExamples.roles Examples.alice
           MoreExamples.erin 7%N "validator"%string (Some false) true).
  - reflexivity.
  - right; left; reflexivity.
Defined.

(** X5, for the same assignment and the target branch [master]. *)
Lemma assign_role_grants_witness :
  Permissions.is_editor_in_group
    (snd (Permissions.update_or_create MoreExamples.roles 15%N 7%N "validator"
            false true)) MoreExamples.erin 7%N = true
  /\ ("validator"%string <> "editor"%string ->
      Permissions.is_validator_in_group
        (snd (Permissions.update_or_create MoreExamples.roles 15%N 7%N
                "validator" false true)) MoreExamples.erin 7%N = true
      /\ (eb_group Examples.master = Some 7%N ->
          PermissionManager.can_approve_merge_request
            (snd (Permissions.update_or_create MoreExamples.roles 15%N 7%N
                    "validator" false true)) MoreExamples.erin Examples.master
          = true)).
Proof.
  apply (assign_role_grants MoreExamples.roles
           (snd (Permissions.update_or_create MoreExamples.roles 15%N 7%N
                   "validator" false true))
           Examples.alice MoreExamples.erin 7%N "validator"%string
           (Some false) true
           (fst (Permissions.update_or_create MoreExamples.roles 15%N 7%N
                   "validator" false true))
           Examples.master).
  reflexivity.
Defined.

(** X6, for the same assignment. *)
Lemma assign_then_remove_role_witness :
  Permissions.remove_role
    (snd (Permissions.update_or_create MoreExamples.roles 15%N 7%N "validator"
            false true))
    Examples.alice MoreExamples.erin 7%N "validator"
  = inr MoreExamples.roles.
Proof.
  apply (assign_then_remove_role MoreExamples.roles
           (snd (Permissions.update_or_create MoreExamples.roles 15%N 7%N
                   "validator" false true))
           Examples.alice MoreExamples.erin 7%N "validator"%string
           (Some false) true
           (fst (Permissions.update_or_create MoreExamples.roles 15%N 7%N
                   "validator" false true)));
    reflexivity.
Defined.

(** X7, for user 13, who is both validator and editor of group 7. *)
Lemma get_user_role_in_group_highest_witness :
  (exists r, In r MoreExamples.roles /\ ur_user r = 13%N /\ ur_group r = 7%N
             /\ ur_role r = "validator"%string)
  /\ forall r, In r MoreExamples.roles -> ur_user r = 13%N -> ur_group r = 7%N ->
       Permissions.role_priority (ur_role r)
       <= Permissions.role_priority "validator".
Proof.
  exact (get_user_role_in_group_highest MoreExamples.roles MoreExamples.dave
           7%N eq_refl).
Defined.

(** X8, for user 13 and the target branch [master] of group 7. *)
Lemma get_validators_can_approve_witness :
  In 13%N (get_validators [] MoreExamples.roles Examples.master)
  <-> can_user_approve MoreExamples.roles Examples.master MoreExamples.dave
      = true.
Proof.
  apply (get_validators_can_approve [] MoreExamples.roles Examples.master 7%N
           MoreExamples.dave); reflexivity.
Defined.

(* ================================================================== *)
(** ** The master branch of a new layer *)

Section MasterBranch.
Context `{Spatial}.
Import Signals.

(** X9.  [create_master_branch_for_layer] is idempotent: run a second
    time on the same layer it changes nothing, so a layer never gets a
    second root branch named master from it. *)
Theorem create_master_branch_idempotent
  (instance : Dataset) (created : bool) (d : Db) :
  create_master_branch_for_layer instance created
    (create_master_branch_for_layer instance created d)
  = create_master_branch_for_layer instance created d.
Proof.
  unfold create_master_branch_for_layer.
  destruct (created && (ds_subtype instance =? "vector")%string); [|reflexivity].
  match goal with
  | |- context [negb (existsb ?f (branches d))] =>
      destruct (existsb f (branches d)) eqn:Hexists
  end; cbn [negb].
  - rewrite Hexists. reflexivity.
  - unfold EditBranch_create.
    destruct (existsb (fun b => (eb_layer b =? ds_id instance)%N
                                && (eb_name b =? "master")%string
                                && (eb_created_by b =? ds_owner instance)%N)
                (branches d)) eqn:Hclash.
    + rewrite Hexists. cbn [negb]. rewrite Hclash. reflexivity.
    + cbn [branches set_branches]. rewrite existsb_app. cbn [existsb].
      cbn [eb_layer eb_name parent_branch]. rewrite N.eqb_refl.
      rewrite orb_true_r. reflexivity.
Qed.

(** X10.  For a newly created vector layer whose owner has no branch named
    master on it, the handler leaves a root branch named master on the
    layer ([is_master] holds of it); the branches that were there are kept
    in place, and no other table changes. *)
Theorem create_master_branch_exists
  (instance : Dataset) (d : Db) :
  ds_subtype instance = "vector"%string ->
  existsb (fun b => (eb_layer b =? ds_id instance)%N
                    && (eb_name b =? "master")%string
                    && (eb_created_by b =? ds_owner instance)%N) (branches d)
  = false ->
  let d' := create_master_branch_for_layer instance true d in
  (exists b, In b (branches d') /\ eb_layer b = ds_id instance
             /\ is_master b = true)
  /\ (exists added, branches d' = branches d ++ added)
  /\ feature_versions d' = feature_versions d
  /\ merge_requests d' = merge_requests d
  /\ conflicts d' = conflicts d.
Proof.
  intros Hvector Hclash d'. subst d'.
  unfold create_master_branch_for_layer.
  rewrite Hvector, String.eqb_refl. cbn [andb].
  match goal with
  | |- context [negb (existsb ?f ?l)] => destruct (existsb f l) eqn:Hexists
  end; cbn [negb].
  - split; [|split; [exists []; rewrite app_nil_r; reflexivity|repeat split]].
    apply existsb_exists in Hexists. destruct Hexists as (b & Hin & Hb).
    apply andb_true_iff in Hb. destruct Hb as [Hb Hparent].
    apply andb_true_iff in Hb. destruct Hb as [Hlayer Hname].
    apply N.eqb_eq in Hlayer. exists b. split; [exact Hin|]. split; [exact Hlayer|].
    unfold is_master. destruct (parent_branch b); [discriminate|exact Hname].
  - unfold EditBranch_create. rewrite Hclash.
    cbn [branches set_branches feature_versions merge_requests conflicts].
    split; [|split; [eexists; reflexivity|repeat split]].
    eexists. split; [apply in_or_app; right; left; reflexivity|].
    split; reflexivity.
Qed.

End MasterBranch.

(** X10, for the new layer [roads] and the branches of the example. *)
Lemma create_master_branch_exists_witness :
  let d' := Signals.create_master_branch_for_layer MoreExamples.roads true
              (Examples.database [] MR_pending []) in
  (exists b, In b (branches d') /\ eb_layer b = 5%N /\ is_master b = true)
  /\ (exists added,
        branches d' = branches (Examples.database [] MR_pending []) ++ added)
  /\ feature_versions d' = []
  /\ merge_requests d' = [Examples.request MR_pending]
  /\ conflicts d' = [].
Proof.
  exact (@create_master_branch_exists PointSpatial MoreExamples.roads
           (Examples.database [] MR_pending []) eq_refl eq_refl).
Defined.

(* ================================================================== *)
(** ** The history of a feature *)

Section History.
Context `{Spatial}.
Import ApiViews.

Lemma insert_sorted_perm (le : FeatureVersion -> FeatureVersion -> bool)
  (x : FeatureVersion) (l : list FeatureVersion) :
  Permutation (insert_sorted le x l) (x :: l).
Proof.
  induction l as [|y l IH]; cbn; [apply Permutation_refl|].
  destruct (le x y); [apply Permutation_refl|].
  apply Permutation_trans with (y :: x :: l).
  - apply perm_skip. exact IH.
  - apply perm_swap.
Qed.

Lemma order_by_perm (le : FeatureVersion -> FeatureVersion -> bool)
  (l : list FeatureVersion) :
  Permutation (order_by le l) l.
Proof.
  induction l as [|x l IH]; [apply Permutation_refl|].
  rewrite order_by_cons.
  apply Permutation_trans with (x :: order_by le l).
  - apply insert_sorted_perm.
  - apply perm_skip. exact IH.
Qed.

Lemma order_by_version_sorted (l : list FeatureVersion) :
  StronglySorted (fun a b => (version a <= version b)%Z) (order_by by_version l).
Proof.
  induction l as [|x l IH]; [constructor|].
  rewrite order_by_cons. revert IH. generalize (order_by by_version l).
  intros s. induction 1 as [|y s Hs IHs Hy]; cbn.
  - repeat constructor.
  - unfold by_version at 1. destruct (Z.leb_spec (version x) (version y)).
    + constructor; [constructor; assumption|].
      constructor; [assumption|].
      rewrite Forall_forall in *. intros z Hz. specialize (Hy z Hz). lia.
    + constructor; [exact IHs|].
      rewrite Forall_forall in *. intros z Hz.
      apply (Permutation_in _ (insert_sorted_perm by_version x s)) in Hz.
      destruct Hz as [<-|Hz]; [lia|exact (Hy z Hz)].
Qed.

(** X11.  The [history] action answers HTTP 400 when the feature
    identifier is missing.  Otherwise it answers the rows of that feature
    from every branch, deleted ones included, each exactly once, in
    ascending order of version number. *)
Theorem history_ascending (d : Db) (param : option UUID) :
  match param with
  | None => fst (history None d) = HTTP_400_BAD_REQUEST
  | Some fid =>
      exists rows,
        history (Some fid) d = (HTTP_200_OK, inr rows)
        /\ StronglySorted (fun a b => (version a <= version b)%Z) rows
        /\ Permutation rows
             (filter (fun v => (feature_id v =? fid)%N) (feature_versions d))
  end.
Proof.
  destruct param as [fid|]; [|reflexivity].
  eexists. split; [reflexivity|]. split.
  - apply order_by_version_sorted.
  - apply order_by_perm.
Qed.

End History.

(* ================================================================== *)
(** ** What the review actions write *)

Section ReviewEffects.
Context `{Spatial}.
Import MergeRequestViewSet.

Lemma approve_and_merge_missing_branch
  (d : Db) (merge_request : MergeRequest) (request_user : User) (now : Timestamp) :
  get_object eb_id (branches d) (source_branch merge_request) = None
  \/ get_object eb_id (branches d) (target_branch merge_request) = None ->
  approve_and_merge request_user now merge_request d
  = (inl (DoesNotExist "EditBranch"), d).
Proof.
  unfold approve_and_merge, bind, get, deref, get_object.
  destruct (find _ (branches d)) as [source|] eqn:Hs.
  - intros [Hno|Hno]; [discriminate|]. cbn. rewrite Hno. reflexivity.
  - intros _. reflexivity.
Qed.

(** X12.  [approve] answers HTTP 200 exactly when the merge request
    exists, the caller passes [_can_approve], no bound conflict is
    unresolved and both branches of the request are in the branch table;
    with any other answer (403, 400, 404, 500) the database is left as it
    was. *)
Theorem approve_all_or_nothing
  (d : Db) (pk : UUID) (request_user : User) (now : Timestamp) :
  (status (fst (approve request_user now pk d)) = HTTP_200_OK
   <-> exists merge_request source target,
         get_object mr_id (merge_requests d) pk = Some merge_request
         /\ _can_approve request_user = true
         /\ unresolved_conflicts merge_request d = 0
         /\ get_object eb_id (branches d) (source_branch merge_request)
            = Some source
         /\ get_object eb_id (branches d) (target_branch merge_request)
            = Some target)
  /\ (status (fst (approve request_user now pk d)) <> HTTP_200_OK ->
      snd (approve request_user now pk d) = d).
Proof.
  unfold approve.
  destruct (get_object mr_id (merge_requests d) pk) as [mr|] eqn:Hget.
  2:{ split; [|reflexivity]. split; [discriminate|].
      intros (? & ? & ? & ? & _). discriminate. }
  destruct (_can_approve request_user) eqn:Hcan; cbn [negb].
  2:{ split; [|reflexivity]. split; [discriminate|].
      intros (? & ? & ? & _ & ? & _). discriminate. }
  destruct (Nat.ltb_spec 0 (unresolved_conflicts mr d)) as [Hpos|Hzero].
  { split; [|reflexivity]. split; [discriminate|].
    intros (mr' & ? & ? & Hmr & _ & Hnone & _).
    injection Hmr as <-. lia. }
  assert (Hnone : unresolved_conflicts mr d = 0) by lia.
  unfold try_except.
  destruct (get_object eb_id (branches d) (source_branch mr)) as [source|] eqn:Hs.
  - destruct (get_object eb_id (branches d) (target_branch mr)) as [target|] eqn:Ht.
    + destruct (approve_and_merge_run d mr request_user now source target Hs Ht)
        as (n & d1 & d' & _ & Hrun & _).
      rewrite Hrun. cbn. split; [|congruence]. split; [|reflexivity].
      intros _. exists mr, source, target. auto.
    + rewrite (approve_and_merge_missing_branch d mr request_user now
                 (or_intror Ht)).
      cbn. split; [|reflexivity]. split; [discriminate|].
      intros (mr' & ? & ? & Hmr & _ & _ & _ & Ht').
      injection Hmr as <-. congruence.
  - rewrite (approve_and_merge_missing_branch d mr request_user now
               (or_introl Hs)).
    cbn. split; [|reflexivity]. split; [discriminate|].
    intros (mr' & ? & ? & Hmr & _ & _ & Hs' & _).
    injection Hmr as <-. congruence.
Qed.

(** X13.  A successful [approve] saves the source branch with status
    merged and [merged_at] set to the time of the call, leaves every other
    branch row, the conflicts and the roles as they were, and appends one
    APPROVE_MERGE_REQUEST entry for the caller to the audit log. *)
Theorem approve_marks_source_merged
  (d : Db) (pk : UUID) (merge_request : MergeRequest) (request_user : User)
  (now : Timestamp) (source target : EditBranch) :
  get_object mr_id (merge_requests d) pk = Some merge_request ->
  _can_approve request_user = true ->
  unresolved_conflicts merge_request d = 0 ->
  get_object eb_id (branches d) (source_branch merge_request) = Some source ->
  get_object eb_id (branches d) (target_branch merge_request) = Some target ->
  let d' := snd (approve request_user now pk d) in
  get_object eb_id (branches d') (source_branch merge_request)
  = Some (EditBranchViewSet.with_status Branch_merged (Some now) source)
  /\ (forall other, other <> source_branch merge_request ->
        get_object eb_id (branches d') other = get_object eb_id (branches d) other)
  /\ conflicts d' = conflicts d
  /\ user_roles d' = user_roles d
  /\ exists entry,
       audit_log d' = audit_log d ++ [entry]
       /\ al_action entry = APPROVE_MERGE_REQUEST
       /\ al_user entry = Some (user_id request_user)
       /\ al_entity_id entry = pk.
Proof.
  intros Hget Hcan Hnone Hs Ht d'. subst d'.
  pose proof (get_object_key _ _ _ _ Hget) as Hpk.
  pose proof (get_object_key _ _ _ _ Hs) as Hsk.
  assert (Hfound :
    find (fun r => (eb_id r =? eb_id source)%N) (branches d) <> None).
  { rewrite Hsk. unfold get_object in Hs. rewrite Hs. discriminate. }
  destruct (merge_branches_run source target d Hfound)
    as (d1 & Hrun & Hsame & _).
  destruct Hsame as (Hroles & Hbranches & Hrequests & Hconflicts & Haudit).
  unfold approve, try_except. rewrite Hget, Hcan, Hnone. cbn [negb Nat.ltb Nat.leb].
  unfold approve_and_merge, bind, get, deref, modify, ret.
  unfold get_object in Hs, Ht. rewrite Hs, Ht, Hrun. cbn.
  rewrite Hbranches, Hconflicts, Hroles, Haudit.
  split; [|split; [|split; [reflexivity|split; [reflexivity|]]]].
  - rewrite <- Hsk.
    apply (get_object_save_row eb_id
             (EditBranchViewSet.with_status Branch_merged (Some now) source)).
  - intros other Hother. apply get_object_save_row_other.
    cbn. congruence.
  - eexists. split; [reflexivity|]. cbn. repeat split. exact Hpk.
Qed.

(** X14.  [reject] answers HTTP 200 exactly when the merge request exists
    and the caller passes [_can_approve], and otherwise leaves the
    database as it was.  When it succeeds it writes the request and one
    audit entry and nothing else: branches, versions, conflicts and every
    other merge request are untouched. *)
Theorem reject_writes_one_request
  (d : Db) (pk : UUID) (request_user : User) (now : Timestamp) (comment : string) :
  let d' := snd (reject request_user now comment pk d) in
  (status (fst (reject request_user now comment pk d)) = HTTP_200_OK
   <-> get_object mr_id (merge_requests d) pk <> None
       /\ _can_approve request_user = true)
  /\ (status (fst (reject request_user now comment pk d)) <> HTTP_200_OK ->
      d' = d)
  /\ branches d' = branches d
  /\ feature_versions d' = feature_versions d
  /\ conflicts d' = conflicts d
  /\ (forall other, other <> pk ->
        get_object mr_id (merge_requests d') other
        = get_object mr_id (merge_requests d) other)
  /\ (status (fst (reject request_user now comment pk d)) = HTTP_200_OK ->
      exists entry,
        audit_log d' = audit_log d ++ [entry]
        /\ al_action entry = REJECT_MERGE_REQUEST
        /\ al_user entry = Some (user_id request_user)).
Proof.
  intros d'. subst d'. unfold reject.
  destruct (get_object mr_id (merge_requests d) pk) as [mr|] eqn:Hget.
  2:{ cbn. repeat split; try discriminate; try tauto;
        try (intros [Hno _]; congruence). }
  pose proof (get_object_key _ _ _ _ Hget) as Hpk.
  destruct (_can_approve request_user); cbn.
  - repeat split; try discriminate; try congruence.
    + intros other Hother. apply get_object_save_row_other. cbn. congruence.
    + intros _. eexists. split; [reflexivity|]. split; reflexivity.
  - repeat split; try discriminate; try tauto;
      try (intros [_ Hno]; discriminate).
Qed.

End ReviewEffects.

(** X13, for a superuser approving the pending request of the example. *)
Lemma approve_marks_source_merged_witness :
  let d := Examples.database Examples.edited_on_both MR_pending [] in
  let d' := snd (MergeRequestViewSet.approve Examples.alice 5%Z 1%N d) in
  get_object eb_id (branches d') 2%N
  = Some (EditBranchViewSet.with_status Branch_merged (Some 5%Z) Examples.survey)
  /\ (forall other, other <> 2%N ->
        get_object eb_id (branches d') other = get_object eb_id (branches d) other)
  /\ conflicts d' = conflicts d
  /\ user_roles d' = user_roles d
  /\ exists entry,
       audit_log d' = audit_log d ++ [entry]
       /\ al_action entry = APPROVE_MERGE_REQUEST
       /\ al_user entry = Some 10%N
       /\ al_entity_id entry = 1%N.
Proof.
  exact (@approve_marks_source_merged PointSpatial
           (Examples.database Examples.edited_on_both MR_pending []) 1%N
           (Examples.request MR_pending) Examples.alice 5%Z
           Examples.survey Examples.master
           eq_refl eq_refl eq_refl eq_refl eq_refl).
Defined.

(* ================================================================== *)
(** ** Soft deletion *)

Section SoftDeletion.
Context `{Spatial}.

(** X15.  The branch [soft_delete] action answers HTTP 200 exactly when
    the branch exists, the caller is its creator or a superuser, and it is
    not a master branch.  It then saves the branch with status deleted,
    keeps every version row (the history of the branch stays), leaves the
    other branches alone and appends one DELETE_BRANCH audit entry; with
    any other answer nothing is written. *)
Theorem branch_soft_delete_effects
  (d : Db) (pk : UUID) (request_user : User) :
  let d' := snd (EditBranchViewSet.soft_delete request_user pk d) in
  let ok := status (fst (EditBranchViewSet.soft_delete request_user pk d)) in
  (ok = HTTP_200_OK
   <-> exists branch,
         get_object eb_id (branches d) pk = Some branch
         /\ (eb_created_by branch = user_id request_user
             \/ is_superuser request_user = true)
         /\ is_master branch = false)
  /\ (ok <> HTTP_200_OK -> d' = d)
  /\ feature_versions d' = feature_versions d
  /\ (forall other, other <> pk ->
        get_object eb_id (branches d') other = get_object eb_id (branches d) other)
  /\ (ok = HTTP_200_OK ->
      option_map eb_status (get_object eb_id (branches d') pk)
      = Some Branch_deleted
      /\ exists entry,
           audit_log d' = audit_log d ++ [entry]
           /\ al_action entry = DELETE_BRANCH
           /\ al_entity_id entry = pk).
Proof.
  intros d' ok. subst d' ok. unfold EditBranchViewSet.soft_delete.
  destruct (get_object eb_id (branches d) pk) as [branch|] eqn:Hget.
  2:{ cbn. repeat split; try discriminate; try tauto;
        try (intros (? & ? & _); discriminate). }
  pose proof (get_object_key _ _ _ _ Hget) as Hpk.
  destruct (negb (eb_created_by branch =? user_id request_user)%N
            && negb (is_superuser request_user)) eqn:Hrefused.
  { apply andb_true_iff in Hrefused. destruct Hrefused as [Hown Hsuper].
    apply negb_true_iff in Hown, Hsuper. apply N.eqb_neq in Hown.
    cbn. split; [|repeat split; discriminate].
    split; [discriminate|].
    intros (b & Hb & Hwho & _). injection Hb as <-.
    destruct Hwho; congruence. }
  destruct (is_master branch) eqn:Hmaster.
  { cbn. split; [|repeat split; discriminate].
    split; [discriminate|].
    intros (b & Hb & _ & Hm). injection Hb as <-. congruence. }
  cbv zeta.
  set (saved := EditBranchViewSet.with_status Branch_deleted
                  (merged_at branch) branch).
  cbn [fst snd status feature_versions branches audit_log set_branches
       AuditLog_create].
  split; [|split; [congruence|split; [reflexivity|split]]].
  - split; [|reflexivity]. intros _. exists branch.
    split; [reflexivity|]. split; [|exact Hmaster].
    apply andb_false_iff in Hrefused. destruct Hrefused as [Hown|Hsuper].
    + left. apply negb_false_iff, N.eqb_eq in Hown. exact Hown.
    + right. apply negb_false_iff in Hsuper. exact Hsuper.
  - intros other Hother. apply get_object_save_row_other.
    change (eb_id saved) with (eb_id branch). congruence.
  - intros _. split.
    + pose proof (get_object_save_row eb_id saved (branches d)) as Hsaved.
      change (eb_id saved) with (eb_id branch) in Hsaved.
      rewrite <- Hpk, Hsaved. reflexivity.
    + eexists. split; [reflexivity|]. split; [reflexivity|exact Hpk].
Qed.


Lemma contiguous_head_number (d : Db) (b fid : UUID) :
  contiguous (versions_of d b fid) ->
  head_number (feature_versions d) b fid
  = Z.of_nat (List.length (versions_of d b fid)).
Proof.
  unfold contiguous, versions_of. set (rows := filter _ (feature_versions d)).
  intros Hc. unfold head_number, head_version. fold rows.
  rewrite length_map in *. rewrite newest_number.
  - rewrite (max_permutation _ _ Hc). apply max_seq.
  - apply Forall_forall. intros v Hv.
    assert (Hin : In (version v) (map Z.of_nat (seq 1 (List.length rows)))).
    { apply (Permutation_in _ Hc). apply in_map. exact Hv. }
    apply in_map_iff in Hin. destruct Hin as (k & <- & _). lia.
Qed.

Lemma contiguous_snoc (vs : list Z) :
  contiguous vs -> contiguous (vs ++ [Z.of_nat (List.length vs) + 1])%Z.
Proof.
  unfold contiguous. intros Hc.
  rewrite length_app; cbn [List.length].
  rewrite Nat.add_1_r, seq_S, map_app; cbn [map Nat.add].
  apply Permutation_app; [exact Hc|].
  replace (Z.of_nat (List.length vs) + 1)%Z
    with (Z.of_nat (S (List.length vs))) by lia.
  apply Permutation_refl.
Qed.

(** X17.  Called on the latest version of a feature whose numbers on the
    branch are 1..N, the feature [soft_delete] action appends number N+1:
    the numbers of the feature stay without gap or duplicate, and the
    numbers of every other feature and branch are as before. *)
Theorem feature_soft_delete_on_head
  (d : Db) (pk : UUID) (request_user : User) (feature : FeatureVersion)
  (b fid : UUID) :
  get_object fv_id (FeatureVersionViewSet.get_queryset d) pk = Some feature ->
  version feature
  = head_number (feature_versions d) (fv_branch feature) (feature_id feature) ->
  contiguous (versions_of d b fid) ->
  contiguous
    (versions_of (snd (FeatureVersionViewSet.soft_delete request_user pk d)) b fid).
Proof.
  intros Hget Hhead Hc. unfold FeatureVersionViewSet.soft_delete. rewrite Hget.
  unfold versions_of. cbn [snd feature_versions AuditLog_create FeatureVersion_create
                             MergeService.set_feature_versions].
  rewrite filter_app, map_app. cbn [filter fv_branch feature_id].
  destruct ((fv_branch feature =? b)%N && (feature_id feature =? fid)%N) eqn:Hsame.
  - apply andb_true_iff in Hsame. destruct Hsame as [Hb Hf].
    apply N.eqb_eq in Hb, Hf. subst b fid. cbn [map version].
    rewrite Hhead, (contiguous_head_number d _ _ Hc).
    apply (contiguous_snoc _ Hc).
  - cbn [map]. rewrite app_nil_r. exact Hc.
Qed.

Lemma get_object_filter_unique (l : list FeatureVersion)
  (f : FeatureVersion -> bool) (pk : UUID) (x : FeatureVersion) :
  NoDup (map fv_id l) ->
  get_object fv_id (filter f l) pk = Some x ->
  get_object fv_id l pk = Some x.
Proof.
  unfold get_object. induction l as [|r l IH]; cbn; [discriminate|].
  intros Hnd Hget. apply NoDup_cons_iff in Hnd. destruct Hnd as [Hfresh Hnd].
  destruct (N.eqb_spec (fv_id r) pk) as [Heq|Hne].
  - destruct (f r); cbn in Hget.
    + rewrite Heq, N.eqb_refl in Hget. exact Hget.
    + exfalso. apply Hfresh. apply find_some in Hget.
      destruct Hget as [Hin Hk]. apply filter_In in Hin.
      apply N.eqb_eq in Hk. rewrite Heq, <- Hk.
      apply in_map. tauto.
  - destruct (f r); cbn in Hget.
    + destruct (N.eqb_spec (fv_id r) pk); [congruence|]. exact (IH Hnd Hget).
    + exact (IH Hnd Hget).
Qed.

Lemma save_row_length {A : Type} (key : A -> UUID) (x : A) (tbl : list A) :
  get_object key tbl (key x) <> None ->
  List.length (save_row key x tbl) = List.length tbl.
Proof.
  unfold get_object. induction tbl as [|r tbl IH]; cbn; [congruence|].
  destruct (key r =? key x)%N; cbn; [reflexivity|].
  intros Hf. rewrite (IH Hf). reflexivity.
Qed.

(** X18.  On a version table with unique keys, [perform_update] rewrites
    the row it is called on and appends nothing: the table keeps its
    length, every other row is read back unchanged, and the row of key
    [pk] now carries the validated geometry and properties, the operation
    UPDATE and its former number plus one.  The former state of the row is
    no longer stored. *)
Theorem perform_update_in_place
  (d d' : Db) (pk : UUID) (request_user : User)
  (validated : FeatureVersionViewSet.ValidatedData) :
  NoDup (map fv_id (feature_versions d)) ->
  FeatureVersionViewSet.perform_update request_user pk validated d = Some d' ->
  exists old row,
    get_object fv_id (feature_versions d) pk = Some old
    /\ get_object fv_id (feature_versions d') pk = Some row
    /\ List.length (feature_versions d') = List.length (feature_versions d)
    /\ (forall other, other <> pk ->
          get_object fv_id (feature_versions d') other
          = get_object fv_id (feature_versions d) other)
    /\ version row = (version old + 1)%Z
    /\ feature_id row = feature_id old
    /\ operation row = Op_UPDATE
    /\ geometry row = FeatureVersionViewSet.vd_geometry validated
    /\ properties row = FeatureVersionViewSet.vd_properties validated.
Proof.
  intros Hkeys. unfold FeatureVersionViewSet.perform_update.
  destruct (get_object fv_id (FeatureVersionViewSet.get_queryset d) pk)
    as [old|] eqn:Hget; [|discriminate].
  intros [= <-].
  pose proof (get_object_key _ _ _ _ Hget) as Hpk.
  pose proof (get_object_filter_unique _ _ _ _ Hkeys Hget) as Hold.
  set (row := {| fv_id := fv_id old; operation := Op_UPDATE |}).
  exists old, row. cbn [feature_versions AuditLog_create
                         MergeService.set_feature_versions].
  split; [exact Hold|]. split; [|split; [|split; [|repeat split]]].
  - rewrite <- Hpk. apply (get_object_save_row fv_id row).
  - apply save_row_length. cbn [fv_id row]. rewrite Hpk, Hold. discriminate.
  - intros other Hother. apply get_object_save_row_other.
    cbn [fv_id row]. congruence.
Qed.

End SoftDeletion.

(* ================================================================== *)
(** ** Creating a merge request *)

Section CreateMergeRequest.
Context `{Spatial}.
Import ApiViews.

Lemma conflict_rows_created (merge_request : MergeRequest)
  (cds : list ConflictDetector.ConflictData) :
  forall d : Db,
  let d' := fold_left (fun d cd => MergeConflict_create merge_request cd d) cds d in
  (exists news,
     conflicts d' = conflicts d ++ news
     /\ map mc_feature_id news = map ConflictDetector.cd_feature_id cds
     /\ map conflict_type news = map ConflictDetector.cd_conflict_type cds
     /\ Forall (open_for merge_request) news)
  /\ merge_requests d' = merge_requests d
  /\ feature_versions d' = feature_versions d
  /\ branches d' = branches d
  /\ audit_log d' = audit_log d.
Proof.
  induction cds as [|cd cds IH]; intros d; cbn [fold_left].
  - split; [|repeat split]. exists []. rewrite app_nil_r. repeat split. constructor.
  - specialize (IH (MergeConflict_create merge_request cd d)). cbv zeta in IH.
    destruct IH as ((news & Hc & Hf & Ht & Ho) & Hm & Hv & Hb & Ha).
    split; [|repeat split; assumption].
    eexists (_ :: news). split; [rewrite Hc; cbn; rewrite <- app_assoc; reflexivity|].
    cbn. rewrite Hf, Ht. repeat split. constructor; [split; reflexivity|exact Ho].
Qed.

Lemma get_object_app_fresh {A : Type} (key : A -> UUID) (x : A) (tbl : list A) :
  (forall r, In r tbl -> (key r =? key x)%N = false) ->
  get_object key (tbl ++ [x]) (key x) = Some x.
Proof.
  unfold get_object. induction tbl as [|r tbl IH]; cbn.
  - rewrite N.eqb_refl. reflexivity.
  - intros Hall. rewrite (Hall r (or_introl eq_refl)).
    apply IH. intros r' Hr'. apply Hall. right; exact Hr'.
Qed.

(** What [perform_create] of a merge request leaves in the database. *)
Lemma perform_create_shape
  (d : Db) (request_user : User) (validated : Serializers.MergeRequestData) :
  let detected :=
    ConflictDetector.detect_conflicts (feature_versions d)
      (Serializers.md_source_branch validated)
      (Serializers.md_target_branch validated) in
  let created := MergeRequest_perform_create request_user validated d in
  get_object mr_id (merge_requests (snd created)) (mr_id (fst created))
  = Some (fst created)
  /\ get_object mr_id (merge_requests d) (mr_id (fst created)) = None
  /\ mr_status (fst created)
     = match detected with [] => MR_pending | _ :: _ => MR_conflicts end
  /\ (exists news,
        conflicts (snd created) = conflicts d ++ news
        /\ map mc_feature_id news
           = map ConflictDetector.cd_feature_id detected
        /\ map conflict_type news
           = map ConflictDetector.cd_conflict_type detected
        /\ Forall (open_for (fst created)) news)
  /\ feature_versions (snd created) = feature_versions d.
Proof.
  intros detected created. subst created. unfold MergeRequest_perform_create.
  set (mr0 := {| mr_id := uuid4 (map mr_id (merge_requests d)) |}).
  cbn [feature_versions set_merge_requests]. fold detected.
  set (d0 := set_merge_requests (merge_requests d ++ [mr0]) d).
  pose proof (conflict_rows_created mr0 detected d0) as Hrows.
  cbv zeta in Hrows.
  set (d1 := fold_left _ detected d0) in *.
  destruct Hrows as ((news & Hc & Hf & Ht & Ho) & Hm & Hv & Hb & Ha).
  assert (Hfresh : forall r, In r (merge_requests d) ->
                             (mr_id r =? mr_id mr0)%N = false).
  { intros r Hr. apply (uuid4_fresh mr_id _ r Hr). }
  assert (Hnew : get_object mr_id (merge_requests d) (mr_id mr0) = None).
  { unfold get_object. destruct (find _ (merge_requests d)) as [r|] eqn:Hfind;
      [|reflexivity].
    apply find_some in Hfind. destruct Hfind as [Hr Hk].
    rewrite (Hfresh r Hr) in Hk. discriminate. }
  destruct detected as [|cd rest] eqn:Hdet.
  - cbn [fst snd merge_requests AuditLog_create conflicts feature_versions mr_id].
    rewrite Hm. split; [apply (get_object_app_fresh mr_id mr0 _ Hfresh)|].
    split; [exact Hnew|]. split; [reflexivity|].
    split; [|exact Hv]. exists news. auto.
  - cbn [fst snd merge_requests AuditLog_create conflicts feature_versions
         set_merge_requests].
    split; [apply (get_object_save_row mr_id (with_mr_status MR_conflicts mr0))|].
    split; [exact Hnew|]. split; [reflexivity|].
    split; [|exact Hv]. exists news. auto.
Qed.

(** X19.  [perform_create] of a merge request stores the request under a
    new key with status conflicts when [detect_conflicts] reports
    something for its two branches and pending when it reports nothing; it
    appends one unresolved conflict row bound to the request for each
    reported entry, with the feature and type of the entry, and writes no
    version row. *)
Theorem merge_request_created
  (d : Db) (request_user : User) (validated : Serializers.MergeRequestData) :
  let detected :=
    ConflictDetector.detect_conflicts (feature_versions d)
      (Serializers.md_source_branch validated)
      (Serializers.md_target_branch validated) in
  let created := MergeRequest_perform_create request_user validated d in
  get_object mr_id (merge_requests (snd created)) (mr_id (fst created))
  = Some (fst created)
  /\ get_object mr_id (merge_requests d) (mr_id (fst created)) = None
  /\ mr_status (fst created)
     = match detected with [] => MR_pending | _ :: _ => MR_conflicts end
  /\ (exists news,
        conflicts (snd created) = conflicts d ++ news
        /\ map mc_feature_id news
           = map ConflictDetector.cd_feature_id detected
        /\ map conflict_type news
           = map ConflictDetector.cd_conflict_type detected
        /\ Forall (open_for (fst created)) news)
  /\ feature_versions (snd created) = feature_versions d.
Proof. exact (perform_create_shape d request_user validated). Qed.

(** X20.  A merge request created while [detect_conflicts] reports a
    conflict cannot be approved as it stands: whoever calls [approve] on
    it, the answer is HTTP 400 for a caller who passes [_can_approve] and
    HTTP 403 otherwise, and nothing is written. *)
Theorem created_with_conflicts_is_blocked
  (d : Db) (request_user approver : User) (now : Timestamp)
  (validated : Serializers.MergeRequestData) :
  ConflictDetector.detect_conflicts (feature_versions d)
    (Serializers.md_source_branch validated)
    (Serializers.md_target_branch validated) <> [] ->
  let created := MergeRequest_perform_create request_user validated d in
  let answer :=
    MergeRequestViewSet.approve approver now (mr_id (fst created)) (snd created) in
  snd answer = snd created
  /\ status (fst answer)
     = (if MergeRequestViewSet._can_approve approver
        then HTTP_400_BAD_REQUEST else HTTP_403_FORBIDDEN).
Proof.
  intros Hdetected created answer.
  destruct (perform_create_shape d request_user validated)
    as (Hget & _ & _ & (news & Hc & Hf & _ & Ho) & _).
  fold created in Hget, Hc, Ho.
  destruct news as [|c news].
  { cbn in Hf. symmetry in Hf. apply map_eq_nil in Hf. contradiction. }
  apply Forall_inv in Ho. destruct Ho as [Hbound Hopen].
  assert (Hin : In c (conflicts (snd created))).
  { rewrite Hc. apply in_or_app. right. left. reflexivity. }
  subst answer. unfold MergeRequestViewSet.approve. rewrite Hget.
  destruct (MergeRequestViewSet._can_approve approver); cbn [negb].
  - rewrite (unresolved_conflicts_positive (snd created) (fst created) c
               Hin Hbound Hopen).
    split; reflexivity.
  - split; reflexivity.
Qed.

End CreateMergeRequest.

(** X20, for the two branches of the example while both have edited the
    feature. *)
Lemma created_with_conflicts_is_blocked_witness :
  let created :=
    ApiViews.MergeRequest_perform_create Examples.bob
      {| Serializers.md_source_branch := Examples.survey;
         Serializers.md_target_branch := Examples.master;
         Serializers.md_title := "wells" |}
      (Examples.database Examples.edited_on_both MR_pending []) in
  let answer :=
    MergeRequestViewSet.approve Examples.alice 5%Z (mr_id (fst created))
      (snd created) in
  snd answer = snd created
  /\ status (fst answer) = HTTP_400_BAD_REQUEST.
Proof.
  apply (@created_with_conflicts_is_blocked PointSpatial
           (Examples.database Examples.edited_on_both MR_pending [])
           Examples.bob Examples.alice 5%Z
           {| Serializers.md_source_branch := Examples.survey;
              Serializers.md_target_branch := Examples.master;
              Serializers.md_title := "wells" |}).
  vm_compute. discriminate.
Defined.

(* ================================================================== *)
(** ** What a merge writes *)

Section MergeWrites.
Context `{Spatial}.
Import MergeService.

Lemma newest_greatest (l : list FeatureVersion) :
  match newest l with
  | Some v => In v l /\ forall w, In w l -> (version w <= version v)%Z
  | None => l = []
  end.
Proof.
  induction l as [|x l IH]; cbn; [reflexivity|].
  destruct (newest l) as [y|].
  - destruct IH as [Hin Hmax].
    destruct (Z.leb_spec (version y) (version x)).
    + split; [left; reflexivity|]. intros w [<-|Hw]; [lia|].
      specialize (Hmax w Hw). lia.
    + split; [right; exact Hin|]. intros w [<-|Hw]; [lia|exact (Hmax w Hw)].
  - subst l. split; [left; reflexivity|]. intros w [<-|[]]. lia.
Qed.

(** X21.  [_get_latest_features] maps each feature that has a row on the
    branch to a row of that branch and feature whose version number no row
    of the branch and feature exceeds, and it has an entry for every such
    feature. *)
Theorem latest_features_are_greatest
  (fvs : list FeatureVersion) (branch : EditBranch) :
  (forall fid v,
     dict_get N.eqb fid (_get_latest_features fvs branch) = Some v ->
     In v fvs /\ fv_branch v = eb_id branch /\ feature_id v = fid
     /\ forall w, In w fvs -> fv_branch w = eb_id branch -> feature_id w = fid ->
          (version w <= version v)%Z)
  /\ (forall w, In w fvs -> fv_branch w = eb_id branch ->
        dict_get N.eqb (feature_id w) (_get_latest_features fvs branch) <> None).
Proof.
  split.
  - intros fid v Hget. rewrite latest_get in Hget.
    destruct (head_version_In _ _ _ _ Hget) as (Hin & Hb & Hf).
    repeat split; try assumption.
    intros w Hw Hwb Hwf. unfold head_version in Hget.
    pose proof (newest_greatest
                  (filter (fun v => (fv_branch v =? eb_id branch)%N
                                    && (feature_id v =? fid)%N) fvs)) as Hmax.
    rewrite Hget in Hmax. apply (proj2 Hmax).
    apply filter_In. split; [exact Hw|].
    rewrite Hwb, Hwf, !N.eqb_refl. reflexivity.
  - intros w Hw Hwb. rewrite latest_get. unfold head_version.
    pose proof (newest_greatest
                  (filter (fun v => (fv_branch v =? eb_id branch)%N
                                    && (feature_id v =? feature_id w)%N) fvs))
      as Hmax.
    destruct (newest _); [discriminate|].
    assert (Hin : In w (filter (fun v => (fv_branch v =? eb_id branch)%N
                                         && (feature_id v =? feature_id w)%N) fvs)).
    { apply filter_In. split; [exact Hw|].
      rewrite Hwb, !N.eqb_refl. reflexivity. }
    rewrite Hmax in Hin. contradiction.
Qed.

Lemma create_merged_version_fails
  (sv : FeatureVersion) (target : EditBranch) (d : Db) :
  find (fun r => (eb_id r =? fv_branch sv)%N) (branches d) = None ->
  _create_merged_version sv target d = (inl (DoesNotExist "EditBranch"), d).
Proof.
  intros Hb. unfold _create_merged_version, bind, get, deref, raise.
  rewrite Hb. reflexivity.
Qed.

(** One turn of the loop of [merge_branches]: nothing happens, or the
    branch of the source version is missing and the turn raises, or the
    merged row is appended and the count goes up. *)
Lemma merge_feature_cases
  (tgt : dict UUID FeatureVersion) (target : EditBranch)
  (fid : UUID) (sv : FeatureVersion) (d : Db) (n : nat) :
  (needs_merge tgt (fid, sv) = false
   /\ merge_feature tgt target (fid, sv) (d, n) = (inr tt, (d, n)))
  \/ (needs_merge tgt (fid, sv) = true
      /\ merge_feature tgt target (fid, sv) (d, n)
         = (inl (DoesNotExist "EditBranch"), (d, n)))
  \/ (needs_merge tgt (fid, sv) = true
      /\ exists b,
           merge_feature tgt target (fid, sv) (d, n)
           = (inr tt,
              (set_feature_versions
                 (feature_versions d
                  ++ [merged_version (feature_versions d) sv target (eb_name b)])
                 d, S n))).
Proof.
  destruct (needs_merge tgt (fid, sv)) eqn:Hneeds.
  - destruct (find (fun r => (eb_id r =? fv_branch sv)%N) (branches d))
      as [b|] eqn:Hb.
    + right; right. split; [reflexivity|]. exists b.
      apply merge_feature_create; assumption.
    + right; left. split; [reflexivity|].
      unfold needs_merge in Hneeds. cbn [fst snd] in Hneeds.
      apply andb_true_iff in Hneeds. destruct Hneeds as [Hlive Hc].
      apply negb_true_iff in Hlive.
      unfold merge_feature. rewrite Hlive.
      assert (Hrun :
        bind (lift_db (_create_merged_version sv target))
             (fun _ => modify (fun s : Db * nat => (fst s, S (snd s)))) (d, n)
        = (inl (DoesNotExist "EditBranch"), (d, n))).
      { unfold bind, lift_db; cbn [fst snd].
        rewrite (create_merged_version_fails sv target d Hb). reflexivity. }
      destruct (dict_get N.eqb fid tgt) as [tv|]; [rewrite Hc|]; exact Hrun.
  - left. split; [reflexivity|]. apply merge_feature_skip. exact Hneeds.
Qed.

Lemma versions_of_append_merged
  (d : Db) (sv : FeatureVersion) (target : EditBranch) (name : string)
  (b fid : UUID) :
  contiguous (versions_of d b fid) ->
  contiguous
    (versions_of
       (set_feature_versions
          (feature_versions d
           ++ [merged_version (feature_versions d) sv target name]) d) b fid).
Proof.
  intros Hc.
  destruct (N.eq_dec b (eb_id target)) as [->|Hb].
  - destruct (N.eq_dec fid (feature_id sv)) as [->|Hf].
    + apply merged_version_keeps_contiguous. exact Hc.
    + unfold versions_of in *. cbn [feature_versions set_feature_versions].
      rewrite filter_app. cbn [filter].
      rewrite feature_id_merged_version by (right; exact Hf).
      rewrite app_nil_r. exact Hc.
  - unfold versions_of in *. cbn [feature_versions set_feature_versions].
    rewrite filter_app. cbn [filter].
    rewrite feature_id_merged_version by (left; exact Hb).
    rewrite app_nil_r. exact Hc.
Qed.

(** The loop of [merge_branches] from any database: what it has written
    when it stops, whether it returns or raises. *)
Lemma merge_loop_writes (tgt : dict UUID FeatureVersion) (target : EditBranch)
  (all_items items : list (UUID * FeatureVersion)) :
  (forall item, In item items -> In item all_items) ->
  forall (d : Db) (n : nat),
  exists r d' news,
    for_each items (merge_feature tgt target) (d, n)
    = (r, (d', n + List.length news))
    /\ same_but_versions d d'
    /\ feature_versions d' = feature_versions d ++ news
    /\ Forall (copies_live_source all_items target) news
    /\ (forall b fid, contiguous (versions_of d b fid) ->
                      contiguous (versions_of d' b fid)).
Proof.
  induction items as [|[fid sv] items IH]; intros Hsub d n.
  - exists (inr tt), d, []. cbn. rewrite Nat.add_0_r, app_nil_r.
    repeat split. constructor. auto.
  - cbn [for_each]. unfold bind at 1.
    destruct (merge_feature_cases tgt target fid sv d n)
      as [[Hneeds Hrun]|[[Hneeds Hrun]|[Hneeds [b Hrun]]]]; rewrite Hrun.
    + destruct (IH (fun item Hin => Hsub item (or_intror Hin)) d n)
        as (r & d' & news & Hfor & Hrest).
      exists r, d', news. split; [exact Hfor|exact Hrest].
    + exists (inl (DoesNotExist "EditBranch")), d, [].
      cbn. rewrite Nat.add_0_r, app_nil_r. repeat split. constructor. auto.
    + set (mv := merged_version (feature_versions d) sv target (eb_name b)).
      set (d1 := set_feature_versions (feature_versions d ++ [mv]) d).
      destruct (IH (fun item Hin => Hsub item (or_intror Hin)) d1 (S n))
        as (r & d' & news & Hfor & Hsame & Hfvs & Hall & Hcont).
      exists r, d', (mv :: news).
      split.
      { rewrite Hfor.
        replace (S n + List.length news) with (n + List.length (mv :: news))
          by (cbn [List.length]; lia).
        reflexivity. }
      split; [exact Hsame|].
      split; [rewrite Hfvs; subst d1; cbn; rewrite <- app_assoc; reflexivity|].
      split.
      * constructor; [|exact Hall].
        unfold needs_merge in Hneeds. cbn [fst snd] in Hneeds.
        apply andb_true_iff in Hneeds. destruct Hneeds as [Hlive _].
        apply negb_true_iff in Hlive.
        unfold copies_live_source. subst mv. cbn.
        repeat split. exists fid, sv.
        split; [apply Hsub; left; reflexivity|]. repeat split. exact Hlive.
      * intros b0 fid0 Hc. apply Hcont. subst d1 mv.
        apply versions_of_append_merged. exact Hc.
Qed.

Lemma merge_branches_writes (source target : EditBranch) (d : Db) :
  exists (r : Exception + unit) d' news,
    merge_branches source target d
    = (match r with inl e => inl e | inr _ => inr (List.length news) end,
       match r with inl _ => d | inr _ => d' end)
    /\ same_but_versions d d'
    /\ feature_versions d' = feature_versions d ++ news
    /\ Forall (copies_live_source
                 (_get_latest_features (feature_versions d) source) target) news
    /\ (forall b fid, contiguous (versions_of d b fid) ->
                      contiguous (versions_of d' b fid)).
Proof.
  destruct (merge_loop_writes
              (_get_latest_features (feature_versions d) target) target
              (_get_latest_features (feature_versions d) source)
              (_get_latest_features (feature_versions d) source)
              (fun _ Hin => Hin) d 0)
    as (r & d' & news & Hfor & Hrest).
  exists r, d', news. split; [|exact Hrest].
  unfold merge_branches, atomic. rewrite Hfor. cbn [Nat.add].
  destruct r as [e|[]]; reflexivity.
Qed.

(** X22.  [merge_branches] is all or nothing and only appends.  When it
    raises, the database is as it was.  When it returns [n], the version
    table is the old one followed by exactly [n] new rows, no other table
    has changed, and every new row is a live MERGE row of the target
    branch that copies the feature, geometry, properties and author of a
    live latest version of the source: a deleted source version is never
    copied and no stored row is changed. *)
Theorem merge_branches_appends_live_copies
  (source target : EditBranch) (d : Db) :
  match merge_branches source target d with
  | (inl _, d') => d' = d
  | (inr n, d') =>
      same_but_versions d d'
      /\ exists news,
           feature_versions d' = feature_versions d ++ news
           /\ List.length news = n
           /\ Forall (copies_live_source
                        (_get_latest_features (feature_versions d) source)
                        target) news
  end.
Proof.
  destruct (merge_branches_writes source target d)
    as (r & d' & news & -> & Hsame & Hfvs & Hall & _).
  destruct r as [e|[]]; [reflexivity|].
  split; [exact Hsame|]. exists news. auto.
Qed.

(** X23.  [merge_branches] keeps version numbers in order: if the numbers
    stored for a feature on a branch are 1..N before the call, they are
    1..M after it, whether the call returns or raises. *)
Theorem merge_branches_keeps_contiguous
  (source target : EditBranch) (d : Db) (b fid : UUID) :
  contiguous (versions_of d b fid) ->
  contiguous (versions_of (snd (merge_branches source target d)) b fid).
Proof.
  intros Hc.
  destruct (merge_branches_writes source target d)
    as (r & d' & news & -> & _ & _ & _ & Hcont).
  destruct r as [e|[]]; cbn [snd]; [exact Hc|exact (Hcont b fid Hc)].
Qed.

(** X24.  A feature whose latest version on the source is deleted is left
    alone by [merge_branches]: the latest version of the feature on the
    target is after the call what it was before. *)
Theorem merge_branches_skips_deleted
  (source target : EditBranch) (d : Db) (fid : UUID) (sv : FeatureVersion) :
  dict_get N.eqb fid (_get_latest_features (feature_versions d) source) = Some sv ->
  is_deleted sv = true ->
  dict_get N.eqb fid
    (_get_latest_features
       (feature_versions (snd (merge_branches source target d))) target)
  = dict_get N.eqb fid (_get_latest_features (feature_versions d) target).
Proof.
  intros Hget Hdel.
  destruct (merge_branches_writes source target d)
    as (r & d' & news & -> & _ & Hfvs & Hall & _).
  destruct r as [e|[]]; cbn [snd]; [reflexivity|].
  rewrite !latest_get, Hfvs. unfold head_version.
  rewrite filter_app.
  assert (Hnone : filter (fun v => (fv_branch v =? eb_id target)%N
                                   && (feature_id v =? fid)%N) news = []).
  { rewrite Forall_forall in Hall.
    destruct (filter _ news) as [|v rest] eqn:Hf; [reflexivity|].
    assert (Hv : In v (filter (fun v => (fv_branch v =? eb_id target)%N
                                        && (feature_id v =? fid)%N) news))
      by (rewrite Hf; left; reflexivity).
    apply filter_In in Hv. destruct Hv as [Hv Hk].
    apply andb_true_iff in Hk. destruct Hk as [_ Hk]. apply N.eqb_eq in Hk.
    destruct (Hall v Hv) as (_ & _ & _ & fid' & sv' & Hin & Hlive & Hfid & _).
    destruct (latest_entry _ _ _ _ Hin) as (_ & _ & Hkey).
    assert (fid' = fid) by congruence. subst fid'.
    apply In_dict_get in Hin; [|apply latest_keys].
    assert (sv' = sv) by congruence. subst sv'. congruence. }
  rewrite Hnone, app_nil_r. reflexivity.
Qed.

(** X25.  After a successful [merge_branches], with a reflexive spatial
    equality, the target has caught up with the source in content: every
    live latest version of the source has a latest version on the target
    with equal geometry and equal properties. *)
Theorem merge_branches_converges
  (source target : EditBranch) (d : Db) (fid : UUID) (sv : FeatureVersion) :
  (forall g : Geometry, equals g g = true) ->
  find (fun r => (eb_id r =? eb_id source)%N) (branches d) <> None ->
  dict_get N.eqb fid (_get_latest_features (feature_versions d) source) = Some sv ->
  is_deleted sv = false ->
  exists n d' tv,
    merge_branches source target d = (inr n, d')
    /\ dict_get N.eqb fid (_get_latest_features (feature_versions d') target)
       = Some tv
    /\ _versions_equal sv tv = true.
Proof.
  intros Hrefl Hsource Hget Hlive.
  destruct (merge_branches_run source target d Hsource)
    as (d' & Hrun & _ & _ & Hkeep & Hnew & _).
  set (src := _get_latest_features (feature_versions d) source) in *.
  set (tgt := _get_latest_features (feature_versions d) target) in *.
  exists (List.length (filter (needs_merge tgt) src)), d'.
  assert (Hin : In (fid, sv) src) by (apply dict_get_In; exact Hget).
  destruct (needs_merge tgt (fid, sv)) eqn:Hneeds.
  - destruct (Hnew fid sv Hin Hneeds) as (r & Hr & _ & Hg & Hp).
    exists r. split; [exact Hrun|]. rewrite latest_get. split; [exact Hr|].
    unfold _versions_equal. rewrite Hg, Hp, Hrefl.
    apply properties_eqb_true. reflexivity.
  - assert (Hneeds' := Hneeds). unfold needs_merge in Hneeds'.
    cbn [fst snd] in Hneeds'. rewrite Hlive in Hneeds'. cbn [negb andb] in Hneeds'.
    destruct (dict_get N.eqb fid tgt) as [tv|] eqn:Htv; [|discriminate].
    apply orb_false_iff in Hneeds'. destruct Hneeds' as [_ Heq].
    apply negb_false_iff in Heq.
    exists tv. split; [exact Hrun|]. split; [|exact Heq].
    rewrite latest_get, Hkeep.
    + rewrite <- latest_get. exact Htv.
    + intros Hk. apply in_map_iff in Hk. destruct Hk as ([k v] & Hkv & Hin').
      cbn in Hkv; subst k. apply filter_In in Hin'. destruct Hin' as [Hin' Hn'].
      apply In_dict_get in Hin'; [|apply latest_keys].
      fold src in Hin'.
      assert (v = sv) by congruence. subst v. congruence.
Qed.

End MergeWrites.

(* ================================================================== *)
(** ** The order of the reported conflicts *)

Section ReportOrder.
Context `{Spatial}.
Import ConflictDetector.

Lemma sorted_app_one (l : list UUID) (a : UUID) :
  StronglySorted N.lt l -> (forall k, In k l -> (k < a)%N) ->
  StronglySorted N.lt (l ++ [a]).
Proof.
  induction 1 as [|x l Hs IH Hx]; intros Hall; cbn.
  - repeat constructor.
  - constructor.
    + apply IH. intros k Hk. apply Hall. right; exact Hk.
    + rewrite Forall_forall in *. intros k Hk.
      apply in_app_or in Hk. destruct Hk as [Hk|[<-|[]]].
      * exact (Hx k Hk).
      * apply Hall. left; reflexivity.
Qed.

Lemma keep_first_ascending (l : list FeatureVersion) :
  lex_sorted l ->
  forall acc : dict UUID FeatureVersion,
  StronglySorted N.lt (map fst acc) ->
  (forall k x, In k (map fst acc) -> In x l -> (k <= feature_id x)%N) ->
  StronglySorted N.lt (map fst (fold_left keep_first l acc)).
Proof.
  unfold lex_sorted. induction 1 as [|x l Hs IH Hx]; intros acc Hacc Hbound;
    cbn [fold_left]; [exact Hacc|].
  rewrite Forall_forall in Hx.
  apply IH.
  - unfold keep_first, dict_in.
    destruct (dict_get N.eqb (feature_id x) acc) eqn:Hg; cbn [negb]; [exact Hacc|].
    rewrite dict_set_absent by exact Hg. rewrite map_app. cbn [map fst].
    apply sorted_app_one; [exact Hacc|].
    intros k Hk.
    pose proof (Hbound k x Hk (or_introl eq_refl)) as Hle.
    pose proof (dict_get_None_not_key _ _ Hg) as Hnot.
    assert (k <> feature_id x) by (intros ->; contradiction). lia.
  - intros k y Hk Hy. unfold keep_first, dict_in in Hk.
    destruct (dict_get N.eqb (feature_id x) acc) eqn:Hg; cbn [negb] in Hk.
    + apply (Hbound k y Hk). right; exact Hy.
    + rewrite dict_set_absent in Hk by exact Hg.
      rewrite map_app in Hk. apply in_app_or in Hk.
      destruct Hk as [Hk|[<-|[]]].
      * apply (Hbound k y Hk). right; exact Hy.
      * cbn [fst]. specialize (Hx y Hy).
        unfold MergeService.by_feature_id_desc_version in Hx.
        apply orb_true_iff in Hx. destruct Hx as [Hlt|Heq].
        -- apply N.ltb_lt in Hlt. lia.
        -- apply andb_true_iff in Heq. destruct Heq as [Heq _].
           apply N.eqb_eq in Heq. lia.
Qed.

(** The keys of the dictionary of latest versions stand in ascending
    order. *)
Lemma latest_keys_ascending (fvs : list FeatureVersion) (branch : EditBranch) :
  StronglySorted N.lt (map fst (_get_latest_features fvs branch)).
Proof.
  unfold _get_latest_features.
  change (fold_left _ ?l []) with (fold_left keep_first l []).
  apply keep_first_ascending.
  - apply order_by_lex_sorted.
  - constructor.
  - intros k x [].
Qed.

Lemma report_ids (tgt : dict UUID FeatureVersion)
  (src : dict UUID FeatureVersion) (acc : list ConflictData) :
  map cd_feature_id (fold_left (report tgt) src acc)
  = map cd_feature_id acc ++ map fst (filter (reported tgt) src).
Proof.
  revert acc; induction src as [|[fid sv] src IH]; intros acc; cbn [fold_left filter].
  - cbn. rewrite app_nil_r. reflexivity.
  - rewrite IH. unfold report, reported. cbn [fst snd].
    destruct (dict_get N.eqb fid tgt) as [tv|]; [|reflexivity].
    destruct (_detect_conflict_type sv tv); [|reflexivity].
    rewrite map_app. cbn. rewrite <- app_assoc. reflexivity.
Qed.

Lemma sorted_filter_keys (f : UUID * FeatureVersion -> bool)
  (l : dict UUID FeatureVersion) :
  StronglySorted N.lt (map fst l) ->
  StronglySorted N.lt (map fst (filter f l)).
Proof.
  induction l as [|x l IH]; cbn; [auto|].
  intros Hs. apply StronglySorted_inv in Hs. destruct Hs as [Hs Hx].
  destruct (f x); cbn; [|exact (IH Hs)].
  constructor; [exact (IH Hs)|].
  rewrite Forall_forall in *. intros k Hk. apply Hx.
  apply in_map_iff in Hk. destruct Hk as (y & <- & Hy).
  apply filter_In in Hy. apply in_map. tauto.
Qed.

(** X26.  [detect_conflicts] reports the features in strictly ascending
    order of feature identifier; in particular no feature is reported
    twice. *)
Theorem detect_conflicts_ascending
  (fvs : list FeatureVersion) (source target : EditBranch) :
  StronglySorted N.lt (map cd_feature_id (detect_conflicts fvs source target)).
Proof.
  rewrite detect_conflicts_unfold, report_ids. cbn [map app].
  apply sorted_filter_keys. apply latest_keys_ascending.
Qed.

End ReportOrder.

(* ================================================================== *)
(** ** The conflict object after a failed resolution *)

Section ResolveObject.
Context `{Spatial}.
Import ConflictResolver.

(** X27.  On a valid input [resolve_conflict] fails after it has marked
    the conflict object in memory: the object it leaves behind says
    resolved, with the strategy and the resolver of the call and without a
    resolution time, while the database still holds the row as it was. *)
Theorem resolve_conflict_marks_object_only
  (now : Timestamp) (resolution_strategy0 : string) (resolved_by0 : User)
  (manual_geometry : option Geometry) (manual_properties : option Properties)
  (s : Call) :
  valid_resolution resolution_strategy0 manual_geometry manual_properties ->
  versions_exist s ->
  exists s',
    resolve_conflict now resolution_strategy0 resolved_by0
      manual_geometry manual_properties s = (inl (NameError "timezone"), s')
    /\ resolved (conflict s') = true
    /\ resolution_strategy (conflict s') = Some resolution_strategy0
    /\ resolved_by (conflict s') = Some (user_id resolved_by0)
    /\ resolved_at (conflict s') = resolved_at (conflict s)
    /\ mc_id (conflict s') = mc_id (conflict s)
    /\ db s' = db s.
Proof.
  intros Hvalid [Hsrc Htgt].
  unfold resolve_conflict, resolve_conflict_in, atomic.
  destruct Hvalid as [-> | [-> | (-> & Hg & Hp)]].
  - unfold bind, source_version_of, get, deref; cbn.
    destruct (find _ (feature_versions (db s))) as [sv|] eqn:Hf;
      [|contradiction].
    cbn. rewrite Hf. cbn. eexists; repeat split.
  - unfold bind, target_version_of, get, deref; cbn.
    destruct (mc_target_version (conflict s)) as [k|] eqn:Hk.
    + destruct (find (fun r => (fv_id r =? k)%N) (feature_versions (db s)))
        as [tv|] eqn:Hf; [|contradiction].
      repeat (cbn; unfold bind; try rewrite Hk; try rewrite Hf).
      eexists; repeat split.
    + repeat (cbn; try rewrite Hk). eexists; repeat split.
  - destruct manual_geometry as [g|]; [|contradiction].
    destruct manual_properties as [p|]; [|contradiction].
    cbn. eexists; repeat split.
Qed.

End ResolveObject.

(* ================================================================== *)
(** ** Instances *)

Lemma contiguous_1_2 : contiguous [1; 2]%Z.
Proof. unfold contiguous. cbn. apply Permutation_refl. Qed.

(** X17, for a soft deletion through row 2, the latest version of feature
    100 on [survey]. *)
Lemma feature_soft_delete_on_head_witness :
  contiguous
    (versions_of
       (snd (FeatureVersionViewSet.soft_delete Examples.bob 2%N
               Scenarios.surveyed)) 2%N 100%N).
Proof.
  apply (@feature_soft_delete_on_head PointSpatial Scenarios.surveyed 2%N
           Examples.bob
           (Examples.row 2 2 2 Examples.there Examples.plain Op_UPDATE false)
           2%N 100%N).
  - reflexivity.
  - reflexivity.
  - exact contiguous_1_2.
Defined.

(** X18, for an update of row 2 of the same table. *)
Lemma perform_update_in_place_witness :
  exists old row,
    get_object fv_id (feature_versions Scenarios.surveyed) 2%N = Some old
    /\ get_object fv_id (feature_versions Scenarios.updated) 2%N = Some row
    /\ List.length (feature_versions Scenarios.updated)
       = List.length (feature_versions Scenarios.surveyed)
    /\ (forall other, other <> 2%N ->
          get_object fv_id (feature_versions Scenarios.updated) other
          = get_object fv_id (feature_versions Scenarios.surveyed) other)
    /\ version row = (version old + 1)%Z
    /\ feature_id row = feature_id old
    /\ operation row = Op_UPDATE
    /\ geometry row = FeatureVersionViewSet.vd_geometry Examples.new_well
    /\ properties row = FeatureVersionViewSet.vd_properties Examples.new_well.
Proof.
  apply (@perform_update_in_place PointSpatial Scenarios.surveyed
           Scenarios.updated 2%N Examples.bob Examples.new_well).
  - cbn. repeat constructor; cbn; intuition discriminate.
  - reflexivity.
Defined.

(** X23, for the numbers of feature 100 on [master] across a merge. *)
Lemma merge_branches_keeps_contiguous_witness :
  contiguous
    (versions_of
       (snd (MergeService.merge_branches Examples.survey Examples.master
               (Examples.database Examples.edited_on_both MR_pending [])))
       1%N 100%N).
Proof.
  apply (@merge_branches_keeps_contiguous PointSpatial Examples.survey
           Examples.master
           (Examples.database Examples.edited_on_both MR_pending []) 1%N 100%N).
  exact contiguous_1_2.
Defined.

(** X24, for the feature deleted on [survey]. *)
Lemma merge_branches_skips_deleted_witness :
  dict_get N.eqb 100%N
    (MergeService._get_latest_features
       (feature_versions
          (snd (MergeService.merge_branches Examples.survey Examples.master
                  (Examples.database Examples.deleted_against_same_content
                     MR_pending []))))
       Examples.master)
  = dict_get N.eqb 100%N
      (MergeService._get_latest_features
         (feature_versions
            (Examples.database Examples.deleted_against_same_content
               MR_pending []))
         Examples.master).
Proof.
  apply (@merge_branches_skips_deleted PointSpatial Examples.survey
           Examples.master
           (Examples.database Examples.deleted_against_same_content MR_pending [])
           100%N
           (Examples.row 2 2 2 Examples.here Examples.plain Op_DELETE true));
    reflexivity.
Defined.

(** X25, for the feature edited on both branches. *)
Lemma merge_branches_converges_witness :
  exists n d' tv,
    MergeService.merge_branches Examples.survey Examples.master
      (Examples.database Examples.edited_on_both MR_pending []) = (inr n, d')
    /\ dict_get N.eqb 100%N
         (MergeService._get_latest_features (feature_versions d') Examples.master)
       = Some tv
    /\ MergeService._versions_equal
         (Examples.row 2 2 2 Examples.there Examples.plain Op_UPDATE false) tv
       = true.
Proof.
  apply (@merge_branches_converges PointSpatial Examples.survey Examples.master
           (Examples.database Examples.edited_on_both MR_pending []) 100%N
           (Examples.row 2 2 2 Examples.there Examples.plain Op_UPDATE false)).
  - exact Point_equals_refl.
  - vm_compute. discriminate.
  - reflexivity.
  - reflexivity.
Defined.

(** X27, for the strategy SOURCE on the open conflict of the example. *)
Lemma resolve_conflict_marks_object_only_witness :
  exists s',
    ConflictResolver.resolve_conflict 5%Z "SOURCE" Examples.alice None None
      Scenarios.resolving = (inl (NameError "timezone"), s')
    /\ resolved (ConflictResolver.conflict s') = true
    /\ resolution_strategy (ConflictResolver.conflict s') = Some "SOURCE"%string
    /\ resolved_by (ConflictResolver.conflict s') = Some (user_id Examples.alice)
    /\ resolved_at (ConflictResolver.conflict s')
       = resolved_at (ConflictResolver.conflict Scenarios.resolving)
    /\ mc_id (ConflictResolver.conflict s')
       = mc_id (ConflictResolver.conflict Scenarios.resolving)
    /\ ConflictResolver.db s' = ConflictResolver.db Scenarios.resolving.
Proof.
  apply (@resolve_conflict_marks_object_only PointSpatial 5%Z "SOURCE"%string
           Examples.alice None None Scenarios.resolving).
  - left; reflexivity.
  - split; vm_compute; discriminate.
Defined.

(* ================================================================== *)
(** ** Members, conflicts and checks *)

Section MembersAndConflicts.
Context `{Spatial}.
Import Permissions.

(** X28.  The users whom [get_group_members] lists pass the checks of
    their rank: a listed admin passes [is_admin], a listed admin or
    validator passes [is_validator_in_group] for the group, and every
    listed member passes [is_editor_in_group] for the group. *)
Theorem group_members_pass_checks
  (roles : list UserRole) (group : GroupId) (user : User) :
  let members := get_group_members roles group in
  (In (user_id user) (admins members) ->
   PermissionManager.is_admin roles user = true)
  /\ (In (user_id user) (admins members)
      \/ In (user_id user) (validators members) ->
      is_validator_in_group roles user group = true)
  /\ (In (user_id user) (admins members)
      \/ In (user_id user) (validators members)
      \/ In (user_id user) (editors members) ->
      is_editor_in_group roles user group = true).
Proof.
  intros members. subst members. unfold get_group_members.
  cbn [admins validators editors].
  assert (Hrow : forall name,
    In (user_id user)
       (map ur_user
          (filter (fun r => (ur_role r =? name)%string)
             (filter (fun r => (ur_group r =? group)%N) roles))) ->
    exists r, In r roles /\ ur_user r = user_id user /\ ur_group r = group
              /\ ur_role r = name).
  { intros name Hin. apply in_map_iff in Hin. destruct Hin as (r & Hu & Hin).
    apply filter_In in Hin. destruct Hin as [Hin Hname].
    apply filter_In in Hin. destruct Hin as [Hin Hgroup].
    apply String.eqb_eq in Hname. apply N.eqb_eq in Hgroup. exists r. auto. }
  assert (Hpass : forall name allowed,
    In name allowed ->
    In (user_id user)
       (map ur_user
          (filter (fun r => (ur_role r =? name)%string)
             (filter (fun r => (ur_group r =? group)%N) roles))) ->
    existsb (fun r => (ur_user r =? user_id user)%N && (ur_group r =? group)%N
                      && string_in (ur_role r) allowed) roles = true).
  { intros name allowed Hallowed Hin.
    destruct (Hrow name Hin) as (r & Hr & Hu & Hg & Hn).
    apply existsb_exists. exists r. split; [exact Hr|].
    rewrite Hu, Hg, Hn, !N.eqb_refl.
    rewrite (proj2 (string_in_spec name allowed) Hallowed). reflexivity. }
  split; [|split].
  - intros Hin. unfold PermissionManager.is_admin.
    destruct (is_superuser user); [reflexivity|].
    destruct (Hrow _ Hin) as (r & Hr & Hu & _ & Hn).
    apply existsb_exists. exists r. split; [exact Hr|].
    rewrite Hu, Hn, N.eqb_refl. reflexivity.
  - unfold is_validator_in_group. destruct (is_superuser user); [reflexivity|].
    intros [Hin|Hin]; [apply (Hpass "admin"%string)|apply (Hpass "validator"%string)];
      cbn; tauto.
  - unfold is_editor_in_group. destruct (is_superuser user); [reflexivity|].
    intros [Hin|[Hin|Hin]];
      [apply (Hpass "admin"%string)|apply (Hpass "validator"%string)
      |apply (Hpass "editor"%string)]; cbn; tauto.
Qed.

(** X29.  For a caller who passes [_can_approve], [approve] answers HTTP
    400 exactly when the [conflicts] action of the merge request lists a
    conflict that is not resolved. *)
Theorem approve_blocked_by_listed_conflict
  (d : Db) (pk : UUID) (merge_request : MergeRequest) (request_user : User)
  (now : Timestamp) :
  get_object mr_id (merge_requests d) pk = Some merge_request ->
  MergeRequestViewSet._can_approve request_user = true ->
  status (fst (MergeRequestViewSet.approve request_user now pk d))
  = HTTP_400_BAD_REQUEST
  <-> exists rows c,
        ApiViews.MergeRequest_conflicts pk d = Some rows
        /\ In c rows /\ resolved c = false.
Proof.
  intros Hget Hcan.
  unfold MergeRequestViewSet.approve, ApiViews.MergeRequest_conflicts.
  rewrite Hget, Hcan. cbn [negb].
  destruct (Nat.ltb_spec 0 (MergeRequestViewSet.unresolved_conflicts
                              merge_request d)) as [Hpos|Hzero].
  - split; [|reflexivity]. intros _. eexists.
    unfold MergeRequestViewSet.unresolved_conflicts in Hpos.
    destruct (filter (fun c => (mc_merge_request c =? mr_id merge_request)%N
                               && negb (resolved c)) (conflicts d))
      as [|c rest] eqn:Hf; [cbn in Hpos; lia|].
    assert (Hc : In c (filter (fun c => (mc_merge_request c =? mr_id merge_request)%N
                                        && negb (resolved c)) (conflicts d)))
      by (rewrite Hf; left; reflexivity).
    apply filter_In in Hc. destruct Hc as [Hin Hc].
    apply andb_true_iff in Hc. destruct Hc as [Hb Hr].
    apply negb_true_iff in Hr.
    exists c. split; [reflexivity|]. split; [|exact Hr].
    apply filter_In. auto.
  - split.
    + unfold try_except.
      destruct (MergeRequestViewSet.approve_and_merge request_user now
                  merge_request d) as [[e|resp] d'] eqn:Hrun; cbn.
      * discriminate.
      * unfold MergeRequestViewSet.approve_and_merge, bind, get, deref,
          modify, ret in Hrun.
        destruct (find _ (branches d)); [|discriminate].
        destruct (find _ (branches d)); [|discriminate].
        destruct (MergeService.merge_branches _ _ d) as [[e1|n] d1];
          [discriminate|].
        injection Hrun as <- _. discriminate.
    + intros (rows & c & [= <-] & Hin & Hr). exfalso.
      apply filter_In in Hin. destruct Hin as [Hin Hb].
      assert (Hc : In c (filter (fun c => (mc_merge_request c =? mr_id merge_request)%N
                                          && negb (resolved c)) (conflicts d))).
      { apply filter_In. split; [exact Hin|]. rewrite Hb, Hr. reflexivity. }
      unfold MergeRequestViewSet.unresolved_conflicts in Hzero.
      destruct (filter _ (conflicts d)); [contradiction|cbn in Hzero; lia].
Qed.

(** X30.  On a layer that belongs to a group, whoever may create a branch
    may edit every branch of that group. *)
Theorem can_create_branch_implies_edit
  (roles : list UserRole) (user : User) (group : GroupId) (has_perm : bool)
  (branch : EditBranch) :
  eb_group branch = Some group ->
  can_create_branch roles user (Some group) has_perm = true ->
  can_edit_branch roles user branch = true.
Proof.
  intros Hgroup. unfold can_create_branch, can_edit_branch.
  destruct (PermissionManager.is_admin roles user); [reflexivity|].
  destruct (eb_created_by branch =? user_id user)%N; [reflexivity|].
  rewrite Hgroup. tauto.
Qed.

End MembersAndConflicts.

(** X29, for a superuser and the open conflict of the example. *)
Lemma approve_blocked_by_listed_conflict_witness :
  status (fst (MergeRequestViewSet.approve Examples.alice 5%Z 1%N
                 (Examples.database Examples.edited_on_both MR_conflicts
                    [Examples.open_conflict])))
  = HTTP_400_BAD_REQUEST
  <-> exists rows c,
        ApiViews.MergeRequest_conflicts 1%N
          (Examples.database Examples.edited_on_both MR_conflicts
             [Examples.open_conflict]) = Some rows
        /\ In c rows /\ resolved c = false.
Proof.
  apply (@approve_blocked_by_listed_conflict PointSpatial
           (Examples.database Examples.edited_on_both MR_conflicts
              [Examples.open_conflict])
           1%N (Examples.request MR_conflicts) Examples.alice 5%Z);
    reflexivity.
Defined.

(** X30, for the editor of group 7 and the branch [master]. *)
Lemma can_create_branch_implies_edit_witness :
  Permissions.can_edit_branch MoreExamples.roles Examples.bob Examples.master
  = true.
Proof.
  apply (can_create_branch_implies_edit MoreExamples.roles Examples.bob 7%N
           false Examples.master); reflexivity.
Defined.
